(** * Banking notification service: routing, budgets, dedup, retry, digest

    A shallow embedding of the decision-and-delivery pipeline of the
    notification service (router, rate limiter, deduplication service,
    retry service, digest service, user preferences, SMS handler) and the
    properties its specification states about it.

    Conventions.
    - Instants are [Z] milliseconds since the epoch ([Date.now()]).
    - Redis keys are the strings built by [REDIS_KEYS]; every key carries
      the instant at which it expires, and a key is visible at [now] iff
      [now] is strictly before that instant.
    - A [Promise] that rejects is an [Outcome] built with [Throw]; the world
      reached before the rejection is kept.
    - External collaborators (providers, the AES helper, the uuid source,
      the process clock zone) are the fields of an environment [Env].
    - A call reads the clock once: every [Date.now()] and [new Date()] of
      one call is the instant [now] the call is given.
    - The channel attempts of a [route] call are started together and
      awaited with [Promise.all]: they run interleaved, each from one
      [await] to the next.  The order in which the awaited operations
      complete is a field of the environment, and the properties hold for
      every such order.
    - Log lines are left out; [provider_calls] records the calls that
      reached a provider. *)

From Stdlib Require Import ZArith List String Ascii Bool Lia DecimalString Sorted.
From stdpp Require Import base option gmap strings list fin_maps.

Local Open Scope string_scope.
Local Open Scope Z_scope.

Set Default Proof Using "Type".

(* ================================================================== *)
(** ** Types (types/index.ts)                                          *)
(* ================================================================== *)

Module Types.

Inductive NotificationChannel := websocket | sms | email | push.

Inductive NotificationPriority := low | medium | high | critical.

Inductive NotificationEventType :=
| transfer_initiated | transfer_processing | transfer_approved
| transfer_rejected | transfer_completed | transfer_failed
| login_attempt | login_failed | account_locked | password_changed
| new_device_added | suspicious_activity | fraud_detected
| low_balance_alert | large_transaction | recurring_payment_due
| account_statement_ready | promotional_offer
| kyc_verification_needed | regulatory_alert | data_access_logged
| session_expired
| general_notification.

Inductive DeliveryStatus :=
| pending | sent | delivered | failed | retrying | rate_limited
| queued_for_digest.

Inductive DigestFrequency := immediate | hourly | daily | weekly.

#[global] Instance channel_eq_dec : EqDecision NotificationChannel.
Proof. solve_decision. Defined.
#[global] Instance priority_eq_dec : EqDecision NotificationPriority.
Proof. solve_decision. Defined.
#[global] Instance event_eq_dec : EqDecision NotificationEventType.
Proof. solve_decision. Defined.
#[global] Instance status_eq_dec : EqDecision DeliveryStatus.
Proof. solve_decision. Defined.
#[global] Instance frequency_eq_dec : EqDecision DigestFrequency.
Proof. solve_decision. Defined.

(** The string a channel or an event type is at run time (the TypeScript
    unions are unions of string literals). *)
Definition channelName (c : NotificationChannel) : string :=
  match c with
  | websocket => "websocket" | sms => "sms" | email => "email"
  | push => "push"
  end.

Definition eventTypeName (e : NotificationEventType) : string :=
  match e with
  | transfer_initiated => "transfer_initiated"
  | transfer_processing => "transfer_processing"
  | transfer_approved => "transfer_approved"
  | transfer_rejected => "transfer_rejected"
  | transfer_completed => "transfer_completed"
  | transfer_failed => "transfer_failed"
  | login_attempt => "login_attempt"
  | login_failed => "login_failed"
  | account_locked => "account_locked"
  | password_changed => "password_changed"
  | new_device_added => "new_device_added"
  | suspicious_activity => "suspicious_activity"
  | fraud_detected => "fraud_detected"
  | low_balance_alert => "low_balance_alert"
  | large_transaction => "large_transaction"
  | recurring_payment_due => "recurring_payment_due"
  | account_statement_ready => "account_statement_ready"
  | promotional_offer => "promotional_offer"
  | kyc_verification_needed => "kyc_verification_needed"
  | regulatory_alert => "regulatory_alert"
  | data_access_logged => "data_access_logged"
  | session_expired => "session_expired"
  | general_notification => "general_notification"
  end.

Record EventTypeConfig := mkEventTypeConfig {
  defaultChannels : list NotificationChannel;
  priority : NotificationPriority;
  bypassQuietHours : bool;
  allowDigest : bool;
  dedupWindowMs : Z
}.

(** [EVENT_TYPE_CONFIGS], entry by entry. *)
Definition EVENT_TYPE_CONFIGS (e : NotificationEventType) : EventTypeConfig :=
  match e with
  | transfer_initiated => mkEventTypeConfig [websocket] low false true 300000
  | transfer_processing => mkEventTypeConfig [websocket] low false true 300000
  | transfer_approved =>
      mkEventTypeConfig [websocket; push] medium false false 300000
  | transfer_rejected =>
      mkEventTypeConfig [websocket; sms; email] high false false 300000
  | transfer_completed =>
      mkEventTypeConfig [websocket; push] high false false 300000
  | transfer_failed =>
      mkEventTypeConfig [websocket; email] high false false 300000
  | login_attempt => mkEventTypeConfig [email] medium false true 300000
  | login_failed => mkEventTypeConfig [sms; email] high false false 60000
  | account_locked => mkEventTypeConfig [sms; websocket] critical true false 0
  | password_changed => mkEventTypeConfig [email] medium false false 0
  | new_device_added => mkEventTypeConfig [email] low false true 300000
  | suspicious_activity =>
      mkEventTypeConfig [sms; websocket] critical true false 0
  | fraud_detected =>
      mkEventTypeConfig [sms; websocket; push] critical true false 0
  | low_balance_alert => mkEventTypeConfig [email; push] low false true 86400000
  | large_transaction =>
      mkEventTypeConfig [sms; email] medium false false 300000
  | recurring_payment_due =>
      mkEventTypeConfig [email; push] low false true 86400000
  | account_statement_ready => mkEventTypeConfig [email] low false true 86400000
  | promotional_offer => mkEventTypeConfig [email] low false true 86400000
  | kyc_verification_needed =>
      mkEventTypeConfig [sms; email] critical false false 86400000
  | regulatory_alert => mkEventTypeConfig [email] critical false false 0
  | data_access_logged => mkEventTypeConfig [email] low false true 300000
  | session_expired => mkEventTypeConfig [websocket] low false false 300000
  | general_notification => mkEventTypeConfig [websocket] low false true 300000
  end.

Record NotificationPayload := mkPayload {
  p_notificationId : string;
  p_userId : string;
  p_eventType : NotificationEventType;
  p_eventSourceId : option string;
  p_title : string;
  p_message : string;
  p_data : option string;
  p_priority : NotificationPriority;
  p_channels : list NotificationChannel;
  p_correlationId : option string;
  p_createdAt : Z
}.

Record DeliveryResult := mkDeliveryResult {
  r_channel : NotificationChannel;
  r_status : DeliveryStatus;
  r_providerMessageId : option string;
  r_sentAt : option Z;
  r_error : option string
}.

Inductive Platform := ios | android.

Record PushToken := mkPushToken {
  t_token : string;
  t_deviceId : string;
  t_platform : Platform
}.

Record UserContactInfo := mkContact {
  c_userId : string;
  c_email : option string;
  c_emailVerified : option bool;
  c_phoneNumber : option string;
  c_phoneVerified : option bool;
  c_pushTokens : option (list PushToken)
}.

End Types.
Export Types.

(* ================================================================== *)
(** ** Configuration (config/config.ts)                                *)
(* ================================================================== *)

Module Config.

(** The fields of [config] that the modelled code reads. *)
Record t := mk {
  maxRetryAttempts : Z;
  retryDelaySchedule : Z -> option Z;
  dedupWindowMs : Z;
  smsPerHour : Z; smsPerDay : Z;
  emailPerHour : Z; emailPerDay : Z;
  pushPerHour : Z; pushPerDay : Z
}.

(** The defaults of [config/config.ts], the values in force when no
    environment variable overrides them: [maxRetryAttempts] 5;
    [retryDelaySchedule] 1 s, 5 s, 30 s, 5 min, 1 h for the counts 1 to 5;
    [dedupWindowMs] 5 minutes; 10/50, 20/100 and 30/200 sends per hour/day
    for sms, email and push. *)
Definition default : t :=
  mk 5
     (fun k =>
        if decide (k = 1) then Some 1000
        else if decide (k = 2) then Some 5000
        else if decide (k = 3) then Some 30000
        else if decide (k = 4) then Some 300000
        else if decide (k = 5) then Some 3600000
        else None)
     300000 10 50 20 100 30 200.

End Config.

(* ================================================================== *)
(** ** The Redis store (redis/client.ts and the commands the code uses) *)
(* ================================================================== *)

Module Redis.

(** Value kept under a [dedup:] key (the JSON text written by the code). *)
Record DedupData := mkDedupData {
  d_notificationId : string;
  d_sentAt : Z
}.

(** Element of a [digest:] list (the JSON text pushed by the digest
    service). *)
Record DigestEntry := mkDigestEntry {
  g_notificationId : string;
  g_eventType : NotificationEventType;
  g_title : string;
  g_message : string;
  g_createdAt : Z;
  g_data : option string
}.

(** One keyspace per kind of value: the three key families have distinct
    prefixes ([ratelimit:], [dedup:], [digest:]).  The second component of
    an entry is the instant it expires at, [None] when no expiry is set.
    [up] is false when commands sent to the server are rejected. *)
Record Store := mkStore {
  up : bool;
  counters : gmap string (Z * option Z);
  dedup : gmap string (DedupData * option Z);
  digests : gmap string (list DigestEntry * option Z)
}.

Definition REDIS_TTL_RATE_LIMIT_HOUR : Z := 3600.
Definition REDIS_TTL_RATE_LIMIT_DAY : Z := 86400.
Definition REDIS_TTL_DIGEST_QUEUE : Z := 604800.

Definition RATE_LIMIT_SMS_HOUR (userId : string) := "ratelimit:sms:hour:" +:+ userId.
Definition RATE_LIMIT_SMS_DAY (userId : string) := "ratelimit:sms:day:" +:+ userId.
Definition RATE_LIMIT_EMAIL_HOUR (userId : string) := "ratelimit:email:hour:" +:+ userId.
Definition RATE_LIMIT_EMAIL_DAY (userId : string) := "ratelimit:email:day:" +:+ userId.
Definition RATE_LIMIT_PUSH_HOUR (userId : string) := "ratelimit:push:hour:" +:+ userId.
Definition RATE_LIMIT_PUSH_DAY (userId : string) := "ratelimit:push:day:" +:+ userId.
Definition DEDUP (userId eventType sourceId : string) :=
  "dedup:" +:+ userId +:+ ":" +:+ eventType +:+ ":" +:+ sourceId.
Definition DIGEST_HOURLY (userId : string) := "digest:hourly:" +:+ userId.
Definition DIGEST_DAILY (userId : string) := "digest:daily:" +:+ userId.
Definition DIGEST_WEEKLY (userId : string) := "digest:weekly:" +:+ userId.

(** A key is visible while its expiry instant lies in the future. *)
Definition live (now : Z) (expiry : option Z) : bool :=
  match expiry with
  | None => true
  | Some e => now <? e
  end.

Definition visible {A} (now : Z) (m : gmap string (A * option Z)) (key : string)
  : option (A * option Z) :=
  match m !! key with
  | Some (v, e) => if live now e then Some (v, e) else None
  | None => None
  end.

(** [GET key] on a counter. *)
Definition get_count (s : Store) (now : Z) (key : string) : option Z :=
  fst <$> visible now (counters s) key.

(** [TTL key]: -2 for a missing key, -1 for a key without expiry, else the
    remaining time in seconds, rounded as the server does. *)
Definition ttl_of {A} (now : Z) (m : gmap string (A * option Z)) (key : string) : Z :=
  match visible now m key with
  | None => -2
  | Some (_, None) => -1
  | Some (_, Some e) => (e - now + 500) / 1000
  end.

Definition with_counters (s : Store) (c : gmap string (Z * option Z)) : Store :=
  mkStore (up s) c (dedup s) (digests s).
Definition with_dedup (s : Store) (d : gmap string (DedupData * option Z)) : Store :=
  mkStore (up s) (counters s) d (digests s).
Definition with_digests (s : Store) (g : gmap string (list DigestEntry * option Z)) : Store :=
  mkStore (up s) (counters s) (dedup s) g.

(** [INCR key]: a missing (or expired) key starts from 0 without expiry. *)
Definition incr (now : Z) (key : string) (s : Store) : Store :=
  match visible now (counters s) key with
  | Some (c, e) => with_counters s (<[key := (c + 1, e)]> (counters s))
  | None => with_counters s (<[key := (1, None)]> (counters s))
  end.

(** [EXPIRE key seconds] on a counter. *)
Definition expire_counter (now : Z) (key : string) (seconds : Z) (s : Store) : Store :=
  match visible now (counters s) key with
  | Some (c, _) => with_counters s (<[key := (c, Some (now + seconds * 1000))]> (counters s))
  | None => s
  end.

End Redis.

(* ================================================================== *)
(** ** Rate limiter (redis/RateLimiter.ts)                             *)
(* ================================================================== *)

Module RateLimiter.
Import Redis.

Record RateLimitResult := mkResult {
  allowed : bool;
  remaining : Z;
  limit : Z;
  resetAt : Z;
  waitMs : option Z
}.

Record UserRateLimits := mkLimits {
  smsPerHour : Z; smsPerDay : Z;
  emailPerHour : Z; emailPerDay : Z;
  pushPerHour : Z; pushPerDay : Z
}.

(** [Partial<UserRateLimits>]: a field is [None] when the key is absent. *)
Record PartialLimits := mkPartial {
  o_smsPerHour : option Z; o_smsPerDay : option Z;
  o_emailPerHour : option Z; o_emailPerDay : option Z;
  o_pushPerHour : option Z; o_pushPerDay : option Z
}.

Definition no_overrides : PartialLimits := mkPartial None None None None None None.

(** The constructor: the defaults come from the configuration. *)
Definition defaultLimits (cfg : Config.t) : UserRateLimits :=
  mkLimits (Config.smsPerHour cfg) (Config.smsPerDay cfg)
           (Config.emailPerHour cfg) (Config.emailPerDay cfg)
           (Config.pushPerHour cfg) (Config.pushPerDay cfg).

(** [{ ...this.defaultLimits, ...userLimits }]. *)
Definition merge (d : UserRateLimits) (u : PartialLimits) : UserRateLimits :=
  mkLimits (default (smsPerHour d) (o_smsPerHour u))
           (default (smsPerDay d) (o_smsPerDay u))
           (default (emailPerHour d) (o_emailPerHour u))
           (default (emailPerDay d) (o_emailPerDay u))
           (default (pushPerHour d) (o_pushPerHour u))
           (default (pushPerDay d) (o_pushPerDay u)).

Record ChannelKeys := mkKeys {
  hourKey : string; dayKey : string; hourLimit : Z; dayLimit : Z
}.

(** [getChannelKeys]; [None] is the thrown [Unknown channel] error. *)
Definition getChannelKeys (userId : string) (channel : NotificationChannel)
    (limits : UserRateLimits) : option ChannelKeys :=
  match channel with
  | sms => Some (mkKeys (RATE_LIMIT_SMS_HOUR userId) (RATE_LIMIT_SMS_DAY userId)
                        (smsPerHour limits) (smsPerDay limits))
  | email => Some (mkKeys (RATE_LIMIT_EMAIL_HOUR userId) (RATE_LIMIT_EMAIL_DAY userId)
                          (emailPerHour limits) (emailPerDay limits))
  | push => Some (mkKeys (RATE_LIMIT_PUSH_HOUR userId) (RATE_LIMIT_PUSH_DAY userId)
                         (pushPerHour limits) (pushPerDay limits))
  | websocket => None
  end.

(** The Lua script of [consumeLimit], run atomically by the server.  The
    reply is the four-element array of the script. *)
Definition consumeScript (now : Z) (k : ChannelKeys) (hourTTL dayTTL : Z)
    (s : Store) : (Z * Z * Z * Z) * Store :=
  let hourCount := default 0 (get_count s now (hourKey k)) in
  let dayCount := default 0 (get_count s now (dayKey k)) in
  if hourLimit k <=? hourCount then
    ((0, hourCount, hourLimit k, ttl_of now (counters s) (hourKey k)), s)
  else if dayLimit k <=? dayCount then
    ((0, dayCount, dayLimit k, ttl_of now (counters s) (dayKey k)), s)
  else
    let s1 := incr now (hourKey k) s in
    let s2 := expire_counter now (hourKey k) hourTTL s1 in
    let s3 := incr now (dayKey k) s2 in
    let s4 := expire_counter now (dayKey k) dayTTL s3 in
    let remaining := Z.min (hourLimit k - hourCount - 1) (dayLimit k - dayCount - 1) in
    ((1, remaining, hourLimit k, ttl_of now (counters s4) (hourKey k)), s4).

(** The result returned on the websocket channel and in the [catch]
    branch. *)
Definition unlimited (now : Z) : RateLimitResult := mkResult true (-1) (-1) now None.

(** [consumeLimit]: check and increment in one script call.  [None] is a
    rejected promise (the throw of [getChannelKeys], which sits outside the
    [try]). *)
Definition consumeLimit (cfg : Config.t) (now : Z) (userId : string)
    (channel : NotificationChannel) (userLimits : PartialLimits) (s : Store)
  : option (RateLimitResult * Store) :=
  match channel with
  | websocket => Some (unlimited now, s)
  | _ =>
    let limits := merge (defaultLimits cfg) userLimits in
    match getChannelKeys userId channel limits with
    | None => None
    | Some k =>
      if up s then
        let '((allowed, remaining, limit, ttl), s') :=
          consumeScript now k REDIS_TTL_RATE_LIMIT_HOUR REDIS_TTL_RATE_LIMIT_DAY s in
        let wait := if 0 <? ttl then ttl * 1000 else REDIS_TTL_RATE_LIMIT_HOUR * 1000 in
        Some (mkResult (allowed =? 1) remaining limit (now + wait)
                       (if allowed =? 0 then Some wait else None), s')
      else
        Some (unlimited now, s)
    end
  end.

(** The waiting time drawn from a [TTL] reply: the reply in milliseconds
    when it is positive, else the length of the window. *)
Definition waitOf (ttl windowSeconds : Z) : Z :=
  if 0 <? ttl then ttl * 1000 else windowSeconds * 1000.

(** [checkLimit]: the check without the increment.  It only reads the
    store.  [None] is a rejected promise, as for [consumeLimit]. *)
Definition checkLimit (cfg : Config.t) (now : Z) (userId : string)
    (channel : NotificationChannel) (userLimits : PartialLimits) (s : Store)
  : option RateLimitResult :=
  match channel with
  | websocket => Some (unlimited now)
  | _ =>
    let limits := merge (defaultLimits cfg) userLimits in
    match getChannelKeys userId channel limits with
    | None => None
    | Some k =>
      if up s then
        let currentHour := default 0 (get_count s now (hourKey k)) in
        let currentDay := default 0 (get_count s now (dayKey k)) in
        if hourLimit k <=? currentHour then
          let wait := waitOf (ttl_of now (counters s) (hourKey k))
                             REDIS_TTL_RATE_LIMIT_HOUR in
          Some (mkResult false 0 (hourLimit k) (now + wait) (Some wait))
        else if dayLimit k <=? currentDay then
          let wait := waitOf (ttl_of now (counters s) (dayKey k))
                             REDIS_TTL_RATE_LIMIT_DAY in
          Some (mkResult false 0 (dayLimit k) (now + wait) (Some wait))
        else
          let remaining := Z.min (hourLimit k - currentHour) (dayLimit k - currentDay) in
          let wait := waitOf (ttl_of now (counters s) (hourKey k))
                             REDIS_TTL_RATE_LIMIT_HOUR in
          Some (mkResult true remaining (hourLimit k) (now + wait) None)
      else Some (unlimited now)
    end
  end.

(** [incrementCounter]: the pipeline [INCR], [EXPIRE], [INCR], [EXPIRE];
    a store error is logged and swallowed.  No cap is looked at. *)
Definition incrementCounter (cfg : Config.t) (now : Z) (userId : string)
    (channel : NotificationChannel) (userLimits : PartialLimits) (s : Store)
  : option Store :=
  match channel with
  | websocket => Some s
  | _ =>
    let limits := merge (defaultLimits cfg) userLimits in
    match getChannelKeys userId channel limits with
    | None => None
    | Some k =>
      if up s then
        let s1 := incr now (hourKey k) s in
        let s2 := expire_counter now (hourKey k) REDIS_TTL_RATE_LIMIT_HOUR s1 in
        let s3 := incr now (dayKey k) s2 in
        Some (expire_counter now (dayKey k) REDIS_TTL_RATE_LIMIT_DAY s3)
      else Some s
    end
  end.

(** [getUsage]: the hour and day counts of the three budgeted channels, in
    the order sms, email, push.  Nothing catches a store error here. *)
Definition getUsage (cfg : Config.t) (now : Z) (userId : string) (s : Store)
  : option (list (NotificationChannel * (Z * Z))) :=
  if up s then
    Some (omap (fun channel =>
                  match getChannelKeys userId channel (defaultLimits cfg) with
                  | Some k =>
                    Some (channel, (default 0 (get_count s now (hourKey k)),
                                    default 0 (get_count s now (dayKey k))))
                  | None => None
                  end) [sms; email; push])
  else None.

(** [resetLimits]: deletes the hour and day keys of one channel, or of the
    three budgeted channels.  [None] is a rejected promise: the key lookup
    throws for the websocket channel and nothing catches a store error. *)
Definition resetLimits (cfg : Config.t) (userId : string)
    (channel : option NotificationChannel) (s : Store) : option Store :=
  let channels := match channel with Some c => [c] | None => [sms; email; push] end in
  match mapM (fun ch => getChannelKeys userId ch (defaultLimits cfg)) channels with
  | None => None
  | Some ks =>
    if up s then
      Some (with_counters s
              (fold_left (fun m k => delete (dayKey k) (delete (hourKey k) m))
                         ks (counters s)))
    else None
  end.

End RateLimiter.

(* ================================================================== *)
(** ** Deduplication service (redis/DeduplicationService.ts)           *)
(* ================================================================== *)

Module DeduplicationService.
Import Redis.

Record DedupResult := mkDedupResult {
  isDuplicate : bool;
  originalNotificationId : option string;
  lastSentAt : option Z
}.

Definition not_duplicate : DedupResult := mkDedupResult false None None.

(** [generateKey]: a missing source id is the literal [none]. *)
Definition generateKey (userId : string) (eventType : NotificationEventType)
    (sourceId : option string) : string :=
  DEDUP userId (eventTypeName eventType) (default "none" sourceId).

(** [Math.ceil((windowMs ?? this.defaultWindowMs) / 1000)]. *)
Definition ttlSeconds (cfg : Config.t) (windowMs : option Z) : Z :=
  - ((- default (Config.dedupWindowMs cfg) windowMs) / 1000).

(** The Lua script of [checkAndMark].  [SETEX] refuses an expiry that is
    not positive: the script then fails as a whole ([None]) and the [catch]
    branch of the caller runs. *)
Definition checkAndMarkScript (now : Z) (key : string) (data : DedupData) (ttl : Z)
    (s : Store) : option (option DedupData * Store) :=
  match visible now (dedup s) key with
  | Some (existing, _) => Some (Some existing, s)
  | None =>
    if 0 <? ttl then
      Some (None, with_dedup s (<[key := (data, Some (now + ttl * 1000))]> (dedup s)))
    else None
  end.

(** [checkAndMark]: never rejects; any store error is "not duplicate". *)
Definition checkAndMark (cfg : Config.t) (now : Z) (userId : string)
    (eventType : NotificationEventType) (sourceId : option string)
    (notificationId : string) (windowMs : option Z) (s : Store)
  : DedupResult * Store :=
  let key := generateKey userId eventType sourceId in
  let ttl := ttlSeconds cfg windowMs in
  if up s then
    match checkAndMarkScript now key (mkDedupData notificationId now) ttl s with
    | Some (Some data, s') =>
        (mkDedupResult true (Some (d_notificationId data)) (Some (d_sentAt data)), s')
    | Some (None, s') => (not_duplicate, s')
    | None => (not_duplicate, s)
    end
  else (not_duplicate, s).

(** [checkDuplicate]: the read-only check. *)
Definition checkDuplicate (now : Z) (userId : string)
    (eventType : NotificationEventType) (sourceId : option string) (s : Store)
  : DedupResult :=
  if up s then
    match visible now (dedup s) (generateKey userId eventType sourceId) with
    | Some (data, _) =>
        mkDedupResult true (Some (d_notificationId data)) (Some (d_sentAt data))
    | None => not_duplicate
    end
  else not_duplicate.

(** [markSent]: [SETEX key ttl data]; a store error (the store down, or an
    expiry that is not positive) is logged and swallowed. *)
Definition markSent (cfg : Config.t) (now : Z) (userId : string)
    (eventType : NotificationEventType) (sourceId : option string)
    (notificationId : string) (windowMs : option Z) (s : Store) : Store :=
  let key := generateKey userId eventType sourceId in
  let ttl := ttlSeconds cfg windowMs in
  if up s && (0 <? ttl) then
    with_dedup s (<[key := (mkDedupData notificationId now, Some (now + ttl * 1000))]>
                    (dedup s))
  else s.

(** [clearEntry]: [DEL key]; a store error is logged and swallowed. *)
Definition clearEntry (userId : string) (eventType : NotificationEventType)
    (sourceId : option string) (s : Store) : Store :=
  if up s
  then with_dedup s (delete (generateKey userId eventType sourceId) (dedup s))
  else s.

(** [getEntryTTL]: the [TTL] reply, -1 when the store fails. *)
Definition getEntryTTL (now : Z) (userId : string)
    (eventType : NotificationEventType) (sourceId : option string) (s : Store) : Z :=
  if up s then ttl_of now (dedup s) (generateKey userId eventType sourceId) else -1.

End DeduplicationService.

(* ================================================================== *)
(** ** External collaborators                                          *)
(* ================================================================== *)

(** What a channel handler call produces: a [DeliveryResult], or a thrown
    error with its message. *)
Inductive ProviderOutcome :=
| Returned (r : DeliveryResult)
| Raised (message : string).

(** The collaborators the core consumes through narrow interfaces.  The
    handlers take the instant of the call as their last argument. *)
Record Env := mkEnv {
  (** offset from UTC, in minutes, of the zone of the process at an
      instant (what [Date.prototype.toTimeString] prints in) *)
  localOffsetMinutes : Z -> Z;
  (** [decryptField], [None] when the AES helper throws *)
  decryptField : string -> option string;
  (** the stream of fresh ids drawn by [uuidv4()] *)
  uuidv4 : nat -> string;
  (** [Date.prototype.toISOString] *)
  toISOString : Z -> string;
  webSocketSend : string -> NotificationPayload -> Z -> ProviderOutcome;
  smsSend : string -> NotificationPayload -> Z -> ProviderOutcome;
  emailSend : string -> NotificationPayload -> Z -> ProviderOutcome;
  pushSend : list (string * Platform) -> NotificationPayload -> Z -> ProviderOutcome;
  (** [emailHandler.sendDigest]: catches its own errors *)
  sendDigest : string -> list NotificationPayload -> DigestFrequency -> Z -> DeliveryResult;
  (** the order in which the operations awaited by the channel attempts of
      a notification (by its id) complete; an entry names an attempt by its
      position among the attempts started.  The program does not fix this
      order: the latencies of the store, the providers and the database do *)
  completionOrder : string -> list nat
}.

(* ================================================================== *)
(** ** User preferences (models/mongodb/UserPreferences.ts)            *)
(* ================================================================== *)

Module UserPreferences.

Record WebSocketChannel := mkWs { ws_enabled : bool; onWhenOnlineOnly : bool }.

Record SMSChannel := mkSms {
  sms_enabled : bool;
  phoneNumber : option string;
  sms_verifiedAt : option Z
}.

Record EmailChannel := mkEmail {
  email_enabled : bool;
  address : option string;
  email_verifiedAt : option Z;
  digestEnabled : bool;
  digestFrequency : DigestFrequency;
  digestTime : string
}.

Record PushDevice := mkDevice {
  deviceId : string;
  token : string;
  platform : Platform
}.

Record PushChannel := mkPush { push_enabled : bool; devices : list PushDevice }.

Record Channels := mkChannels {
  ch_websocket : WebSocketChannel;
  ch_sms : SMSChannel;
  ch_email : EmailChannel;
  ch_push : PushChannel
}.

Record NotificationTypePreference := mkTypePref {
  nt_enabled : bool;
  nt_channels : list NotificationChannel;
  quietHoursOverride : bool
}.

Record QuietHours := mkQuietHours {
  qh_enabled : bool;
  qh_start : string;
  qh_end : string;
  timezone : string;
  criticalAlertsBypass : bool
}.

Record DoNotContact := mkDnc { dnc_enabled : bool }.

(** A preferences document.  The schema gives every field a default, so a
    loaded document has all of them. *)
Record t := mk {
  userId : string;
  channels : Channels;
  notificationTypes : NotificationEventType -> option NotificationTypePreference;
  quietHours : QuietHours;
  rateLimits : RateLimiter.UserRateLimits;
  doNotContact : DoNotContact
}.

(** The document [create({ userId })] stores: the schema defaults. *)
Definition schemaDefault (userId : string) : t :=
  mk userId
     (mkChannels (mkWs true true) (mkSms true None None)
                 (mkEmail true None None false daily "09:00")
                 (mkPush true []))
     (fun _ => None)
     (mkQuietHours false "22:00" "07:00" "America/New_York" true)
     (RateLimiter.mkLimits 10 50 20 100 30 200)
     (mkDnc false).

(** [if (!value) return null; try { return decryptField(value) } catch
    { return null }]. *)
Definition decrypted (E : Env) (field : option string) : option string :=
  match field with
  | None => None
  | Some enc => if decide (enc = "") then None else decryptField E enc
  end.

Definition getDecryptedPhoneNumber (E : Env) (p : t) : option string :=
  decrypted E (phoneNumber (ch_sms (channels p))).

Definition getDecryptedEmail (E : Env) (p : t) : option string :=
  decrypted E (address (ch_email (channels p))).

Definition isChannelEnabled (p : t) (channel : NotificationChannel) : bool :=
  if dnc_enabled (doNotContact p) then false
  else match channel with
       | websocket => ws_enabled (ch_websocket (channels p))
       | sms => sms_enabled (ch_sms (channels p))
       | email => email_enabled (ch_email (channels p))
       | push => push_enabled (ch_push (channels p))
       end.

Definition getEnabledChannelsForEvent (p : t) (eventType : NotificationEventType)
    (defaultChannels : list NotificationChannel) : list NotificationChannel :=
  if dnc_enabled (doNotContact p) then []
  else
    let prefs := notificationTypes p eventType in
    match prefs with
    | Some tp =>
      if negb (nt_enabled tp) then []
      else
        let configured :=
          match nt_channels tp with [] => defaultChannels | cs => cs end in
        List.filter (isChannelEnabled p) configured
    | None => List.filter (isChannelEnabled p) defaultChannels
    end.

(** Two decimal digits. *)
Definition digit (d : Z) : ascii := ascii_of_nat (48 + Z.to_nat d).
Definition pad2 (n : Z) : string :=
  String (digit (n / 10)) (String (digit (n mod 10)) EmptyString).

(** [currentTime.toTimeString().slice(0, 5)]: hours and minutes of the
    instant on the clock of the process. *)
Definition toTimeStringHHMM (E : Env) (now : Z) : string :=
  let minutes := now / 60000 + localOffsetMinutes E now in
  pad2 ((minutes / 60) mod 24) +:+ ":" +:+ pad2 (minutes mod 60).

(** [isInQuietHours(now)]: [start], [end] and the current time are compared
    as strings. *)
Definition isInQuietHours (E : Env) (p : t) (now : Z) : bool :=
  if negb (qh_enabled (quietHours p)) then false
  else
    let currentHHMM := toTimeStringHHMM E now in
    let start := qh_start (quietHours p) in
    let end_ := qh_end (quietHours p) in
    if String.ltb end_ start then
      negb (String.ltb currentHHMM start) || String.ltb currentHHMM end_
    else
      negb (String.ltb currentHHMM start) && String.ltb currentHHMM end_.

Definition shouldBypassQuietHours (p : t) (eventType : NotificationEventType) : bool :=
  match notificationTypes p eventType with
  | Some tp => if quietHoursOverride tp then true
               else criticalAlertsBypass (quietHours p)
  | None => criticalAlertsBypass (quietHours p)
  end.

Definition with_timezone (p : t) (tz : string) : t :=
  mk (userId p) (channels p) (notificationTypes p)
     (mkQuietHours (qh_enabled (quietHours p)) (qh_start (quietHours p))
                   (qh_end (quietHours p)) tz
                   (criticalAlertsBypass (quietHours p)))
     (rateLimits p) (doNotContact p).

End UserPreferences.

(* ================================================================== *)
(** ** SMS handler (channels/SMSHandler.ts)                            *)
(* ================================================================== *)

Module SMSHandler.

Definition newline : string := String (ascii_of_nat 10) EmptyString.

Definition unsubscribe : string := newline +:+ "Reply STOP to unsubscribe.".

(** [formatMessage]: title and message, cut to leave room for the
    unsubscribe line.  [String.length] counts the code units of the
    string. *)
Definition formatMessage (notification : NotificationPayload) : string :=
  let message := p_title notification +:+ ": " +:+ p_message notification in
  let maxLength := (160 - String.length unsubscribe)%nat in
  let message :=
    if (maxLength <? String.length message)%nat
    then substring 0 (maxLength - 3) message +:+ "..."
    else message in
  message +:+ unsubscribe.

(** The handler as built by its constructor: the enable flag of the
    configuration, whether a Twilio client was created, the sender number
    and the status callback. *)
Record Handler := mkHandler {
  enabled : bool;
  hasClient : bool;
  fromNumber : string;
  statusCallbackUrl : option string
}.

(** The argument of [client.messages.create]. *)
Record TwilioRequest := mkTwilioRequest {
  tw_body : string;
  tw_from : string;
  tw_to : string;
  tw_statusCallback : option string
}.

(** What a rejected Twilio call throws: an object with an optional code and
    message, which may or may not be an [Error]. *)
Record TwilioError := mkTwilioError {
  e_code : option Z;
  e_message : option string;
  e_isError : bool
}.

Inductive TwilioReply :=
| Created (sid : string)
| Rejected (error : TwilioError).

Definition isDigit (c : ascii) : bool :=
  ((48 <=? nat_of_ascii c) && (nat_of_ascii c <=? 57))%nat.

Definition isNonZeroDigit (c : ascii) : bool :=
  ((49 <=? nat_of_ascii c) && (nat_of_ascii c <=? 57))%nat.

Fixpoint allDigits (s : string) : bool :=
  match s with
  | EmptyString => true
  | String c rest => isDigit c && allDigits rest
  end.

(** [validatePhoneNumber]: the test of [/^\+[1-9]\d{1,14}$/]. *)
Definition validatePhoneNumber (phone : string) : bool :=
  match phone with
  | String plus (String first rest) =>
    bool_decide (plus = ascii_of_nat 43) && isNonZeroDigit first && allDigits rest
    && ((1 <=? String.length rest) && (String.length rest <=? 14))%nat
  | _ => false
  end.

(** The decimal text of a number, as a template literal prints it. *)
Definition decimal (z : Z) : string :=
  DecimalString.NilZero.string_of_int (Z.to_int z).

(** [extractTwilioError]: a code and a message that are both truthy give
    the Twilio text; else the message of an [Error], else a fixed text. *)
Definition extractTwilioError (error : TwilioError) : string :=
  match e_code error, (match e_message error with
                       | Some m => if bool_decide (m = "") then None else Some m
                       | None => None
                       end) with
  | Some code, Some message =>
    if bool_decide (code = 0)
    then (if e_isError error then default "" (e_message error)
          else "Unknown Twilio error")
    else "Twilio Error " +:+ decimal code +:+ ": " +:+ message
  | _, _ =>
    if e_isError error then default "" (e_message error) else "Unknown Twilio error"
  end.

(** [send]: the result, and the requests that reached Twilio. *)
Definition send (h : Handler) (twilio : TwilioRequest -> TwilioReply) (now : Z)
    (toPhoneNumber : string) (notification : NotificationPayload)
  : DeliveryResult * list TwilioRequest :=
  if negb (enabled h) || negb (hasClient h) then
    (mkDeliveryResult sms failed None None (Some "SMS channel not enabled"), [])
  else if negb (validatePhoneNumber toPhoneNumber) then
    (mkDeliveryResult sms failed None None (Some "Invalid phone number format"), [])
  else
    let request :=
      mkTwilioRequest (formatMessage notification) (fromNumber h) toPhoneNumber
                      (statusCallbackUrl h) in
    match twilio request with
    | Created sid => (mkDeliveryResult sms sent (Some sid) (Some now) None, [request])
    | Rejected error =>
      (mkDeliveryResult sms failed None None (Some (extractTwilioError error)), [request])
    end.

End SMSHandler.

(* ================================================================== *)
(** ** Delivery records (models/postgres/NotificationEvent.ts)         *)
(* ================================================================== *)

Module NotificationEvent.

Record t := mk {
  notificationId : string;
  userId : string;
  eventType : NotificationEventType;
  eventSourceId : option string;
  title : string;
  message : string;
  metadata : option string;
  channel : NotificationChannel;
  priority : NotificationPriority;
  deliveryStatus : DeliveryStatus;
  deliveryProvider : option string;
  providerMessageId : option string;
  retryCount : Z;
  lastRetryAt : option Z;
  nextRetryAt : option Z;
  errorMessage : option string;
  createdAt : Z;
  sentAt : option Z;
  deliveredAt : option Z;
  readAt : option Z;
  correlationId : option string;
  idempotencyKey : option string
}.

Definition with_status (n : t) (st : DeliveryStatus) : t :=
  mk (notificationId n) (userId n) (eventType n) (eventSourceId n) (title n)
     (message n) (metadata n) (channel n) (priority n) st
     (deliveryProvider n) (providerMessageId n) (retryCount n) (lastRetryAt n)
     (nextRetryAt n) (errorMessage n) (createdAt n) (sentAt n) (deliveredAt n)
     (readAt n) (correlationId n) (idempotencyKey n).

(** [shouldRetry(maxAttempts)]. *)
Definition shouldRetry (n : t) (maxAttempts : Z) : bool :=
  if negb (bool_decide (deliveryStatus n = failed))
     && negb (bool_decide (deliveryStatus n = retrying))
  then false
  else retryCount n <? maxAttempts.

(** The field assignments of [markSent()] (no provider message id is passed
    by the retry service). *)
Definition markSent (now : Z) (n : t) : t :=
  mk (notificationId n) (userId n) (eventType n) (eventSourceId n) (title n)
     (message n) (metadata n) (channel n) (priority n) sent
     (deliveryProvider n) (providerMessageId n) (retryCount n) (lastRetryAt n)
     (nextRetryAt n) (errorMessage n) (createdAt n) (Some now) (deliveredAt n)
     (readAt n) (correlationId n) (idempotencyKey n).

(** The field assignments of [markFailed(error)]. *)
Definition markFailed (now : Z) (error : string) (n : t) : t :=
  mk (notificationId n) (userId n) (eventType n) (eventSourceId n) (title n)
     (message n) (metadata n) (channel n) (priority n) failed
     (deliveryProvider n) (providerMessageId n) (retryCount n) (Some now)
     (nextRetryAt n) (Some error) (createdAt n) (sentAt n) (deliveredAt n)
     (readAt n) (correlationId n) (idempotencyKey n).

(** The field assignments of [markRetrying(nextRetryAt)]. *)
Definition markRetrying (now : Z) (next : Z) (n : t) : t :=
  mk (notificationId n) (userId n) (eventType n) (eventSourceId n) (title n)
     (message n) (metadata n) (channel n) (priority n) retrying
     (deliveryProvider n) (providerMessageId n) (retryCount n + 1) (Some now)
     (Some next) (errorMessage n) (createdAt n) (sentAt n) (deliveredAt n)
     (readAt n) (correlationId n) (idempotencyKey n).

(** The table.  [notification_id] is the primary key and
    [idx_notification_idempotency] is unique over the non-null keys. *)
Definition table := list t.

Definition conflicts (row : t) (existing : t) : bool :=
  bool_decide (notificationId existing = notificationId row)
  || match idempotencyKey row, idempotencyKey existing with
     | Some k, Some k' => bool_decide (k = k')
     | _, _ => false
     end.

(** [NotificationEvent.create(row)]: [None] when the insert violates a
    unique constraint. *)
Definition create (row : t) (tbl : table) : option table :=
  if existsb (conflicts row) tbl then None else Some (tbl ++ [row])%list.

(** [instance.save()]: writes the instance over the row with its primary
    key.  Between the load of an instance and its save the code changes
    existing rows of the table nowhere else, so writing the whole instance
    and writing its changed fields coincide. *)
Definition save (n : t) (tbl : table) : table :=
  List.map (fun row => if bool_decide (notificationId row = notificationId n)
                       then n else row) tbl.

(** [NotificationEvent.update({ deliveryStatus }, { where: { notificationId } })]. *)
Definition update_status (id : string) (st : DeliveryStatus) (tbl : table) : table :=
  List.map (fun row => if bool_decide (notificationId row = id)
                       then with_status row st else row) tbl.

End NotificationEvent.

(* ================================================================== *)
(** ** Dead letter queue (models/postgres/DeadLetterQueue.ts)          *)
(* ================================================================== *)

Module DeadLetterQueue.

Inductive DLQStatus := pending_review | under_review | resolved | abandoned.

(** A row; the generated primary key [id] and the resolution columns, all
    null at creation, are left out. *)
Record t := mk {
  originalNotificationId : string;
  userId : string;
  eventType : NotificationEventType;
  eventSourceId : option string;
  channel : NotificationChannel;
  priority : NotificationPriority;
  title : string;
  message : string;
  metadata : option string;
  failureReason : string;
  totalAttempts : Z;
  lastAttemptAt : Z;
  failureHistory : list (Z * string);
  status : DLQStatus
}.

End DeadLetterQueue.

(* ================================================================== *)
(** ** The world the services act on                                   *)
(* ================================================================== *)

(** A call that reached a provider. *)
Inductive ProviderCall :=
| ChannelSend (channel : NotificationChannel) (notificationId : string)
| DigestSend (toEmail : string) (notificationIds : list string).

Record World := mkWorld {
  redis : Redis.Store;
  (** false when the preferences store rejects queries *)
  mongo_up : bool;
  preferences : gmap string UserPreferences.t;
  notification_events : NotificationEvent.table;
  dead_letter_queue : list DeadLetterQueue.t;
  provider_calls : list ProviderCall;
  (** number of ids drawn from [uuidv4] so far *)
  uuid_next : nat
}.

Definition with_redis (w : World) (s : Redis.Store) : World :=
  mkWorld s (mongo_up w) (preferences w) (notification_events w)
          (dead_letter_queue w) (provider_calls w) (uuid_next w).
Definition with_preferences (w : World) (p : gmap string UserPreferences.t) : World :=
  mkWorld (redis w) (mongo_up w) p (notification_events w)
          (dead_letter_queue w) (provider_calls w) (uuid_next w).
Definition with_events (w : World) (t : NotificationEvent.table) : World :=
  mkWorld (redis w) (mongo_up w) (preferences w) t
          (dead_letter_queue w) (provider_calls w) (uuid_next w).
Definition with_dlq (w : World) (q : list DeadLetterQueue.t) : World :=
  mkWorld (redis w) (mongo_up w) (preferences w) (notification_events w)
          q (provider_calls w) (uuid_next w).
Definition with_call (w : World) (c : ProviderCall) : World :=
  mkWorld (redis w) (mongo_up w) (preferences w) (notification_events w)
          (dead_letter_queue w) (provider_calls w ++ [c])%list (uuid_next w).
Definition draw_uuid (w : World) : World :=
  mkWorld (redis w) (mongo_up w) (preferences w) (notification_events w)
          (dead_letter_queue w) (provider_calls w) (S (uuid_next w)).

(** The result of an asynchronous operation: a value, or a rejection with
    its message; either way the world reached. *)
Inductive Outcome (A : Type) :=
| Ok (a : A) (w : World)
| Throw (message : string) (w : World).
Arguments Ok {A} a w.
Arguments Throw {A} message w.

Definition bind {A B} (m : Outcome A) (k : A -> World -> Outcome B) : Outcome B :=
  match m with
  | Ok a w => k a w
  | Throw msg w => Throw msg w
  end.

Definition world_of {A} (m : Outcome A) : World :=
  match m with Ok _ w => w | Throw _ w => w end.

(** [UserPreferences.findByUserId]. *)
Definition findByUserId (userId : string) (w : World) : Outcome (option UserPreferences.t) :=
  if mongo_up w then Ok (preferences w !! userId) w
  else Throw "preferences store unavailable" w.

(** [UserPreferences.findOrCreateByUserId]. *)
Definition findOrCreateByUserId (userId : string) (w : World) : Outcome UserPreferences.t :=
  if mongo_up w then
    match preferences w !! userId with
    | Some p => Ok p w
    | None =>
      let p := UserPreferences.schemaDefault userId in
      Ok p (with_preferences w (<[userId := p]> (preferences w)))
    end
  else Throw "preferences store unavailable" w.

(* ================================================================== *)
(** ** Notification router (services/NotificationRouter.ts)            *)
(* ================================================================== *)

Module NotificationRouter.

Record RouteResult := mkRouteResult {
  notificationId : string;
  userId : string;
  eventType : NotificationEventType;
  results : list DeliveryResult;
  skippedChannels : list (NotificationChannel * string);
  queued : bool;
  digestQueued : bool
}.

Record NotificationRequest := mkRequest {
  q_userId : string;
  q_eventType : NotificationEventType;
  q_title : string;
  q_message : string;
  q_eventSourceId : option string;
  q_data : option string;
  q_priority : option NotificationPriority;
  q_correlationId : option string
}.

(** [result.skippedChannels.push({ channel, reason })]. *)
Definition push_skip (r : RouteResult) (c : NotificationChannel) (reason : string) : RouteResult :=
  mkRouteResult (notificationId r) (userId r) (eventType r) (results r)
                (skippedChannels r ++ [(c, reason)])%list (queued r) (digestQueued r).

(** [result.results.push(deliveryResult)]. *)
Definition push_result (r : RouteResult) (d : DeliveryResult) : RouteResult :=
  mkRouteResult (notificationId r) (userId r) (eventType r) (results r ++ [d])%list
                (skippedChannels r) (queued r) (digestQueued r).

Definition set_queued (r : RouteResult) : RouteResult :=
  mkRouteResult (notificationId r) (userId r) (eventType r) (results r)
                (skippedChannels r) true (digestQueued r).

Definition set_digestQueued (r : RouteResult) : RouteResult :=
  mkRouteResult (notificationId r) (userId r) (eventType r) (results r)
                (skippedChannels r) (queued r) true.

Definition getProviderForChannel (channel : NotificationChannel) : string :=
  match channel with
  | websocket => "internal" | sms => "twilio" | email => "sendgrid"
  | push => "firebase"
  end.

(** [storeNotification]: a failed insert is logged and swallowed. *)
Definition storeNotification (now : Z) (payload : NotificationPayload)
    (channel : NotificationChannel) (status : DeliveryStatus)
    (providerMessageId error : option string) (w : World) : World :=
  let row :=
    NotificationEvent.mk
      (p_notificationId payload) (p_userId payload) (p_eventType payload)
      (p_eventSourceId payload) (p_title payload) (p_message payload)
      (p_data payload) channel (p_priority payload) status
      (Some (getProviderForChannel channel)) providerMessageId
      0 None None error now
      (if bool_decide (status = sent) || bool_decide (status = delivered)
       then Some now else None)
      None None (p_correlationId payload)
      (Some (p_userId payload +:+ ":" +:+ eventTypeName (p_eventType payload) +:+ ":"
             +:+ default "none" (p_eventSourceId payload) +:+ ":" +:+ channelName channel)) in
  match NotificationEvent.create row (notification_events w) with
  | Some tbl => with_events w tbl
  | None => w
  end.

(** [selectChannels]. *)
Definition selectChannels (preferences : UserPreferences.t)
    (eventType : NotificationEventType) (defaultChannels : list NotificationChannel)
    (priority : NotificationPriority) : list NotificationChannel :=
  let channels :=
    UserPreferences.getEnabledChannelsForEvent preferences eventType defaultChannels in
  if bool_decide (priority = critical) && bool_decide (channels = []) then
    if UserPreferences.isChannelEnabled preferences websocket then [websocket]
    else channels
  else channels.

(** [loadUserContactInfo]. *)
Definition loadUserContactInfo (E : Env) (userId : string)
    (preferences : UserPreferences.t) : UserContactInfo :=
  let chans := UserPreferences.channels preferences in
  let phone := UserPreferences.getDecryptedPhoneNumber E preferences in
  let email := UserPreferences.getDecryptedEmail E preferences in
  let has (o : option string) :=
    match o with Some v => negb (bool_decide (v = "")) | None => false end in
  mkContact userId
    (if has email then email else None)
    (if has email
     then Some (bool_decide (is_Some (UserPreferences.email_verifiedAt (UserPreferences.ch_email chans))))
     else None)
    (if has phone then phone else None)
    (if has phone
     then Some (bool_decide (is_Some (UserPreferences.sms_verifiedAt (UserPreferences.ch_sms chans))))
     else None)
    (match UserPreferences.devices (UserPreferences.ch_push chans) with
     | [] => None
     | ds => Some (List.map (fun d => mkPushToken (UserPreferences.token d)
                                                  (UserPreferences.deviceId d)
                                                  (UserPreferences.platform d)) ds)
     end).

(** The partial limits object built from [preferences.rateLimits]; the
    schema gives each of the six limits a default, so each is a number. *)
Definition limitsOf (preferences : UserPreferences.t) : RateLimiter.PartialLimits :=
  let l := UserPreferences.rateLimits preferences in
  RateLimiter.mkPartial
    (Some (RateLimiter.smsPerHour l)) (Some (RateLimiter.smsPerDay l))
    (Some (RateLimiter.emailPerHour l)) (Some (RateLimiter.emailPerDay l))
    (Some (RateLimiter.pushPerHour l)) (Some (RateLimiter.pushPerDay l)).

(** What the [switch] of [sendToChannel] does for a channel: it leaves with
    a skip reason, or it calls the handler of the channel. *)
Inductive Attempt :=
| Skip (reason : string)
| Called (o : ProviderOutcome).

Definition truthy (o : option string) : option string :=
  match o with
  | Some v => if bool_decide (v = "") then None else Some v
  | None => None
  end.

Definition attempt (E : Env) (now : Z) (channel : NotificationChannel)
    (payload : NotificationPayload) (contactInfo : UserContactInfo) : Attempt :=
  match channel with
  | websocket => Called (webSocketSend E (p_userId payload) payload now)
  | sms =>
    match truthy (c_phoneNumber contactInfo), c_phoneVerified contactInfo with
    | Some phone, Some true => Called (smsSend E phone payload now)
    | _, _ => Skip "Phone number not verified"
    end
  | email =>
    match truthy (c_email contactInfo), c_emailVerified contactInfo with
    | Some addr, Some true => Called (emailSend E addr payload now)
    | _, _ => Skip "Email not verified"
    end
  | push =>
    match c_pushTokens contactInfo with
    | Some (t :: ts) =>
      Called (pushSend E (List.map (fun t => (t_token t, t_platform t)) (t :: ts))
                       payload now)
    | _ => Skip "No push tokens registered"
    end
  end.

(** The part of [sendToChannel] after the rate limit check. *)
Definition deliver (E : Env) (now : Z) (channel : NotificationChannel)
    (payload : NotificationPayload) (contactInfo : UserContactInfo)
    (result : RouteResult) (w : World) : RouteResult * World :=
  match attempt E now channel payload contactInfo with
  | Skip reason => (push_skip result channel reason, w)
  | Called (Returned d) =>
    let w1 := with_call w (ChannelSend channel (p_notificationId payload)) in
    (push_result result d,
     storeNotification now payload channel (r_status d) (r_providerMessageId d)
                       (r_error d) w1)
  | Called (Raised msg) =>
    let w1 := with_call w (ChannelSend channel (p_notificationId payload)) in
    (push_result result (mkDeliveryResult channel failed None None (Some msg)),
     storeNotification now payload channel failed None (Some msg) w1)
  end.

(** [sendToChannel], from its call to its end. *)
Definition sendToChannel (E : Env) (cfg : Config.t) (now : Z)
    (channel : NotificationChannel) (payload : NotificationPayload)
    (preferences : UserPreferences.t) (contactInfo : UserContactInfo)
    (result : RouteResult) (w : World) : Outcome RouteResult :=
  match RateLimiter.consumeLimit cfg now (p_userId payload) channel
                                 (limitsOf preferences) (redis w) with
  | None => Throw "Unknown channel" w
  | Some (rateLimitResult, s') =>
    let w1 := with_redis w s' in
    if negb (RateLimiter.allowed rateLimitResult) then
      Ok (push_skip result channel
            ("Rate limit exceeded. Resets at "
             +:+ toISOString E (RateLimiter.resetAt rateLimitResult)))
         (storeNotification now payload channel rate_limited None None w1)
    else
      let '(r, w2) := deliver E now channel payload contactInfo result w1 in
      Ok r w2
  end.

(** [route] starts a [sendToChannel] call for every selected channel and
    only then awaits them all ([Promise.all]), so the attempts run
    interleaved: each runs from one [await] to the next when the operation
    it awaits completes.  What an attempt awaits: *)
Inductive Pending :=
(** [await rateLimiter.consumeLimit(...)] *)
| AwaitLimit
(** [await <handler>.send(...)], with what the call produces *)
| AwaitHandler (o : ProviderOutcome)
(** [await this.storeNotification(...)], with the status, the provider
    message id and the error handed over *)
| AwaitStore (status : DeliveryStatus) (providerMessageId error : option string)
(** the promise of the attempt is fulfilled *)
| Settled
(** the promise of the attempt is rejected *)
| Rejected (message : string).

(** The attempts of a [route] call, in the order they were started. *)
Definition Attempts := list (NotificationChannel * Pending).

(** The operation an attempt awaits completes, and the attempt runs up to
    its next [await], or to its end: the piece of the body of
    [sendToChannel] between the two.  What the awaited operation does to
    the store or to the table is done at its completion; a handler is
    called, and its call recorded, when the attempt reaches it. *)
Definition resume (E : Env) (cfg : Config.t) (now : Z)
    (payload : NotificationPayload) (preferences : UserPreferences.t)
    (contactInfo : UserContactInfo) (channel : NotificationChannel)
    (p : Pending) (result : RouteResult) (w : World)
  : Pending * RouteResult * World :=
  match p with
  | AwaitLimit =>
    match RateLimiter.consumeLimit cfg now (p_userId payload) channel
                                   (limitsOf preferences) (redis w) with
    | None => (Rejected "Unknown channel", result, w)
    | Some (rateLimitResult, s') =>
      let w1 := with_redis w s' in
      if negb (RateLimiter.allowed rateLimitResult) then
        (AwaitStore rate_limited None None,
         push_skip result channel
           ("Rate limit exceeded. Resets at "
            +:+ toISOString E (RateLimiter.resetAt rateLimitResult)),
         w1)
      else
        match attempt E now channel payload contactInfo with
        | Skip reason => (Settled, push_skip result channel reason, w1)
        | Called o =>
          (AwaitHandler o, result,
           with_call w1 (ChannelSend channel (p_notificationId payload)))
        end
    end
  | AwaitHandler (Returned d) =>
    (AwaitStore (r_status d) (r_providerMessageId d) (r_error d),
     push_result result d, w)
  | AwaitHandler (Raised msg) =>
    (AwaitStore failed None (Some msg),
     push_result result (mkDeliveryResult channel failed None None (Some msg)), w)
  | AwaitStore status providerMessageId error =>
    (Settled, result,
     storeNotification now payload channel status providerMessageId error w)
  | Settled => (Settled, result, w)
  | Rejected message => (Rejected message, result, w)
  end.

(** The operation awaited by the attempt at position [i] completes. *)
Definition advance (E : Env) (cfg : Config.t) (now : Z)
    (payload : NotificationPayload) (preferences : UserPreferences.t)
    (contactInfo : UserContactInfo) (i : nat)
    (st : Attempts * RouteResult * World) : Attempts * RouteResult * World :=
  match fst (fst st) !! i with
  | Some (channel, p) =>
    let step := resume E cfg now payload preferences contactInfo channel p
                       (snd (fst st)) (snd st) in
    (<[i := (channel, fst (fst step))]> (fst (fst st)), snd (fst step), snd step)
  | None => st
  end.

(** The awaited operations complete in the given order. *)
Definition follow (E : Env) (cfg : Config.t) (now : Z)
    (payload : NotificationPayload) (preferences : UserPreferences.t)
    (contactInfo : UserContactInfo) (order : list nat)
    (st : Attempts * RouteResult * World) : Attempts * RouteResult * World :=
  fold_left (fun st i => advance E cfg now payload preferences contactInfo i st)
            order st.

(** One round: every attempt on a channel of [which] is resumed once, in
    the order the attempts were started. *)
Fixpoint round (E : Env) (cfg : Config.t) (now : Z)
    (payload : NotificationPayload) (preferences : UserPreferences.t)
    (contactInfo : UserContactInfo) (which : NotificationChannel -> bool)
    (attempts : Attempts) (result : RouteResult) (w : World)
  : Attempts * RouteResult * World :=
  match attempts with
  | [] => ([], result, w)
  | (channel, p) :: rest =>
    let step :=
      if which channel
      then resume E cfg now payload preferences contactInfo channel p result w
      else (p, result, w) in
    let st := round E cfg now payload preferences contactInfo which rest
                    (snd (fst step)) (snd step) in
    ((channel, fst (fst step)) :: fst (fst st), snd (fst st), snd st)
  end.

(** The message of the first attempt whose promise is rejected. *)
Fixpoint rejection (attempts : Attempts) : option string :=
  match attempts with
  | [] => None
  | (_, Rejected message) :: _ => Some message
  | _ :: rest => rejection rest
  end.

(** The number of operations an attempt may still await. *)
Definition awaits (p : Pending) : nat :=
  match p with
  | AwaitLimit => 3
  | AwaitHandler _ => 2
  | AwaitStore _ _ _ => 1
  | Settled | Rejected _ => 0
  end.

(** The attempts of step 8 of [route], from the loop that starts them until
    each has settled.  An attempt on the websocket channel is resumed
    first: [consumeLimit] returns on that channel before any [await],
    whereas every other operation awaited is a round trip to the store, to
    a provider or to the database.  Then the operations complete in the
    order given by [completionOrder]; whatever that order leaves pending
    completes in rounds, an attempt needing at most three. *)
Definition settleAll (E : Env) (cfg : Config.t) (now : Z)
    (channels : list NotificationChannel) (payload : NotificationPayload)
    (preferences : UserPreferences.t) (contactInfo : UserContactInfo)
    (result : RouteResult) (w : World) : Attempts * RouteResult * World :=
  let started := List.map (fun channel => (channel, AwaitLimit)) channels in
  let every := fun _ : NotificationChannel => true in
  let st1 := round E cfg now payload preferences contactInfo
                   (fun channel => bool_decide (channel = websocket))
                   started result w in
  let st2 := follow E cfg now payload preferences contactInfo
                    (completionOrder E (p_notificationId payload)) st1 in
  let st3 := round E cfg now payload preferences contactInfo every
                   (fst (fst st2)) (snd (fst st2)) (snd st2) in
  let st4 := round E cfg now payload preferences contactInfo every
                   (fst (fst st3)) (snd (fst st3)) (snd st3) in
  round E cfg now payload preferences contactInfo every
        (fst (fst st4)) (snd (fst st4)) (snd st4).

(** Step 8 of [route]: [await Promise.all(deliveryPromises)] completes with
    the result the attempts have filled, or rejects when an attempt
    does. *)
Definition sendAll (E : Env) (cfg : Config.t) (now : Z)
    (channels : list NotificationChannel) (payload : NotificationPayload)
    (preferences : UserPreferences.t) (contactInfo : UserContactInfo)
    (result : RouteResult) (w : World) : Outcome RouteResult :=
  let st := settleAll E cfg now channels payload preferences contactInfo result w in
  match rejection (fst (fst st)) with
  | Some message => Throw message (snd st)
  | None => Ok (snd (fst st)) (snd st)
  end.

(** Steps 3 to 9 of [route]: what runs once the preferences are loaded. *)
Definition route_with_preferences (E : Env) (cfg : Config.t) (now : Z)
    (request : NotificationRequest) (result : RouteResult)
    (preferences : UserPreferences.t) (w : World) : Outcome RouteResult :=
  let eventConfig := EVENT_TYPE_CONFIGS (q_eventType request) in
  let priority := default (Types.priority eventConfig) (q_priority request) in
  if UserPreferences.dnc_enabled (UserPreferences.doNotContact preferences) then
    Ok (push_skip result websocket "User has opted out of notifications") w
  else
    let channels :=
      selectChannels preferences (q_eventType request)
                     (defaultChannels eventConfig) priority in
    let inQuietHours := UserPreferences.isInQuietHours E preferences now in
    let bypassQuietHours :=
      Types.bypassQuietHours eventConfig
      || UserPreferences.shouldBypassQuietHours preferences (q_eventType request)
      || bool_decide (priority = critical) in
    if inQuietHours && negb bypassQuietHours then
      if allowDigest eventConfig
         && UserPreferences.digestEnabled
              (UserPreferences.ch_email (UserPreferences.channels preferences))
      then Ok (set_digestQueued result) w
      else Ok (set_queued result) w
    else
      let payload :=
        mkPayload (notificationId result) (q_userId request) (q_eventType request)
                  (q_eventSourceId request) (q_title request) (q_message request)
                  (q_data request) priority channels (q_correlationId request) now in
      let contactInfo := loadUserContactInfo E (q_userId request) preferences in
      sendAll E cfg now channels payload preferences contactInfo result w.

(** Steps 2 to 9 of [route]: what runs when the request is not a
    duplicate. *)
Definition route_after_dedup (E : Env) (cfg : Config.t) (now : Z)
    (request : NotificationRequest) (result : RouteResult) (w : World)
  : Outcome RouteResult :=
  bind (findOrCreateByUserId (q_userId request) w)
       (fun preferences w =>
          route_with_preferences E cfg now request result preferences w).

(** [route]. *)
Definition route (E : Env) (cfg : Config.t) (now : Z)
    (request : NotificationRequest) (w : World) : Outcome RouteResult :=
  let notificationId := uuidv4 E (uuid_next w) in
  let w := draw_uuid w in
  let eventConfig := EVENT_TYPE_CONFIGS (q_eventType request) in
  let result :=
    mkRouteResult notificationId (q_userId request) (q_eventType request)
                  [] [] false false in
  let '(dedupResult, s') :=
    DeduplicationService.checkAndMark cfg now (q_userId request)
      (q_eventType request) (q_eventSourceId request) notificationId
      (Some (dedupWindowMs eventConfig)) (redis w) in
  let w := with_redis w s' in
  if DeduplicationService.isDuplicate dedupResult then
    Ok (push_skip result websocket "Duplicate notification") w
  else route_after_dedup E cfg now request result w.

End NotificationRouter.

(* ================================================================== *)
(** ** Retry service (services/RetryService.ts)                        *)
(* ================================================================== *)

Module RetryService.

(** The [where] clause of the query of [processRetries]; a null
    [nextRetryAt] matches no comparison. *)
Definition due (cfg : Config.t) (now : Z) (n : NotificationEvent.t) : bool :=
  bool_decide (NotificationEvent.deliveryStatus n = retrying)
  && match NotificationEvent.nextRetryAt n with
     | Some t => t <=? now
     | None => false
     end
  && (NotificationEvent.retryCount n <? Config.maxRetryAttempts cfg).

Definition nextKey (n : NotificationEvent.t) : Z :=
  default 0 (NotificationEvent.nextRetryAt n).

(** [order: [['nextRetryAt', 'ASC']]], rows with equal keys kept in table
    order. *)
Fixpoint insertByNext (n : NotificationEvent.t) (l : list NotificationEvent.t)
  : list NotificationEvent.t :=
  match l with
  | [] => [n]
  | x :: xs => if nextKey n <=? nextKey x then n :: x :: xs
               else x :: insertByNext n xs
  end.

Definition orderByNext (l : list NotificationEvent.t) : list NotificationEvent.t :=
  fold_right insertByNext [] l.

(** The [findAll] of [processRetries]: filter, order, [limit: 100]. *)
Definition findReady (cfg : Config.t) (now : Z) (tbl : NotificationEvent.table)
  : list NotificationEvent.t :=
  firstn 100 (orderByNext (List.filter (due cfg now) tbl)).

(** [moveToDeadLetterQueue]. *)
Definition moveToDeadLetterQueue (now : Z) (n : NotificationEvent.t)
    (reason : string) (w : World) : World :=
  with_dlq w
    (dead_letter_queue w ++
     [DeadLetterQueue.mk
        (NotificationEvent.notificationId n) (NotificationEvent.userId n)
        (NotificationEvent.eventType n) (NotificationEvent.eventSourceId n)
        (NotificationEvent.channel n) (NotificationEvent.priority n)
        (NotificationEvent.title n) (NotificationEvent.message n)
        (NotificationEvent.metadata n) reason
        (NotificationEvent.retryCount n + 1) now [(now, reason)]
        DeadLetterQueue.pending_review])%list.

(** Saving an instance: the instance as changed, and the table written. *)
Definition saved (n : NotificationEvent.t) (w : World) : NotificationEvent.t * World :=
  (n, with_events w (NotificationEvent.save n (notification_events w))).

(** [scheduleNextRetry]. *)
Definition scheduleNextRetry (cfg : Config.t) (now : Z) (n : NotificationEvent.t)
    (error : option string) (w : World) : NotificationEvent.t * World :=
  let newRetryCount := NotificationEvent.retryCount n + 1 in
  if Config.maxRetryAttempts cfg <=? newRetryCount then
    let w1 := moveToDeadLetterQueue now n (default "Max retries exceeded" error) w in
    saved (NotificationEvent.markFailed now "Max retries exceeded" n) w1
  else
    let delayMs := default 3600000 (Config.retryDelaySchedule cfg newRetryCount) in
    let nextRetryAt := now + delayMs in
    saved (NotificationEvent.markRetrying now nextRetryAt n) w.

(** The request rebuilt from a stored record. *)
Definition requestOf (n : NotificationEvent.t) : NotificationRouter.NotificationRequest :=
  NotificationRouter.mkRequest
    (NotificationEvent.userId n) (NotificationEvent.eventType n)
    (NotificationEvent.title n) (NotificationEvent.message n)
    (NotificationEvent.eventSourceId n) (NotificationEvent.metadata n)
    (Some (NotificationEvent.priority n)) (NotificationEvent.correlationId n).

(** [results.some(r => r.status === 'sent' || r.status === 'delivered')]. *)
Definition succeeded (rs : list DeliveryResult) : bool :=
  existsb (fun r => bool_decide (r_status r = sent) || bool_decide (r_status r = delivered)) rs.

(** [retryNotification]: returns the instance as it was left.
    [result.results[0]] is the outcome that was pushed first, that is, of
    the attempt whose handler answered first. *)
Definition retryNotification (E : Env) (cfg : Config.t) (now : Z)
    (n : NotificationEvent.t) (w : World) : NotificationEvent.t * World :=
  match NotificationRouter.route E cfg now (requestOf n) w with
  | Ok result w1 =>
    if succeeded (NotificationRouter.results result) then
      saved (NotificationEvent.markSent now n) w1
    else
      scheduleNextRetry cfg now n
        (match NotificationRouter.results result with
         | r :: _ => r_error r
         | [] => None
         end) w1
  | Throw msg w1 => scheduleNextRetry cfg now n (Some msg) w1
  end.

(** The [for] loop of [processRetries]. *)
Fixpoint retryEach (E : Env) (cfg : Config.t) (now : Z)
    (ns : list NotificationEvent.t) (w : World) : World :=
  match ns with
  | [] => w
  | n :: rest => retryEach E cfg now rest (snd (retryNotification E cfg now n w))
  end.

(** [processRetries]: one tick of the scanner. *)
Definition processRetries (E : Env) (cfg : Config.t) (now : Z) (w : World) : World :=
  retryEach E cfg now (findReady cfg now (notification_events w)) w.

(** [manualRetry]. *)
Definition manualRetry (E : Env) (cfg : Config.t) (now : Z)
    (notificationId : string) (w : World) : bool * World :=
  match List.find (fun n => bool_decide (NotificationEvent.notificationId n = notificationId))
                  (notification_events w) with
  | None => (false, w)
  | Some n =>
    if negb (bool_decide (NotificationEvent.deliveryStatus n = failed))
       && negb (bool_decide (NotificationEvent.deliveryStatus n = retrying))
    then (false, w)
    else
      let n0 :=
        NotificationEvent.mk
          (NotificationEvent.notificationId n) (NotificationEvent.userId n)
          (NotificationEvent.eventType n) (NotificationEvent.eventSourceId n)
          (NotificationEvent.title n) (NotificationEvent.message n)
          (NotificationEvent.metadata n) (NotificationEvent.channel n)
          (NotificationEvent.priority n) retrying
          (NotificationEvent.deliveryProvider n)
          (NotificationEvent.providerMessageId n) 0
          (NotificationEvent.lastRetryAt n) (Some now)
          (NotificationEvent.errorMessage n) (NotificationEvent.createdAt n)
          (NotificationEvent.sentAt n) (NotificationEvent.deliveredAt n)
          (NotificationEvent.readAt n) (NotificationEvent.correlationId n)
          (NotificationEvent.idempotencyKey n) in
      let '(n1, w1) := saved n0 w in
      (true, snd (retryNotification E cfg now n1 w1))
  end.

End RetryService.

(* ================================================================== *)
(** ** Digest service (services/DigestService.ts)                      *)
(* ================================================================== *)

Module DigestService.
Import Redis.

(** [getDigestKey]. *)
Definition getDigestKey (userId : string) (frequency : DigestFrequency) : string :=
  match frequency with
  | hourly => DIGEST_HOURLY userId
  | daily => DIGEST_DAILY userId
  | weekly => DIGEST_WEEKLY userId
  | immediate => DIGEST_DAILY userId
  end.

(** [LRANGE key 0 -1]. *)
Definition lrange (now : Z) (s : Store) (key : string) : list DigestEntry :=
  match visible now (digests s) key with
  | Some (l, _) => l
  | None => []
  end.

(** [RPUSH key entry] followed by [EXPIRE key seconds]. *)
Definition rpush_expire (now : Z) (key : string) (entry : DigestEntry)
    (seconds : Z) (s : Store) : Store :=
  with_digests s
    (<[key := ((lrange now s key ++ [entry])%list, Some (now + seconds * 1000))]>
       (digests s)).

(** [queueForDigest]: store errors are logged and swallowed. *)
Definition queueForDigest (now : Z) (userId : string)
    (notification : NotificationPayload) (frequency : DigestFrequency)
    (w : World) : World :=
  if bool_decide (frequency = immediate) then w
  else
    let key := getDigestKey userId frequency in
    let entry :=
      mkDigestEntry (p_notificationId notification) (p_eventType notification)
                    (p_title notification) (p_message notification)
                    (p_createdAt notification) (p_data notification) in
    if up (redis w)
    then with_redis w (rpush_expire now key entry REDIS_TTL_DIGEST_QUEUE (redis w))
    else w.

(** [getPendingCount]: [LLEN], 0 when the store fails. *)
Definition getPendingCount (now : Z) (userId : string)
    (frequency : DigestFrequency) (w : World) : Z :=
  if up (redis w)
  then Z.of_nat (List.length (lrange now (redis w) (getDigestKey userId frequency)))
  else 0.

(** The payload built from a queued entry. *)
Definition payloadOf (userId : string) (n : DigestEntry) : NotificationPayload :=
  mkPayload (g_notificationId n) userId (g_eventType n) None (g_title n)
            (g_message n) (g_data n) low [email] None (g_createdAt n).

(** The loop marking the records of the queued entries delivered. *)
Definition markDelivered (entries : list DigestEntry) (tbl : NotificationEvent.table)
  : NotificationEvent.table :=
  fold_left (fun t n => NotificationEvent.update_status (g_notificationId n) delivered t)
            entries tbl.

(** [sendDigestForUser]. *)
Definition sendDigestForUser (E : Env) (now : Z) (userId : string)
    (frequency : DigestFrequency) (w : World) : Outcome unit :=
  let key := getDigestKey userId frequency in
  if negb (up (redis w)) then Throw "redis unavailable" w
  else
    let entries := lrange now (redis w) key in
    match entries with
    | [] => Ok tt w
    | _ =>
      bind (findByUserId userId w) (fun preferences w =>
        match preferences with
        | None => Ok tt w
        | Some preferences =>
          match NotificationRouter.truthy
                  (UserPreferences.getDecryptedEmail E preferences) with
          | None => Ok tt w
          | Some addr =>
            let payloads := List.map (payloadOf userId) entries in
            let result := sendDigest E addr payloads frequency now in
            let w1 := with_call w (DigestSend addr (List.map g_notificationId entries)) in
            if bool_decide (r_status result = sent) then
              let w2 := with_redis w1 (with_digests (redis w1) (delete key (digests (redis w1)))) in
              Ok tt (with_events w2 (markDelivered entries (notification_events w2)))
            else Ok tt w1
          end
        end)
    end.

(** [forceSendDigest]. *)
Definition forceSendDigest (E : Env) (now : Z) (userId : string) (w : World)
  : Outcome bool :=
  bind (findByUserId userId w) (fun preferences w =>
    match preferences with
    | None => Ok false w
    | Some p =>
      let frequency :=
        UserPreferences.digestFrequency (UserPreferences.ch_email (UserPreferences.channels p)) in
      bind (sendDigestForUser E now userId frequency w) (fun _ w => Ok true w)
    end).

(** [clearDigest]: deletes the queue of one frequency, or the three
    queues.  Nothing catches a store error here: [None] is a rejected
    promise. *)
Definition clearDigest (userId : string) (frequency : option DigestFrequency)
    (w : World) : option World :=
  let frequencies :=
    match frequency with Some f => [f] | None => [hourly; daily; weekly] end in
  if up (redis w) then
    Some (with_redis w
            (with_digests (redis w)
               (fold_left (fun m f => delete (getDigestKey userId f) m)
                          frequencies (digests (redis w)))))
  else None.

End DigestService.

(* ================================================================== *)
(** ** Device registration (routes/preferencesRoutes.ts)               *)
(* ================================================================== *)

Module PreferencesRoutes.

(** [devices.findIndex((d) => d.deviceId === deviceId)]. *)
Fixpoint findIndex (deviceId : string) (devices : list UserPreferences.PushDevice)
  : option nat :=
  match devices with
  | [] => None
  | d :: rest =>
    if bool_decide (UserPreferences.deviceId d = deviceId) then Some 0%nat
    else S <$> findIndex deviceId rest
  end.

(** The list update of [POST /preferences/devices]: a known device id is
    overwritten in place; a new one is appended, after the oldest device is
    shifted out of a list of 10 or more. *)
Definition registerDevice (deviceData : UserPreferences.PushDevice)
    (devices : list UserPreferences.PushDevice) : list UserPreferences.PushDevice :=
  match findIndex (UserPreferences.deviceId deviceData) devices with
  | Some existingIndex => <[existingIndex := deviceData]> devices
  | None =>
    ((if (10 <=? List.length devices)%nat then List.tl devices else devices)
       ++ [deviceData])%list
  end.

(** The list update of [DELETE /preferences/devices/:deviceId]. *)
Definition unregisterDevice (deviceId : string)
    (devices : list UserPreferences.PushDevice) : list UserPreferences.PushDevice :=
  List.filter (fun d => negb (bool_decide (UserPreferences.deviceId d = deviceId))) devices.

Definition with_devices (p : UserPreferences.t)
    (devices : list UserPreferences.PushDevice) : UserPreferences.t :=
  UserPreferences.mk (UserPreferences.userId p)
    (UserPreferences.mkChannels
       (UserPreferences.ch_websocket (UserPreferences.channels p))
       (UserPreferences.ch_sms (UserPreferences.channels p))
       (UserPreferences.ch_email (UserPreferences.channels p))
       (UserPreferences.mkPush
          (UserPreferences.push_enabled (UserPreferences.ch_push (UserPreferences.channels p)))
          devices))
    (UserPreferences.notificationTypes p) (UserPreferences.quietHours p)
    (UserPreferences.rateLimits p) (UserPreferences.doNotContact p).

(** The handler of [POST /preferences/devices]: load or create the
    document, update its device list, save it. *)
Definition postDevice (userId : string) (deviceData : UserPreferences.PushDevice)
    (w : World) : Outcome nat :=
  bind (findOrCreateByUserId userId w) (fun prefs w =>
    let devices :=
      registerDevice deviceData
        (UserPreferences.devices (UserPreferences.ch_push (UserPreferences.channels prefs))) in
    Ok (List.length devices)
       (with_preferences w (<[userId := with_devices prefs devices]> (preferences w)))).

End PreferencesRoutes.

(* ================================================================== *)
(** ** Event mapping of the ingestor (services/KafkaEventConsumer.ts)  *)
(* ================================================================== *)

Module KafkaEventConsumer.

(** [config.kafka.topics]. *)
Record Topics := mkTopics {
  security : string;
  transaction : string;
  fraud : string;
  user : string
}.

(** What [amount ? formatAmount(amount) : ...] finds: no amount (or a falsy
    one), the text [Intl.NumberFormat] prints, or the error it throws (a
    currency code it does not accept). *)
Inductive Amount :=
| NoAmount
| Formatted (text : string)
| FormatThrows (message : string).

(** The fields of a payload that the mapping reads.  A text field is the
    text the value is printed as in a template literal, [None] when the
    value is null or undefined; [userId] is [None] when it is falsy.
    [json] stands for the payload object itself, handed on as data. *)
Record Payload := mkPayload {
  userId : option string;
  deviceInfo : option string;
  deviceName : option string;
  amount : Amount;
  recipientName : option string;
  transactionId : option string;
  reason : option string;
  caseId : option string;
  json : string
}.

Record IncomingEvent := mkEvent {
  eventType : string;
  correlationId : option string;
  payload : Payload
}.

(** What a mapper gives: a request, nothing ([null]), or a thrown error. *)
Inductive Mapping :=
| Request (request : NotificationRouter.NotificationRequest)
| NoRequest
| MapThrows (message : string).

Definition request (userId : string) (eventType : NotificationEventType)
    (title message : string) (eventSourceId : option string) (payload : Payload)
    (priority : NotificationPriority) (correlationId : option string) : Mapping :=
  Request (NotificationRouter.mkRequest userId eventType title message eventSourceId
             (Some (json payload)) (Some priority) correlationId).

(** [mapSecurityEvent]. *)
Definition mapSecurityEvent (eventType : string) (payload : Payload)
    (userId : string) (correlationId : option string) : Mapping :=
  if bool_decide (eventType = "user.login.success") then
    request userId login_attempt "New Login Detected"
      ("A new login was detected from " +:+ default "unknown device" (deviceInfo payload))
      None payload medium correlationId
  else if bool_decide (eventType = "user.login.failed") then
    request userId login_failed "Failed Login Attempt"
      "Someone attempted to log into your account with incorrect credentials"
      None payload high correlationId
  else if bool_decide (eventType = "user.locked") then
    request userId account_locked "Account Locked"
      "Your account has been locked due to multiple failed login attempts"
      None payload critical correlationId
  else if bool_decide (eventType = "user.password.changed") then
    request userId password_changed "Password Changed"
      "Your account password was successfully changed"
      None payload medium correlationId
  else if bool_decide (eventType = "user.device.registered") then
    request userId new_device_added "New Device Added"
      ("A new device " +:+ String (ascii_of_nat 34) EmptyString
       +:+ default "Unknown" (deviceName payload)
       +:+ String (ascii_of_nat 34) EmptyString +:+ " was added to your account")
      None payload low correlationId
  else if bool_decide (eventType = "security.anomaly_detected")
          || bool_decide (eventType = "security.token_theft") then
    request userId suspicious_activity "Suspicious Activity Detected"
      "We detected unusual activity on your account. Please review immediately."
      None payload critical correlationId
  else NoRequest.

(** A message text with the amount printed in the middle. *)
Definition withAmount (payload : Payload) (fallback : string)
    (build : string -> Mapping) : Mapping :=
  match amount payload with
  | NoAmount => build fallback
  | Formatted text => build text
  | FormatThrows message => MapThrows message
  end.

(** [mapTransactionEvent]. *)
Definition mapTransactionEvent (eventType : string) (payload : Payload)
    (userId : string) (correlationId : option string) : Mapping :=
  let transactionId := transactionId payload in
  if bool_decide (eventType = "transfer.initiated") then
    withAmount payload "funds" (fun amount =>
      request userId transfer_initiated "Transfer Initiated"
        ("Your transfer of " +:+ amount +:+ " to "
         +:+ default "recipient" (recipientName payload) +:+ " has been initiated")
        transactionId payload low correlationId)
  else if bool_decide (eventType = "transfer.approved") then
    withAmount payload "funds" (fun amount =>
      request userId transfer_approved "Transfer Approved"
        ("Your transfer of " +:+ amount +:+ " has been approved and is processing")
        transactionId payload medium correlationId)
  else if bool_decide (eventType = "transfer.completed") then
    withAmount payload "funds" (fun amount =>
      request userId transfer_completed "Transfer Complete"
        ("Your transfer of " +:+ amount +:+ " to "
         +:+ default "recipient" (recipientName payload) +:+ " was successful")
        transactionId payload high correlationId)
  else if bool_decide (eventType = "transfer.rejected") then
    withAmount payload "funds" (fun amount =>
      request userId transfer_rejected "Transfer Rejected"
        ("Your transfer of " +:+ amount +:+ " was not approved. "
         +:+ default "Please contact support." (reason payload))
        transactionId payload high correlationId)
  else if bool_decide (eventType = "transfer.failed") then
    request userId transfer_failed "Transfer Failed"
      "Your transfer could not be completed due to a technical issue. Please try again."
      transactionId payload high correlationId
  else if bool_decide (eventType = "large_transaction") then
    withAmount payload "significant funds" (fun amount =>
      request userId large_transaction "Large Transaction Alert"
        ("A large transaction of " +:+ amount +:+ " was processed on your account")
        transactionId payload medium correlationId)
  else NoRequest.

(** [mapFraudEvent]. *)
Definition mapFraudEvent (eventType : string) (payload : Payload)
    (userId : string) (correlationId : option string) : Mapping :=
  if bool_decide (eventType = "fraud.detected") || bool_decide (eventType = "fraud.alert") then
    request userId fraud_detected "Fraud Alert"
      "We detected potentially fraudulent activity on your account. Please verify recent transactions."
      (caseId payload) payload critical correlationId
  else if bool_decide (eventType = "fraud.alert.resolved") then
    request userId general_notification "Fraud Alert Resolved"
      "The fraud alert on your account has been resolved."
      (caseId payload) payload medium correlationId
  else NoRequest.

(** [mapUserEvent]. *)
Definition mapUserEvent (eventType : string) (payload : Payload)
    (userId : string) (correlationId : option string) : Mapping :=
  if bool_decide (eventType = "user.registered") then
    request userId general_notification "Welcome to Banking App"
      "Your account has been created successfully. Please complete your profile."
      None payload medium correlationId
  else if bool_decide (eventType = "user.kyc.required") then
    request userId kyc_verification_needed "Verification Required"
      "Please complete identity verification to access all features."
      None payload critical correlationId
  else if bool_decide (eventType = "user.kyc.expired") then
    request userId kyc_verification_needed "Verification Expired"
      "Your identity verification has expired. Please re-verify to continue using your account."
      None payload critical correlationId
  else NoRequest.

(** [mapEventToNotification]: the [switch] on the topic takes the first
    configured topic that matches. *)
Definition mapEventToNotification (topics : Topics) (topic : string)
    (event : IncomingEvent) : Mapping :=
  match userId (payload event) with
  | None => NoRequest
  | Some userId =>
    if bool_decide (topic = security topics) then
      mapSecurityEvent (eventType event) (payload event) userId (correlationId event)
    else if bool_decide (topic = transaction topics) then
      mapTransactionEvent (eventType event) (payload event) userId (correlationId event)
    else if bool_decide (topic = fraud topics) then
      mapFraudEvent (eventType event) (payload event) userId (correlationId event)
    else if bool_decide (topic = user topics) then
      mapUserEvent (eventType event) (payload event) userId (correlationId event)
    else NoRequest
  end.

End KafkaEventConsumer.

(* ================================================================== *)
(** ** Vocabulary of the statements                                    *)
(* ================================================================== *)

Module Vocabulary.

(** The contact precondition of a channel is missing: SMS without a
    verified phone number, email without a verified address, push without
    a registered device. *)
Definition missing_contact (channel : NotificationChannel)
    (c : UserContactInfo) : bool :=
  match channel with
  | websocket => false
  | sms =>
    negb (bool_decide (is_Some (NotificationRouter.truthy (c_phoneNumber c)))
          && bool_decide (c_phoneVerified c = Some true))
  | email =>
    negb (bool_decide (is_Some (NotificationRouter.truthy (c_email c)))
          && bool_decide (c_emailVerified c = Some true))
  | push =>
    match c_pushTokens c with
    | Some (_ :: _) => false
    | _ => true
    end
  end.

(** The reason recorded for a channel skipped for a missing contact. *)
Definition missing_reason (channel : NotificationChannel) : string :=
  match channel with
  | websocket => ""
  | sms => "Phone number not verified"
  | email => "Email not verified"
  | push => "No push tokens registered"
  end.

(** A text names an id when the id occurs in it. *)
Definition names (text id : string) : Prop :=
  exists before after, text = before +:+ id +:+ after.

(** The dedup key of a request. *)
Definition dedupKey (request : NotificationRouter.NotificationRequest) : string :=
  DeduplicationService.generateKey
    (NotificationRouter.q_userId request) (NotificationRouter.q_eventType request)
    (NotificationRouter.q_eventSourceId request).

(** The result [route] starts from. *)
Definition emptyResult (E : Env) (request : NotificationRouter.NotificationRequest)
    (w : World) : NotificationRouter.RouteResult :=
  NotificationRouter.mkRouteResult
    (uuidv4 E (uuid_next w)) (NotificationRouter.q_userId request)
    (NotificationRouter.q_eventType request) [] [] false false.

(** What the router leaves alone: the dedup entries, the digest queues,
    the dead letter queue, the availability of the stores and the uuid
    counter. *)
Definition router_frame (w w' : World) : Prop :=
  Redis.up (redis w') = Redis.up (redis w)
  /\ Redis.dedup (redis w') = Redis.dedup (redis w)
  /\ Redis.digests (redis w') = Redis.digests (redis w)
  /\ mongo_up w' = mongo_up w
  /\ dead_letter_queue w' = dead_letter_queue w
  /\ uuid_next w' = uuid_next w.

(** A handler call that did not get the message out. *)
Definition outcome_fails (o : ProviderOutcome) : Prop :=
  match o with
  | Returned r => r_status r <> sent /\ r_status r <> delivered
  | Raised _ => True
  end.

(** Every provider fails every call. *)
Definition never_succeeds (E : Env) : Prop :=
  (forall u p t, outcome_fails (webSocketSend E u p t))
  /\ (forall u p t, outcome_fails (smsSend E u p t))
  /\ (forall u p t, outcome_fails (emailSend E u p t))
  /\ (forall u p t, outcome_fails (pushSend E u p t)).

(** The retry engine driving one record again and again, at the given
    instants. *)
Fixpoint retryCycles (E : Env) (cfg : Config.t) (times : list Z)
    (n : NotificationEvent.t) (w : World) : NotificationEvent.t * World :=
  match times with
  | [] => (n, w)
  | t :: ts =>
    let '(n', w') := RetryService.retryNotification E cfg t n w in
    retryCycles E cfg ts n' w'
  end.

(** Successive ticks of the retry scanner. *)
Definition scannerTicks (E : Env) (cfg : Config.t) (times : list Z) (w : World) : World :=
  fold_left (fun w t => RetryService.processRetries E cfg t w) times w.

(** Successive [consumeLimit] calls of one user on one channel, at the
    given instants: the answers, and the store left. *)
Fixpoint consumeAll (cfg : Config.t) (userId : string) (channel : NotificationChannel)
    (userLimits : RateLimiter.PartialLimits) (times : list Z) (s : Redis.Store)
  : list RateLimiter.RateLimitResult * Redis.Store :=
  match times with
  | [] => ([], s)
  | t :: ts =>
    match RateLimiter.consumeLimit cfg t userId channel userLimits s with
    | Some (r, s') =>
      let '(rs, s'') := consumeAll cfg userId channel userLimits ts s' in
      (r :: rs, s'')
    | None => ([], s)
    end
  end.

(** Instants in order, the first at or after [prev], each less than [gap]
    after the one before. *)
Fixpoint spaced (gap prev : Z) (times : list Z) : Prop :=
  match times with
  | [] => True
  | t :: ts => prev <= t < prev + gap /\ spaced gap t ts
  end.

(** No character of the text is a colon. *)
Fixpoint colonFree (s : string) : bool :=
  match s with
  | EmptyString => true
  | String c rest => negb (bool_decide (c = ":"%char)) && colonFree rest
  end.

(** The text [HH:MM] of an hour and a minute. *)
Definition hhmm (h m : Z) : string :=
  UserPreferences.pad2 h +:+ ":" +:+ UserPreferences.pad2 m.

(** The channels of the attempts that still await their budget check. *)
Definition waiting (attempts : NotificationRouter.Attempts) : list NotificationChannel :=
  List.map fst
    (List.filter (fun a => match snd a with
                           | NotificationRouter.AwaitLimit => true
                           | _ => false
                           end) attempts).

(** The number of attempts whose handler has been called and has not
    answered yet. *)
Definition inFlight (attempts : NotificationRouter.Attempts) : nat :=
  List.length
    (List.filter (fun a => match snd a with
                           | NotificationRouter.AwaitHandler _ => true
                           | _ => false
                           end) attempts).

(** The error [retryNotification] hands to [scheduleNextRetry] after a
    re-route without success: [result.results[0]?.error], the error of the
    outcome that was pushed first, or the message of the rejection. *)
Definition reportedError (m : Outcome NotificationRouter.RouteResult) : option string :=
  match m with
  | Ok result _ =>
    match NotificationRouter.results result with
    | r :: _ => r_error r
    | [] => None
    end
  | Throw message _ => Some message
  end.

(** The value an operation completed with, [d] when it rejected. *)
Definition result_of {A} (d : A) (m : Outcome A) : A :=
  match m with Ok a _ => a | Throw _ _ => d end.

End Vocabulary.

(* ================================================================== *)
(** ** Concrete scenarios                                              *)
(* ================================================================== *)

Module Scenario.
Import Redis.

(** A store in which user [u1] has sent 9 SMS in the current hour and 50,
    the daily cap, in the current day. *)
Definition store_day_cap : Store :=
  mkStore true
    (<[RATE_LIMIT_SMS_HOUR "u1" := (9, Some 3600000)]>
       (<[RATE_LIMIT_SMS_DAY "u1" := (50, Some 86400000)]> ∅))
    ∅ ∅.

(** A store in which user [u1] has sent 10 SMS, the hourly cap, in the
    current hour. *)
Definition store_hour_cap : Store :=
  mkStore true
    (<[RATE_LIMIT_SMS_HOUR "u1" := (10, Some 3600000)]>
       (<[RATE_LIMIT_SMS_DAY "u1" := (10, Some 86400000)]> ∅))
    ∅ ∅.

(** Ids drawn from the uuid source. *)
Definition uuid (n : nat) : string :=
  "00000000-0000-4000-8000-0000000000" +:+ UserPreferences.pad2 (Z.of_nat n).

(** An environment whose process clock is UTC and whose providers accept
    every message.  Where the program leaves the order of completion open,
    the operations complete in the order they were started. *)
Definition env : Env :=
  mkEnv (fun _ => 0) (fun enc => Some enc) uuid (fun _ => "1970-01-01T00:00:00.000Z")
        (fun _ _ _ => Returned (mkDeliveryResult websocket delivered None None None))
        (fun _ _ _ => Returned (mkDeliveryResult sms sent (Some "SM1") None None))
        (fun _ _ _ => Returned (mkDeliveryResult email sent (Some "SG1") None None))
        (fun _ _ _ => Returned (mkDeliveryResult push sent (Some "FB1") None None))
        (fun _ _ _ _ => mkDeliveryResult email sent (Some "SG2") None None)
        (fun _ => []).

(** The same environment with a mail provider that fails every send. *)
Definition env_mail_down : Env :=
  mkEnv (fun _ => 0) (fun enc => Some enc) uuid (fun _ => "1970-01-01T00:00:00.000Z")
        (fun _ _ _ => Returned (mkDeliveryResult websocket delivered None None None))
        (fun _ _ _ => Returned (mkDeliveryResult sms sent (Some "SM1") None None))
        (fun _ _ _ => Returned (mkDeliveryResult email failed None None (Some "timeout")))
        (fun _ _ _ => Returned (mkDeliveryResult push sent (Some "FB1") None None))
        (fun _ _ _ _ => mkDeliveryResult email failed None None (Some "timeout"))
        (fun _ => []).

Definition empty_store (is_up : bool) : Store := mkStore is_up ∅ ∅ ∅.

(** Nothing stored anywhere; every store answers. *)
Definition world_empty : World := mkWorld (empty_store true) true ∅ [] [] [] 0.

(** The same with the Redis server unreachable. *)
Definition world_redis_down : World := mkWorld (empty_store false) true ∅ [] [] [] 0.

(** A user without phone number, mail address or device. *)
Definition contact_none : UserContactInfo := mkContact "u1" None None None None None.

Definition payload_login_failed : NotificationPayload :=
  mkPayload (uuid 0) "u1" login_failed (Some "s-1") "Login failed"
            "A sign-in attempt failed" None high [sms; email] None 1000.

Definition request_login_failed : NotificationRouter.NotificationRequest :=
  NotificationRouter.mkRequest "u1" login_failed "Login failed"
    "A sign-in attempt failed" (Some "s-1") None None None.

(** A user with quiet hours from 22:00 to 07:00, a verified mail address
    and the daily digest switched on. *)
Definition prefs_quiet (user tz : string) (bypass : bool) : UserPreferences.t :=
  UserPreferences.mk user
    (UserPreferences.mkChannels
       (UserPreferences.mkWs true true)
       (UserPreferences.mkSms true None None)
       (UserPreferences.mkEmail true (Some "enc:user@example.com") (Some 1) true daily "09:00")
       (UserPreferences.mkPush true []))
    (fun _ => None)
    (UserPreferences.mkQuietHours true "22:00" "07:00" tz bypass)
    (RateLimiter.mkLimits 10 50 20 100 30 200)
    (UserPreferences.mkDnc false).

(** User [u1] has the critical-alerts bypass switched off. *)
Definition world_quiet : World :=
  mkWorld (empty_store true) true
          {[ "u1" := prefs_quiet "u1" "America/New_York" false ]} [] [] [] 0.

(** User [u1] keeps the schema default of the critical-alerts bypass. *)
Definition world_quiet_default : World :=
  mkWorld (empty_store true) true
          {[ "u1" := prefs_quiet "u1" "America/New_York" true ]} [] [] [] 0.

(** 23:30 and 13:30 UTC on the first day of the epoch. *)
Definition night : Z := 84600000.
Definition afternoon : Z := 48600000.

Definition request_login_attempt : NotificationRouter.NotificationRequest :=
  NotificationRouter.mkRequest "u1" login_attempt "New sign-in"
    "Your account was accessed" (Some "s-9") None None None.

(** A notification whose text is longer than one SMS segment, and a short
    one. *)
Definition payload_long : NotificationPayload :=
  mkPayload (uuid 0) "u1" transfer_completed (Some "t-1") "Transfer complete"
            ("Your transfer of 1,250.00 USD to the account ending in 4321 has been "
             +:+ "completed and will appear on your next statement. Thank you for "
             +:+ "banking with us.")
            None high [sms] None 1000.

Definition payload_short : NotificationPayload :=
  mkPayload (uuid 0) "u1" transfer_completed (Some "t-1") "Transfer complete"
            "Your transfer was successful" None high [sms] None 1000.

(** Two notifications waiting in the daily digest queue of [u1], one of
    them with a delivery record. *)
Definition entry1 : DigestEntry :=
  mkDigestEntry "n-1" login_attempt "New sign-in" "Your account was accessed" 500 None.
Definition entry2 : DigestEntry :=
  mkDigestEntry "n-2" low_balance_alert "Low balance" "Your balance is low" 600 None.

Definition record1 : NotificationEvent.t :=
  NotificationEvent.mk "n-1" "u1" login_attempt (Some "s-9") "New sign-in"
    "Your account was accessed" None email medium queued_for_digest
    (Some "sendgrid") None 0 None None None 500 None None None None
    (Some "u1:login_attempt:s-9:email").

Definition world_digest : World :=
  mkWorld (mkStore true ∅ ∅ {[ DIGEST_DAILY "u1" := ([entry1; entry2], Some 604800000) ]})
          true {[ "u1" := prefs_quiet "u1" "America/New_York" false ]}
          [record1] [] [] 0.

(** An environment in which every provider fails every call. *)
Definition env_all_down : Env :=
  mkEnv (fun _ => 0) (fun enc => Some enc) uuid (fun _ => "1970-01-01T00:00:00.000Z")
        (fun _ _ _ => Returned (mkDeliveryResult websocket failed None None (Some "gateway down")))
        (fun _ _ _ => Returned (mkDeliveryResult sms failed None None (Some "timeout")))
        (fun _ _ _ => Returned (mkDeliveryResult email failed None None (Some "timeout")))
        (fun _ _ _ => Raised "firebase unavailable")
        (fun _ _ _ _ => mkDeliveryResult email failed None None (Some "timeout"))
        (fun _ => []).

(** The same, the mail provider answering before the websocket gateway. *)
Definition env_all_down_mail_first : Env :=
  mkEnv (fun _ => 0) (fun enc => Some enc) uuid (fun _ => "1970-01-01T00:00:00.000Z")
        (fun _ _ _ => Returned (mkDeliveryResult websocket failed None None (Some "gateway down")))
        (fun _ _ _ => Returned (mkDeliveryResult sms failed None None (Some "timeout")))
        (fun _ _ _ => Returned (mkDeliveryResult email failed None None (Some "timeout")))
        (fun _ _ _ => Raised "firebase unavailable")
        (fun _ _ _ _ => mkDeliveryResult email failed None None (Some "timeout"))
        (fun _ => [1%nat; 1%nat]).

(** A record waiting for its first retry, and a record left in [retrying]
    with its retry count at the cap. *)
Definition record_retrying : NotificationEvent.t :=
  NotificationEvent.mk "n-7" "u1" transfer_failed (Some "t-7") "Transfer failed"
    "Your transfer could not be completed" None email high retrying
    (Some "sendgrid") None 0 None (Some 0) (Some "timeout") 0 None None None None
    (Some "u1:transfer_failed:t-7:email").

Definition record_stuck : NotificationEvent.t :=
  NotificationEvent.mk "n-8" "u1" transfer_failed (Some "t-8") "Transfer failed"
    "Your transfer could not be completed" None email high retrying
    (Some "sendgrid") None 5 (Some 0) (Some 0) (Some "timeout") 0 None None None None
    (Some "u1:transfer_failed:t-8:email").

Definition world_retry : World :=
  mkWorld (empty_store true) true
          {[ "u1" := prefs_quiet "u1" "America/New_York" true ]}
          [record_retrying; record_stuck] [] [] 0.

(** Five scanner ticks, each after the retry instant set by the one
    before. *)
Definition ticks : list Z := [30000; 60000; 90000; 120000; 420000].

(** The hourly SMS cap of a user lowered to 2. *)
Definition limits_two_per_hour : RateLimiter.PartialLimits :=
  RateLimiter.mkPartial (Some 2) None None None None None.

(** User [u1] has opted out of every notification. *)
Definition prefs_opted_out : UserPreferences.t :=
  UserPreferences.mk "u1"
    (UserPreferences.mkChannels
       (UserPreferences.mkWs true true)
       (UserPreferences.mkSms true None None)
       (UserPreferences.mkEmail true (Some "enc:user@example.com") (Some 1) false daily "09:00")
       (UserPreferences.mkPush true []))
    (fun _ => None)
    (UserPreferences.mkQuietHours false "22:00" "07:00" "America/New_York" true)
    (RateLimiter.mkLimits 10 50 20 100 30 200)
    (UserPreferences.mkDnc true).

Definition world_opted_out : World :=
  mkWorld (empty_store true) true {[ "u1" := prefs_opted_out ]} [] [] [] 0.

(** A fraud alert, critical by its kind, and a failed transfer, sent by
    default on the websocket and by mail. *)
Definition request_fraud : NotificationRouter.NotificationRequest :=
  NotificationRouter.mkRequest "u1" fraud_detected "Fraud Alert"
    "We detected potentially fraudulent activity" (Some "case-1") None None None.

Definition request_transfer_failed : NotificationRouter.NotificationRequest :=
  NotificationRouter.mkRequest "u1" transfer_failed "Transfer failed"
    "Your transfer could not be completed" (Some "t-7") None None None.

(** A record of a kind whose dedup window is one day, waiting for its first
    retry while the dedup entry of its first routing is alive. *)
Definition record_kyc : NotificationEvent.t :=
  NotificationEvent.mk "n-9" "u1" kyc_verification_needed None "Verification Required"
    "Please complete identity verification" None email critical retrying
    (Some "sendgrid") None 0 None (Some 0) (Some "timeout") 0 None None None None
    (Some "u1:kyc_verification_needed:none:email").

Definition world_kyc : World :=
  mkWorld (mkStore true ∅
             {[ DEDUP "u1" "kyc_verification_needed" "none"
                := (mkDedupData "n-9" 0, Some 86400000) ]} ∅)
          true {[ "u1" := prefs_quiet "u1" "America/New_York" true ]}
          [record_kyc] [] [] 0.

(** User [u1] with a verified phone number, a verified mail address and a
    registered device. *)
Definition prefs_reachable : UserPreferences.t :=
  UserPreferences.mk "u1"
    (UserPreferences.mkChannels
       (UserPreferences.mkWs true true)
       (UserPreferences.mkSms true (Some "enc:+15550100") (Some 1))
       (UserPreferences.mkEmail true (Some "enc:user@example.com") (Some 1) false daily "09:00")
       (UserPreferences.mkPush true [UserPreferences.mkDevice "d-1" "tok-1" ios]))
    (fun _ => None)
    (UserPreferences.mkQuietHours false "22:00" "07:00" "America/New_York" true)
    (RateLimiter.mkLimits 10 50 20 100 30 200)
    (UserPreferences.mkDnc false).

Definition world_reachable : World :=
  mkWorld (empty_store true) true {[ "u1" := prefs_reachable ]} [] [] [] 0.

(** A device to register. *)
Definition device1 : UserPreferences.PushDevice :=
  UserPreferences.mkDevice "d-1" "tok-1" ios.

(** The topics of the bus, and a failed sign-in reported from a device. *)
Definition topics : KafkaEventConsumer.Topics :=
  KafkaEventConsumer.mkTopics "security-events" "transaction-events" "fraud-events"
                              "user-events".

Definition event_login_failed (device correlation : string)
  : KafkaEventConsumer.IncomingEvent :=
  KafkaEventConsumer.mkEvent "user.login.failed" (Some correlation)
    (KafkaEventConsumer.mkPayload (Some "u1") (Some device) None
       KafkaEventConsumer.NoAmount None None None None device).

End Scenario.

(* ================================================================== *)
(** * Properties                                                       *)
(* ================================================================== *)

(** ** The store *)

Section StoreFacts.
Import Redis.

Lemma visible_Some {A} now (m : gmap string (A * option Z)) key v e :
  visible now m key = Some (v, e) <-> m !! key = Some (v, e) /\ live now e = true.
Proof.
  unfold visible.
  destruct (m !! key) as [[v' e']|];
    [|split; [discriminate | intros [? _]; discriminate]].
  destruct (live now e') eqn:Hl; split.
  - intros H; inversion H; subst; auto.
  - intros [H _]; exact H.
  - discriminate.
  - intros [H H']. inversion H; subst. congruence.
Qed.

Lemma visible_insert_eq {A} now (m : gmap string (A * option Z)) key v e :
  visible now (<[key := (v, e)]> m) key = if live now e then Some (v, e) else None.
Proof. unfold visible. rewrite lookup_insert_eq. reflexivity. Qed.

Lemma visible_insert_ne {A} now (m : gmap string (A * option Z)) key key' x :
  key <> key' -> visible now (<[key := x]> m) key' = visible now m key'.
Proof. intros H. unfold visible. rewrite lookup_insert_ne by done. reflexivity. Qed.

Lemma live_after now seconds :
  0 < seconds -> live now (Some (now + seconds * 1000)) = true.
Proof. intros H. simpl. apply Z.ltb_lt. lia. Qed.

(** [INCR key] then [EXPIRE key ttl] leave the incremented count under
    [key], expiring [ttl] seconds from now. *)
Lemma incr_expire_counters now key ttl s :
  counters (expire_counter now key ttl (incr now key s))
  = <[key := (default 0 (get_count s now key) + 1, Some (now + ttl * 1000))]>
      (counters s).
Proof.
  unfold expire_counter, incr, get_count.
  destruct (visible now (counters s) key) as [[c e]|] eqn:Hv; simpl.
  - apply visible_Some in Hv as [_ Hl].
    rewrite visible_insert_eq, Hl. simpl. apply insert_insert_eq.
  - rewrite visible_insert_eq. simpl. apply insert_insert_eq.
Qed.

Lemma incr_expire_frame now key ttl s :
  up (expire_counter now key ttl (incr now key s)) = up s
  /\ dedup (expire_counter now key ttl (incr now key s)) = dedup s
  /\ digests (expire_counter now key ttl (incr now key s)) = digests s.
Proof.
  unfold expire_counter, incr.
  destruct (visible now (counters s) key) as [[c e]|]; simpl;
    rewrite visible_insert_eq; simpl.
  - destruct (live now e); simpl; auto.
  - auto.
Qed.

(** The reply of [TTL] on a key that expires within [bound] seconds. *)
Lemma ttl_of_bound {A} now (m : gmap string (A * option Z)) key bound :
  0 <= bound ->
  (forall v e, m !! key = Some (v, Some e) -> e <= now + bound * 1000) ->
  ttl_of now m key <= bound.
Proof.
  intros Hb H. unfold ttl_of.
  destruct (visible now m key) as [[v [e|]]|] eqn:Hv; try lia.
  apply visible_Some in Hv as [Hm _]. specialize (H _ _ Hm).
  apply Z.lt_succ_r. apply Z.div_lt_upper_bound; lia.
Qed.

End StoreFacts.

(** ** The rate limiter *)

Section RateLimiterFacts.
Import Redis RateLimiter.

Lemma keys_distinct userId channel limits k :
  getChannelKeys userId channel limits = Some k -> hourKey k <> dayKey k.
Proof.
  destruct channel; simpl; intros H; inversion H; subst; simpl;
    intros HH; discriminate HH.
Qed.

Lemma getChannelKeys_total userId channel limits :
  channel <> websocket -> is_Some (getChannelKeys userId channel limits).
Proof. destruct channel; simpl; intros H; eauto; congruence. Qed.

(** The script refuses at the hourly cap and changes nothing. *)
Lemma consumeScript_hour_refused now k hourTTL dayTTL s :
  hourLimit k <= default 0 (get_count s now (hourKey k)) ->
  consumeScript now k hourTTL dayTTL s
  = ((0, default 0 (get_count s now (hourKey k)), hourLimit k,
      ttl_of now (counters s) (hourKey k)), s).
Proof.
  intros H. unfold consumeScript.
  destruct (Z.leb_spec (hourLimit k) (default 0 (get_count s now (hourKey k))));
    [reflexivity | lia].
Qed.

(** The script refuses at the daily cap and changes nothing. *)
Lemma consumeScript_day_refused now k hourTTL dayTTL s :
  default 0 (get_count s now (hourKey k)) < hourLimit k ->
  dayLimit k <= default 0 (get_count s now (dayKey k)) ->
  consumeScript now k hourTTL dayTTL s
  = ((0, default 0 (get_count s now (dayKey k)), dayLimit k,
      ttl_of now (counters s) (dayKey k)), s).
Proof.
  intros Hh Hd. unfold consumeScript.
  destruct (Z.leb_spec (hourLimit k) (default 0 (get_count s now (hourKey k))));
    [lia|].
  destruct (Z.leb_spec (dayLimit k) (default 0 (get_count s now (dayKey k))));
    [reflexivity | lia].
Qed.

(** Below both caps the script answers 1 and bumps both counters. *)
Lemma consumeScript_allowed now k hourTTL dayTTL s :
  hourKey k <> dayKey k -> 0 < hourTTL -> 0 < dayTTL ->
  default 0 (get_count s now (hourKey k)) < hourLimit k ->
  default 0 (get_count s now (dayKey k)) < dayLimit k ->
  exists rem ttl s',
    consumeScript now k hourTTL dayTTL s = ((1, rem, hourLimit k, ttl), s')
    /\ counters s'
       = <[dayKey k := (default 0 (get_count s now (dayKey k)) + 1,
                        Some (now + dayTTL * 1000))]>
           (<[hourKey k := (default 0 (get_count s now (hourKey k)) + 1,
                            Some (now + hourTTL * 1000))]> (counters s))
    /\ up s' = up s /\ dedup s' = dedup s /\ digests s' = digests s.
Proof.
  intros Hne Hht Hdt Hh Hd. unfold consumeScript.
  destruct (Z.leb_spec (hourLimit k) (default 0 (get_count s now (hourKey k))));
    [lia|].
  destruct (Z.leb_spec (dayLimit k) (default 0 (get_count s now (dayKey k))));
    [lia|].
  do 3 eexists. split; [reflexivity|].
  set (s2 := expire_counter now (hourKey k) hourTTL (incr now (hourKey k) s)).
  assert (Hc2 : counters s2
                = <[hourKey k := (default 0 (get_count s now (hourKey k)) + 1,
                                  Some (now + hourTTL * 1000))]> (counters s))
    by apply incr_expire_counters.
  destruct (incr_expire_frame now (hourKey k) hourTTL s) as (Hu & Hdd & Hg).
  destruct (incr_expire_frame now (dayKey k) dayTTL s2) as (Hu' & Hdd' & Hg').
  fold s2 in Hu, Hdd, Hg.
  split; [|split; [congruence | split; congruence]].
  rewrite incr_expire_counters, Hc2. f_equal. f_equal. f_equal.
  unfold get_count. rewrite Hc2, visible_insert_ne by done. reflexivity.
Qed.

End RateLimiterFacts.

Section ConsumeLimit.
Import Redis RateLimiter.

Lemma consumeLimit_unfold cfg now userId channel userLimits s k :
  getChannelKeys userId channel (merge (defaultLimits cfg) userLimits) = Some k ->
  up s = true ->
  consumeLimit cfg now userId channel userLimits s
  = let '((allowed, remaining, limit, ttl), s') :=
      consumeScript now k REDIS_TTL_RATE_LIMIT_HOUR REDIS_TTL_RATE_LIMIT_DAY s in
    let wait := if 0 <? ttl then ttl * 1000 else REDIS_TTL_RATE_LIMIT_HOUR * 1000 in
    Some (mkResult (allowed =? 1) remaining limit (now + wait)
                   (if allowed =? 0 then Some wait else None), s').
Proof.
  intros Hk Hup. unfold consumeLimit.
  destruct channel; [discriminate Hk | ..]; rewrite Hk, Hup; reflexivity.
Qed.

(** With the store down the call is allowed and the store is untouched
    (the [catch] branch). *)
Lemma consumeLimit_store_down cfg now userId channel userLimits s :
  up s = false ->
  consumeLimit cfg now userId channel userLimits s = Some (unlimited now, s).
Proof.
  intros Hup. unfold consumeLimit.
  destruct channel; simpl; rewrite ?Hup; reflexivity.
Qed.

(** [consumeLimit] never rejects. *)
Lemma consumeLimit_total cfg now userId channel userLimits s :
  is_Some (consumeLimit cfg now userId channel userLimits s).
Proof.
  unfold consumeLimit.
  destruct channel; simpl; eauto;
    destruct (up s); eauto;
    match goal with
    | |- context [consumeScript ?a ?b ?c ?d ?e] =>
        destruct (consumeScript a b c d e) as [[[[? ?] ?] ?] ?]; eauto
    end.
Qed.

(** The websocket channel bypasses the budget. *)
Lemma consumeLimit_websocket cfg now userId userLimits s :
  consumeLimit cfg now userId websocket userLimits s = Some (unlimited now, s).
Proof. reflexivity. Qed.

(** The hour key never outlives the hour that follows a call: what the
    boundary theorem below assumes of the store is kept by every call. *)
Lemma consumeLimit_hour_expiry cfg now userId channel userLimits s k r s' :
  getChannelKeys userId channel (merge (defaultLimits cfg) userLimits) = Some k ->
  (forall c e, counters s !! hourKey k = Some (c, Some e) ->
               e <= now + REDIS_TTL_RATE_LIMIT_HOUR * 1000) ->
  consumeLimit cfg now userId channel userLimits s = Some (r, s') ->
  forall now', now <= now' ->
  forall c e, counters s' !! hourKey k = Some (c, Some e) ->
              e <= now' + REDIS_TTL_RATE_LIMIT_HOUR * 1000.
Proof.
  intros Hk Hinv Hc now' Hnow c e Hl.
  destruct (up s) eqn:Hup.
  - rewrite (consumeLimit_unfold _ _ _ _ _ _ _ Hk Hup) in Hc.
    pose proof (keys_distinct _ _ _ _ Hk) as Hne.
    destruct (Z_lt_le_dec (default 0 (get_count s now (hourKey k))) (hourLimit k))
      as [Hh|Hh].
    + destruct (Z_lt_le_dec (default 0 (get_count s now (dayKey k))) (dayLimit k))
        as [Hd|Hd].
      * destruct (consumeScript_allowed now k REDIS_TTL_RATE_LIMIT_HOUR
                    REDIS_TTL_RATE_LIMIT_DAY s Hne) as (rem & ttl & s2 & Hs & Hcs & _);
          [reflexivity | reflexivity | exact Hh | exact Hd |].
        rewrite Hs in Hc. injection Hc as _ <-.
        rewrite Hcs, lookup_insert_ne, lookup_insert_eq in Hl by done.
        injection Hl as _ <-. lia.
      * rewrite consumeScript_day_refused in Hc by assumption.
        injection Hc as _ <-. specialize (Hinv _ _ Hl). lia.
    + rewrite consumeScript_hour_refused in Hc by assumption.
      injection Hc as _ <-. specialize (Hinv _ _ Hl). lia.
  - rewrite consumeLimit_store_down in Hc by exact Hup.
    injection Hc as _ <-. specialize (Hinv _ _ Hl). lia.
Qed.

(** C5, as amended.  For a user and a channel among sms, email and push,
    with the store answering and the hour key expiring within the hour:
    at the hourly cap [consumeLimit] refuses, with [resetAt] after now and
    at most one hour ahead; one below the hourly cap, and below the daily
    cap, it allows; an allowed call leaves both counters one higher; a
    refused call leaves the store as it was. *)
Theorem consumeLimit_boundary cfg now userId channel userLimits s k :
  up s = true ->
  getChannelKeys userId channel (merge (defaultLimits cfg) userLimits) = Some k ->
  (forall c e, counters s !! hourKey k = Some (c, Some e) ->
               e <= now + REDIS_TTL_RATE_LIMIT_HOUR * 1000) ->
  exists r s',
    consumeLimit cfg now userId channel userLimits s = Some (r, s')
    /\ (default 0 (get_count s now (hourKey k)) = hourLimit k ->
        allowed r = false
        /\ now < resetAt r <= now + REDIS_TTL_RATE_LIMIT_HOUR * 1000)
    /\ (default 0 (get_count s now (hourKey k)) = hourLimit k - 1 ->
        default 0 (get_count s now (dayKey k)) < dayLimit k ->
        allowed r = true)
    /\ (allowed r = true ->
        get_count s' now (hourKey k)
        = Some (default 0 (get_count s now (hourKey k)) + 1)
        /\ get_count s' now (dayKey k)
           = Some (default 0 (get_count s now (dayKey k)) + 1))
    /\ (allowed r = false -> s' = s).
Proof.
  intros Hup Hk Hexp.
  rewrite (consumeLimit_unfold _ _ _ _ _ _ _ Hk Hup).
  pose proof (keys_distinct _ _ _ _ Hk) as Hne.
  set (hour := default 0 (get_count s now (hourKey k))).
  set (day := default 0 (get_count s now (dayKey k))).
  destruct (Z_lt_le_dec hour (hourLimit k)) as [Hh|Hh].
  - destruct (Z_lt_le_dec day (dayLimit k)) as [Hd|Hd].
    + destruct (consumeScript_allowed now k REDIS_TTL_RATE_LIMIT_HOUR
                  REDIS_TTL_RATE_LIMIT_DAY s Hne) as (rem & ttl & s' & Hs & Hc & _);
        [reflexivity | reflexivity | exact Hh | exact Hd |].
      rewrite Hs. cbv zeta iota beta. do 2 eexists. split; [reflexivity|].
      simpl allowed. simpl resetAt.
      split; [intros; lia|]. split; [reflexivity|]. split; [|discriminate].
      intros _. unfold get_count. rewrite Hc. split.
      * rewrite visible_insert_ne by done.
        rewrite visible_insert_eq, live_after by reflexivity. reflexivity.
      * rewrite visible_insert_eq, live_after by reflexivity. reflexivity.
    + rewrite consumeScript_day_refused by assumption.
      cbv zeta iota beta. do 2 eexists. split; [reflexivity|].
      simpl allowed. split; [intros; lia|]. split; [intros; lia|].
      split; [discriminate | reflexivity].
  - rewrite consumeScript_hour_refused by assumption.
    cbv zeta iota beta. do 2 eexists. split; [reflexivity|].
    simpl allowed. simpl resetAt.
    split; [|split; [intros; lia | split; [discriminate | reflexivity]]].
    intros _. split; [reflexivity|].
    pose proof (ttl_of_bound now (counters s) (hourKey k)
                  REDIS_TTL_RATE_LIMIT_HOUR ltac:(unfold REDIS_TTL_RATE_LIMIT_HOUR; lia) Hexp)
      as Hb.
    unfold REDIS_TTL_RATE_LIMIT_HOUR in *.
    destruct (Z.ltb_spec 0 (ttl_of now (counters s) (hourKey k))); lia.
Qed.

(** Witness for [consumeLimit_boundary]: user [u1] at the hourly SMS cap. *)
Lemma consumeLimit_boundary_witness :
  exists r s',
    consumeLimit Config.default 1000 "u1" sms no_overrides Scenario.store_hour_cap
    = Some (r, s')
    /\ allowed r = false /\ 1000 < resetAt r <= 1000 + 3600 * 1000 /\ s' = Scenario.store_hour_cap.
Proof.
  destruct (consumeLimit_boundary Config.default 1000 "u1" sms no_overrides
              Scenario.store_hour_cap
              (mkKeys (RATE_LIMIT_SMS_HOUR "u1") (RATE_LIMIT_SMS_DAY "u1") 10 50))
    as (r & s' & Hr & Hcap & _ & _ & Hsame).
  - reflexivity.
  - reflexivity.
  - intros c e H. vm_compute in H. inversion H; subst. vm_compute. discriminate.
  - exists r, s'. split; [exact Hr|].
    destruct Hcap as [Ha Hb]; [vm_compute; reflexivity|].
    split; [exact Ha|]. split; [exact Hb | exact (Hsame Ha)].
Defined.

(** C5 as stated fails: one below the hourly cap the call is still refused
    when the daily cap is reached. *)
Lemma consumeLimit_one_below_hour_cap_refused :
  ~ (forall cfg now userId channel userLimits s k r s',
        up s = true ->
        getChannelKeys userId channel (merge (defaultLimits cfg) userLimits) = Some k ->
        default 0 (get_count s now (hourKey k)) = hourLimit k - 1 ->
        consumeLimit cfg now userId channel userLimits s = Some (r, s') ->
        allowed r = true).
Proof.
  intros H.
  specialize (H Config.default 1000 "u1" sms no_overrides Scenario.store_day_cap
                (mkKeys (RATE_LIMIT_SMS_HOUR "u1") (RATE_LIMIT_SMS_DAY "u1") 10 50)
                (mkResult false 50 50 86400000 (Some 86399000))
                Scenario.store_day_cap).
  assert (Hf : false = true); [|discriminate Hf].
  apply H; vm_compute; reflexivity.
Qed.

End ConsumeLimit.

(** ** The deduplication service *)

Section DedupFacts.
Import Redis DeduplicationService.

(** With the store down the request is "not duplicate" and the store is
    untouched (the [catch] branch). *)
Lemma checkAndMark_store_down cfg now userId eventType sourceId nid windowMs s :
  up s = false ->
  checkAndMark cfg now userId eventType sourceId nid windowMs s = (not_duplicate, s).
Proof. intros H. unfold checkAndMark. rewrite H. reflexivity. Qed.

(** A key seen for the first time is registered with the id of the call. *)
Lemma checkAndMark_fresh cfg now userId eventType sourceId nid windowMs s :
  up s = true ->
  visible now (dedup s) (generateKey userId eventType sourceId) = None ->
  0 < ttlSeconds cfg windowMs ->
  checkAndMark cfg now userId eventType sourceId nid windowMs s
  = (not_duplicate,
     with_dedup s (<[generateKey userId eventType sourceId :=
                      (mkDedupData nid now,
                       Some (now + ttlSeconds cfg windowMs * 1000))]> (dedup s))).
Proof.
  intros Hup Hv Httl. unfold checkAndMark, checkAndMarkScript.
  rewrite Hup, Hv. destruct (Z.ltb_spec 0 (ttlSeconds cfg windowMs)); [reflexivity | lia].
Qed.

(** A key that is present yields its stored id and leaves the store as it
    is. *)
Lemma checkAndMark_present cfg now userId eventType sourceId nid windowMs s d e :
  up s = true ->
  visible now (dedup s) (generateKey userId eventType sourceId) = Some (d, e) ->
  checkAndMark cfg now userId eventType sourceId nid windowMs s
  = (mkDedupResult true (Some (d_notificationId d)) (Some (d_sentAt d)), s).
Proof.
  intros Hup Hv. unfold checkAndMark, checkAndMarkScript. rewrite Hup, Hv. reflexivity.
Qed.

(** The key outlives the window it was registered with. *)
Lemma ttlSeconds_covers cfg w : w <= ttlSeconds cfg (Some w) * 1000.
Proof.
  unfold ttlSeconds. simpl.
  pose proof (Z.mul_div_le (- w) 1000 ltac:(lia)). lia.
Qed.

Lemma ttlSeconds_pos cfg w : 0 < w -> 0 < ttlSeconds cfg (Some w).
Proof. intros H. pose proof (ttlSeconds_covers cfg w). lia. Qed.

(** Whatever happens, [checkAndMark] changes at most the dedup entries. *)
Lemma checkAndMark_frame cfg now userId eventType sourceId nid windowMs s :
  let s' := snd (checkAndMark cfg now userId eventType sourceId nid windowMs s) in
  up s' = up s /\ counters s' = counters s /\ digests s' = digests s.
Proof.
  unfold checkAndMark, checkAndMarkScript.
  destruct (up s) eqn:Hup; simpl; auto.
  destruct (visible now (dedup s) _) as [[d e]|]; simpl; auto.
  destruct (0 <? ttlSeconds cfg windowMs); simpl; auto.
Qed.

End DedupFacts.

(** ** The router *)

Section RouterFacts.
Import Redis NotificationRouter Vocabulary.

Lemma router_frame_refl w : router_frame w w.
Proof. unfold router_frame. tauto. Qed.

Lemma router_frame_trans w1 w2 w3 :
  router_frame w1 w2 -> router_frame w2 w3 -> router_frame w1 w3.
Proof. unfold router_frame. intuition congruence. Qed.

Lemma storeNotification_frame now payload channel status pm err w :
  let w' := storeNotification now payload channel status pm err w in
  redis w' = redis w /\ provider_calls w' = provider_calls w
  /\ router_frame w w'.
Proof.
  unfold storeNotification.
  destruct (NotificationEvent.create _ _); simpl;
    unfold router_frame; simpl; tauto.
Qed.

Lemma consumeScript_frame now k hourTTL dayTTL s :
  let s' := snd (RateLimiter.consumeScript now k hourTTL dayTTL s) in
  up s' = up s /\ dedup s' = dedup s /\ digests s' = digests s.
Proof.
  unfold RateLimiter.consumeScript.
  destruct (_ <=? _); simpl; auto.
  destruct (_ <=? _); simpl; auto.
  destruct (incr_expire_frame now (RateLimiter.hourKey k) hourTTL s) as (H1 & H2 & H3).
  destruct (incr_expire_frame now (RateLimiter.dayKey k) dayTTL
              (expire_counter now (RateLimiter.hourKey k) hourTTL
                 (incr now (RateLimiter.hourKey k) s))) as (H4 & H5 & H6).
  repeat split; congruence.
Qed.

Lemma consumeLimit_frame cfg now userId channel userLimits s r s' :
  RateLimiter.consumeLimit cfg now userId channel userLimits s = Some (r, s') ->
  up s' = up s /\ dedup s' = dedup s /\ digests s' = digests s.
Proof.
  unfold RateLimiter.consumeLimit.
  destruct channel; simpl;
    try (intros H; inversion H; subst; tauto);
    (destruct (up s) eqn:Hup; [|intros H; inversion H; subst; tauto]);
    match goal with
    | |- context [RateLimiter.consumeScript ?a ?b ?c ?d ?e] =>
        pose proof (consumeScript_frame a b c d e) as Hf;
        destruct (RateLimiter.consumeScript a b c d e) as [[[[? ?] ?] ?] s2]
    end; simpl in *; intros H; inversion H; subst; intuition congruence.
Qed.

(** The part after the rate limit check touches neither the store nor the
    frame. *)
Lemma deliver_frame E now channel payload contactInfo result w :
  let w' := snd (deliver E now channel payload contactInfo result w) in
  redis w' = redis w /\ router_frame w w'.
Proof.
  unfold deliver.
  destruct (attempt E now channel payload contactInfo) as [reason|[d|msg]]; simpl.
  - split; [reflexivity | apply router_frame_refl].
  - match goal with
    | |- context [storeNotification ?a ?b ?c ?d ?e ?f ?g] =>
        destruct (storeNotification_frame a b c d e f g) as (Hr & _ & Hf)
    end.
    split; [exact Hr|]. unfold router_frame in *; simpl in *; tauto.
  - match goal with
    | |- context [storeNotification ?a ?b ?c ?d ?e ?f ?g] =>
        destruct (storeNotification_frame a b c d e f g) as (Hr & _ & Hf)
    end.
    split; [exact Hr|]. unfold router_frame in *; simpl in *; tauto.
Qed.

(** One channel attempt always completes, within the frame. *)
Lemma sendToChannel_ok E cfg now channel payload preferences contactInfo result w :
  exists r w',
    sendToChannel E cfg now channel payload preferences contactInfo result w = Ok r w'
    /\ router_frame w w'.
Proof.
  unfold sendToChannel.
  destruct (consumeLimit_total cfg now (p_userId payload) channel
              (limitsOf preferences) (redis w)) as [[rl s'] Hc].
  rewrite Hc. apply consumeLimit_frame in Hc as (Hu & Hd & Hg).
  assert (Hw1 : router_frame w (with_redis w s'))
    by (unfold router_frame; simpl; tauto).
  destruct (negb (RateLimiter.allowed rl)).
  - do 2 eexists. split; [reflexivity|].
    eapply router_frame_trans; [exact Hw1|].
    apply storeNotification_frame.
  - pose proof (deliver_frame E now channel payload contactInfo result (with_redis w s'))
      as [_ Hf].
    destruct (deliver E now channel payload contactInfo result (with_redis w s'))
      as [r w2]. simpl in Hf.
    do 2 eexists. split; [reflexivity|].
    eapply router_frame_trans; eassumption.
Qed.

Section Interleaving.
Import Redis NotificationRouter Vocabulary.
Variables (E : Env) (cfg : Config.t) (now : Z) (payload : NotificationPayload)
          (prefs : UserPreferences.t) (contactInfo : UserContactInfo).

(** What resuming an attempt that awaits the budget does: it is refused
    and goes on to store the refusal, or it is skipped by the [switch], or
    it calls the handler of its channel. *)
Lemma resume_limit channel result w :
  exists rl s',
    RateLimiter.consumeLimit cfg now (p_userId payload) channel (limitsOf prefs)
                             (redis w) = Some (rl, s')
    /\ ((RateLimiter.allowed rl = false
         /\ resume E cfg now payload prefs contactInfo channel AwaitLimit result w
            = (AwaitStore rate_limited None None,
               push_skip result channel
                 ("Rate limit exceeded. Resets at "
                  +:+ toISOString E (RateLimiter.resetAt rl)),
               with_redis w s'))
        \/ (exists reason,
               RateLimiter.allowed rl = true
               /\ attempt E now channel payload contactInfo = Skip reason
               /\ resume E cfg now payload prefs contactInfo channel AwaitLimit result w
                  = (Settled, push_skip result channel reason, with_redis w s'))
        \/ (exists o,
               RateLimiter.allowed rl = true
               /\ attempt E now channel payload contactInfo = Called o
               /\ resume E cfg now payload prefs contactInfo channel AwaitLimit result w
                  = (AwaitHandler o, result,
                     with_call (with_redis w s')
                               (ChannelSend channel (p_notificationId payload))))).
Proof.
  destruct (consumeLimit_total cfg now (p_userId payload) channel (limitsOf prefs)
              (redis w)) as [[rl s'] Hc].
  exists rl, s'. split; [exact Hc|].
  unfold resume. rewrite Hc.
  destruct (RateLimiter.allowed rl); simpl.
  - destruct (attempt E now channel payload contactInfo) as [reason|o] eqn:Ha.
    + right. left. eauto.
    + right. right. eauto.
  - left. auto.
Qed.

(** What resuming an attempt that awaits its handler does. *)
Lemma resume_handler channel o result w :
  exists d,
    resume E cfg now payload prefs contactInfo channel (AwaitHandler o) result w
    = (AwaitStore (r_status d) (r_providerMessageId d) (r_error d),
       push_result result d, w)
    /\ (o = Returned d
        \/ exists msg, o = Raised msg
                       /\ d = mkDeliveryResult channel failed None None (Some msg)).
Proof.
  destruct o as [d|msg]; simpl.
  - exists d. split; [reflexivity | left; reflexivity].
  - exists (mkDeliveryResult channel failed None None (Some msg)).
    split; [reflexivity|]. right. eauto.
Qed.

(** An attempt on its own, from its call to its end, is three
    resumptions: they make up [sendToChannel]. *)
Lemma sendToChannel_resume channel result w :
  let st1 := resume E cfg now payload prefs contactInfo channel AwaitLimit result w in
  let st2 := resume E cfg now payload prefs contactInfo channel
                    (fst (fst st1)) (snd (fst st1)) (snd st1) in
  let st3 := resume E cfg now payload prefs contactInfo channel
                    (fst (fst st2)) (snd (fst st2)) (snd st2) in
  sendToChannel E cfg now channel payload prefs contactInfo result w
  = Ok (snd (fst st3)) (snd st3)
  /\ fst (fst st3) = Settled.
Proof.
  unfold sendToChannel, deliver, resume.
  destruct (consumeLimit_total cfg now (p_userId payload) channel (limitsOf prefs)
              (redis w)) as [[rl s'] Hc].
  rewrite Hc.
  destruct (RateLimiter.allowed rl); simpl; [|split; reflexivity].
  destruct (attempt E now channel payload contactInfo) as [reason|[d|msg]];
    simpl; split; reflexivity.
Qed.

(** The position named by an order holds an attempt, and [advance] resumes
    it in place; or it holds none, and nothing happens. *)
Lemma advance_cases i (st : Attempts * RouteResult * World) :
  advance E cfg now payload prefs contactInfo i st = st
  \/ exists l1 channel p l2,
      fst (fst st) = (l1 ++ (channel, p) :: l2)%list
      /\ advance E cfg now payload prefs contactInfo i st
         = ((l1 ++ (channel,
                    fst (fst (resume E cfg now payload prefs contactInfo channel p
                                     (snd (fst st)) (snd st)))) :: l2)%list,
            snd (fst (resume E cfg now payload prefs contactInfo channel p
                             (snd (fst st)) (snd st))),
            snd (resume E cfg now payload prefs contactInfo channel p
                        (snd (fst st)) (snd st))).
Proof.
  unfold advance.
  destruct (fst (fst st) !! i) as [[channel p]|] eqn:Hl; [right | left; reflexivity].
  apply list_elem_of_split_length in Hl as (l1 & l2 & Hst & Hi).
  exists l1, channel, p, l2. split; [exact Hst|].
  cbv zeta. rewrite Hst, Hi. unfold Attempts.
  rewrite insert_app_r_alt by lia. rewrite Nat.sub_diag. reflexivity.
Qed.

(** A property of the attempts, the result and the world that every
    resumption keeps is kept by any order of completion. *)
Lemma follow_inv (Inv : Attempts -> RouteResult -> World -> Prop) :
  (forall l1 channel p l2 r w,
      Inv (l1 ++ (channel, p) :: l2)%list r w ->
      Inv (l1 ++ (channel,
                  fst (fst (resume E cfg now payload prefs contactInfo channel p r w)))
              :: l2)%list
          (snd (fst (resume E cfg now payload prefs contactInfo channel p r w)))
          (snd (resume E cfg now payload prefs contactInfo channel p r w))) ->
  forall order st,
    Inv (fst (fst st)) (snd (fst st)) (snd st) ->
    Inv (fst (fst (follow E cfg now payload prefs contactInfo order st)))
        (snd (fst (follow E cfg now payload prefs contactInfo order st)))
        (snd (follow E cfg now payload prefs contactInfo order st)).
Proof.
  intros Hstep. unfold follow.
  induction order as [|i order IH]; intros st Hst; [exact Hst|].
  simpl. apply IH.
  destruct (advance_cases i st) as [Hsame|(l1 & c & p & l2 & Hl & Hadv)].
  - rewrite Hsame. exact Hst.
  - rewrite Hadv. simpl. apply Hstep. rewrite <- Hl. exact Hst.
Qed.

(** And by a round. *)
Lemma round_inv (Inv : Attempts -> RouteResult -> World -> Prop) :
  (forall l1 channel p l2 r w,
      Inv (l1 ++ (channel, p) :: l2)%list r w ->
      Inv (l1 ++ (channel,
                  fst (fst (resume E cfg now payload prefs contactInfo channel p r w)))
              :: l2)%list
          (snd (fst (resume E cfg now payload prefs contactInfo channel p r w)))
          (snd (resume E cfg now payload prefs contactInfo channel p r w))) ->
  forall which l2 l1 r w,
    Inv (l1 ++ l2)%list r w ->
    Inv (l1 ++ fst (fst (round E cfg now payload prefs contactInfo which l2 r w)))%list
        (snd (fst (round E cfg now payload prefs contactInfo which l2 r w)))
        (snd (round E cfg now payload prefs contactInfo which l2 r w)).
Proof.
  intros Hstep which.
  induction l2 as [|[c p] l2 IH]; intros l1 r w Hinv; [exact Hinv|].
  simpl.
  destruct (which c).
  - pose proof (Hstep l1 c p l2 r w Hinv) as H1.
    set (step := resume E cfg now payload prefs contactInfo c p r w) in *.
    change (l1 ++ (c, fst (fst step)) :: l2)%list
      with (l1 ++ [(c, fst (fst step))] ++ l2)%list in H1.
    rewrite app_assoc in H1. apply IH in H1.
    rewrite <- app_assoc in H1. exact H1.
  - simpl.
    change (l1 ++ (c, p) :: l2)%list with (l1 ++ [(c, p)] ++ l2)%list in Hinv.
    rewrite app_assoc in Hinv. apply IH in Hinv.
    rewrite <- app_assoc in Hinv. exact Hinv.
Qed.

(** So it holds when all the attempts have settled, if it held when they
    were started. *)
Lemma settleAll_inv (Inv : Attempts -> RouteResult -> World -> Prop) channels result w :
  (forall l1 channel p l2 r w,
      Inv (l1 ++ (channel, p) :: l2)%list r w ->
      Inv (l1 ++ (channel,
                  fst (fst (resume E cfg now payload prefs contactInfo channel p r w)))
              :: l2)%list
          (snd (fst (resume E cfg now payload prefs contactInfo channel p r w)))
          (snd (resume E cfg now payload prefs contactInfo channel p r w))) ->
  Inv (List.map (fun channel => (channel, AwaitLimit)) channels) result w ->
  Inv (fst (fst (settleAll E cfg now channels payload prefs contactInfo result w)))
      (snd (fst (settleAll E cfg now channels payload prefs contactInfo result w)))
      (snd (settleAll E cfg now channels payload prefs contactInfo result w)).
Proof.
  intros Hstep H0. unfold settleAll. cbv zeta.
  apply (round_inv Inv Hstep _ _ []).
  apply (round_inv Inv Hstep _ _ []).
  apply (round_inv Inv Hstep _ _ []).
  apply (follow_inv Inv Hstep).
  apply (round_inv Inv Hstep _ _ []).
  exact H0.
Qed.

(** The same for a property of the result and the world alone. *)
Lemma settleAll_keeps (P : RouteResult -> World -> Prop) channels result w :
  (forall channel p r w,
      P r w ->
      P (snd (fst (resume E cfg now payload prefs contactInfo channel p r w)))
        (snd (resume E cfg now payload prefs contactInfo channel p r w))) ->
  P result w ->
  P (snd (fst (settleAll E cfg now channels payload prefs contactInfo result w)))
    (snd (settleAll E cfg now channels payload prefs contactInfo result w)).
Proof.
  intros Hstep H0.
  apply (settleAll_inv (fun _ r w => P r w)); [|exact H0].
  intros l1 c p l2 r w1. apply Hstep.
Qed.

Lemma resume_awaits channel p result w :
  (awaits (fst (fst (resume E cfg now payload prefs contactInfo channel p result w)))
   <= Nat.pred (awaits p))%nat.
Proof.
  destruct p as [|o|st pm err| |m]; [| destruct o; simpl; lia | simpl; lia ..].
  destruct (resume_limit channel result w)
    as (rl & s' & _ & [(_ & H)|[(reason & _ & _ & H)|(o & _ & _ & H)]]);
    rewrite H; simpl; lia.
Qed.

Lemma round_awaits k attempts result w :
  Forall (fun a => (awaits (snd a) <= S k)%nat) attempts ->
  Forall (fun a => (awaits (snd a) <= k)%nat)
         (fst (fst (round E cfg now payload prefs contactInfo (fun _ => true)
                          attempts result w))).
Proof.
  revert result w.
  induction attempts as [|[c p] rest IH]; intros result w Hall; [constructor|].
  inversion Hall as [|a l Hp Hrest]; subst. simpl in *.
  constructor.
  - simpl. pose proof (resume_awaits c p result w). lia.
  - apply IH. exact Hrest.
Qed.

(** When [settleAll] ends, no attempt awaits anything. *)
Lemma settleAll_settled channels result w :
  Forall (fun a => awaits (snd a) = 0%nat)
         (fst (fst (settleAll E cfg now channels payload prefs contactInfo result w))).
Proof.
  unfold settleAll. cbv zeta.
  eapply Forall_impl;
    [apply (round_awaits 0), (round_awaits 1), (round_awaits 2)|].
  - apply Forall_forall. intros [c p] _. destruct p; simpl; lia.
  - intros a Ha. simpl in Ha. lia.
Qed.

(** No attempt is ever rejected, and the attempts stay those of the
    channels they were started for. *)
Lemma settleAll_attempts channels result w :
  let attempts :=
    fst (fst (settleAll E cfg now channels payload prefs contactInfo result w)) in
  List.map fst attempts = channels
  /\ Forall (fun a => snd a = Settled) attempts.
Proof.
  intros attempts.
  assert (Hinv : List.map fst attempts = channels
                 /\ Forall (fun a => forall m, snd a <> Rejected m) attempts).
  { apply (settleAll_inv
             (fun ats _ _ => List.map fst ats = channels
                             /\ Forall (fun a => forall m, snd a <> Rejected m) ats)).
    - intros l1 c p l2 r w1 [Hmap Hall].
      split.
      + rewrite <- Hmap, !map_app. reflexivity.
      + apply Forall_app in Hall as [H1 H2].
        apply Forall_cons in H2 as [Hp H2].
        apply Forall_app. split; [exact H1|]. apply Forall_cons. split; [|exact H2].
        simpl in *. intros m.
        destruct p as [|o|st pm err| |m'];
          [| destruct o; simpl; discriminate | simpl; discriminate ..| apply Hp].
        destruct (resume_limit c r w1)
          as (rl & s' & _ & [(_ & H)|[(reason & _ & _ & H)|(o & _ & _ & H)]]);
          rewrite H; simpl; discriminate.
    - split.
      + rewrite map_map. simpl. apply map_id.
      + apply Forall_forall. intros a Ha. apply list_elem_of_In, in_map_iff in Ha
          as (c & <- & _). simpl. discriminate. }
  destruct Hinv as [Hmap Hrej]. split; [exact Hmap|].
  pose proof (settleAll_settled channels result w) as Hset. fold attempts in Hset.
  rewrite Forall_forall in *. intros a Ha.
  specialize (Hset a Ha). specialize (Hrej a Ha).
  destruct (snd a) as [|o|st pm err| |m]; simpl in Hset; try lia; [reflexivity|].
  exfalso. exact (Hrej m eq_refl).
Qed.

Lemma rejection_settled attempts :
  Forall (fun a => snd a = Settled) attempts -> rejection attempts = None.
Proof.
  induction attempts as [|[c p] rest IH]; intros Hall; [reflexivity|].
  inversion Hall as [|a l Hp Hrest]; subst. simpl in Hp. subst p. simpl.
  apply IH. exact Hrest.
Qed.

(** [sendAll] completes, with the result and the world the settled
    attempts leave. *)
Lemma sendAll_settleAll channels result w :
  sendAll E cfg now channels payload prefs contactInfo result w
  = Ok (snd (fst (settleAll E cfg now channels payload prefs contactInfo result w)))
       (snd (settleAll E cfg now channels payload prefs contactInfo result w)).
Proof.
  unfold sendAll. cbv zeta.
  rewrite rejection_settled; [reflexivity|].
  apply settleAll_attempts.
Qed.

(** A resumption stays within the frame of the router. *)
Lemma resume_frame channel p result w :
  router_frame w (snd (resume E cfg now payload prefs contactInfo channel p result w)).
Proof.
  destruct p as [|o|st pm err| |m];
    [| destruct o; simpl; apply router_frame_refl
     | apply storeNotification_frame
     | simpl; apply router_frame_refl ..].
  destruct (resume_limit channel result w)
    as (rl & s' & Hc & [(_ & H)|[(reason & _ & _ & H)|(o & _ & _ & H)]]);
    rewrite H; simpl;
    apply consumeLimit_frame in Hc as (Hu & Hd & Hg);
    unfold router_frame; simpl; tauto.
Qed.

End Interleaving.

(** The channel loop completes, within the frame. *)
Lemma sendAll_ok E cfg now channels payload preferences contactInfo result w :
  exists r w',
    sendAll E cfg now channels payload preferences contactInfo result w = Ok r w'
    /\ router_frame w w'.
Proof.
  rewrite sendAll_settleAll. do 2 eexists. split; [reflexivity|].
  apply (settleAll_keeps E cfg now payload preferences contactInfo
           (fun _ w' => router_frame w w')).
  - intros c p r w1 H. eapply router_frame_trans; [exact H | apply resume_frame].
  - apply router_frame_refl.
Qed.

Lemma route_with_preferences_ok E cfg now request result preferences w :
  exists r w',
    route_with_preferences E cfg now request result preferences w = Ok r w'
    /\ router_frame w w'.
Proof.
  unfold route_with_preferences.
  destruct (UserPreferences.dnc_enabled _);
    [do 2 eexists; split; [reflexivity | apply router_frame_refl]|].
  destruct (_ && negb _).
  - destruct (_ && _); do 2 eexists; (split; [reflexivity | apply router_frame_refl]).
  - apply sendAll_ok.
Qed.

(** With the preferences store answering, the steps after the dedup gate
    complete, within the frame. *)
Lemma route_after_dedup_ok E cfg now request result w :
  mongo_up w = true ->
  exists r w',
    route_after_dedup E cfg now request result w = Ok r w' /\ router_frame w w'.
Proof.
  intros Hm. unfold route_after_dedup, findOrCreateByUserId. rewrite Hm.
  destruct (preferences w !! q_userId request) as [p|]; unfold bind.
  - apply route_with_preferences_ok.
  - match goal with
    | |- context [with_preferences w ?m] => set (w0 := with_preferences w m)
    end.
    assert (F0 : router_frame w w0) by (unfold router_frame; simpl; tauto).
    destruct (route_with_preferences_ok E cfg now request result
                (UserPreferences.schemaDefault (q_userId request)) w0)
      as (r & w' & Hs & Fs).
    do 2 eexists. split; [exact Hs|]. exact (router_frame_trans _ _ _ F0 Fs).
Qed.

End RouterFacts.

(** ** What the channel attempts leave, whatever their order *)

Section RouterLedger.
Import Redis NotificationRouter Vocabulary.

(** A missing contact makes the [switch] leave with the reason of the
    channel, without calling the handler. *)
Lemma attempt_missing E now channel payload contactInfo :
  missing_contact channel contactInfo = true ->
  attempt E now channel payload contactInfo = Skip (missing_reason channel).
Proof.
  unfold missing_contact, attempt. intros H.
  destruct channel; [discriminate H | ..].
  - destruct (truthy (c_phoneNumber contactInfo)) as [phone|]; [|reflexivity].
    destruct (c_phoneVerified contactInfo) as [[|]|]; try reflexivity.
    exfalso. cbv in H. discriminate H.
  - destruct (truthy (c_email contactInfo)) as [addr|]; [|reflexivity].
    destruct (c_emailVerified contactInfo) as [[|]|]; try reflexivity.
    exfalso. cbv in H. discriminate H.
  - destruct (c_pushTokens contactInfo) as [[|t ts]|]; try reflexivity.
    discriminate H.
Qed.

(** With the contact present the handler of the channel is called. *)
Lemma attempt_present E now channel payload contactInfo :
  missing_contact channel contactInfo = false ->
  exists o, attempt E now channel payload contactInfo = Called o.
Proof.
  unfold missing_contact, attempt. intros H.
  destruct channel; [eauto | ..].
  - destruct (truthy (c_phoneNumber contactInfo)) as [phone|];
      [|cbv in H; discriminate H].
    destruct (c_phoneVerified contactInfo) as [[|]|]; eauto;
      cbv in H; discriminate H.
  - destruct (truthy (c_email contactInfo)) as [addr|];
      [|cbv in H; discriminate H].
    destruct (c_emailVerified contactInfo) as [[|]|]; eauto;
      cbv in H; discriminate H.
  - destruct (c_pushTokens contactInfo) as [[|t ts]|]; eauto; discriminate H.
Qed.

(** The [switch] leaves with a skip only for a missing contact, and calls
    the handler only when the contact is there. *)
Lemma attempt_skip E now channel payload contactInfo reason :
  attempt E now channel payload contactInfo = Skip reason ->
  missing_contact channel contactInfo = true /\ reason = missing_reason channel.
Proof.
  intros H. destruct (missing_contact channel contactInfo) eqn:Hm.
  - rewrite (attempt_missing _ _ _ _ _ Hm) in H. injection H as <-. auto.
  - destruct (attempt_present E now channel payload contactInfo Hm) as [o Ho].
    rewrite Ho in H. discriminate H.
Qed.

Lemma attempt_called E now channel payload contactInfo o :
  attempt E now channel payload contactInfo = Called o ->
  missing_contact channel contactInfo = false.
Proof.
  intros H. destruct (missing_contact channel contactInfo) eqn:Hm; [|reflexivity].
  rewrite (attempt_missing _ _ _ _ _ Hm) in H. discriminate H.
Qed.

Lemma waiting_app l1 l2 : waiting (l1 ++ l2)%list = (waiting l1 ++ waiting l2)%list.
Proof. unfold waiting. rewrite List.filter_app, map_app. reflexivity. Qed.

Lemma inFlight_app l1 l2 : inFlight (l1 ++ l2)%list = (inFlight l1 + inFlight l2)%nat.
Proof. unfold inFlight. rewrite List.filter_app, length_app. reflexivity. Qed.

Lemma waiting_cons c p l :
  waiting ((c, p) :: l)
  = ((match p with AwaitLimit => [c] | _ => [] end) ++ waiting l)%list.
Proof. unfold waiting. simpl. destruct p; reflexivity. Qed.

Lemma inFlight_cons c p l :
  inFlight ((c, p) :: l)
  = ((match p with AwaitHandler _ => 1 | _ => 0 end) + inFlight l)%nat.
Proof. unfold inFlight. simpl. destruct p; reflexivity. Qed.

Lemma waiting_settled attempts :
  Forall (fun a => snd a = Settled) attempts ->
  waiting attempts = [] /\ inFlight attempts = 0%nat.
Proof.
  induction attempts as [|[c p] rest IH]; intros Hall; [split; reflexivity|].
  inversion Hall as [|a l Hp Hrest]; subst. simpl in Hp. subst p.
  destruct (IH Hrest) as [Hw Hi]. unfold waiting, inFlight in *. simpl. auto.
Qed.

Lemma waiting_started channels :
  waiting (List.map (fun channel => (channel, AwaitLimit)) channels) = channels
  /\ inFlight (List.map (fun channel => (channel, AwaitLimit)) channels) = 0%nat.
Proof.
  induction channels as [|c cs [IH1 IH2]]; [split; reflexivity|].
  unfold waiting, inFlight in *. simpl. rewrite IH1. auto.
Qed.

Lemma list_filter_Permutation {A} (f : A -> bool) (l k : list A) :
  l ≡ₚ k -> List.filter f l ≡ₚ List.filter f k.
Proof.
  induction 1 as [|x l k _ IH|x y l|l k m _ IH1 _ IH2]; simpl.
  - reflexivity.
  - destruct (f x); [constructor|]; exact IH.
  - destruct (f x), (f y); try reflexivity. constructor.
  - etransitivity; eassumption.
Qed.

Lemma filter_all_true {A} (f : A -> bool) (l : list A) :
  Forall (fun x => f x = true) l -> List.filter f l = l.
Proof.
  induction 1 as [|x l Hx _ IH]; simpl; [reflexivity|]. rewrite Hx, IH. reflexivity.
Qed.

Lemma filter_all_false {A} (f : A -> bool) (l : list A) :
  Forall (fun x => f x = false) l -> List.filter f l = [].
Proof.
  induction 1 as [|x l Hx _ IH]; simpl; [reflexivity|]. rewrite Hx, IH. reflexivity.
Qed.

(** The ledger of the channel loop.  When all attempts have settled, each
    channel was either handed to its handler, once, or recorded as
    skipped, once; each handler called has put one outcome in the result;
    and a handler is called only for a channel whose contact is there.
    This holds for every order in which the awaited operations
    complete. *)
Lemma settleAll_ledger E cfg now channels payload prefs contactInfo result w :
  exists called rs sk,
    provider_calls (snd (settleAll E cfg now channels payload prefs contactInfo result w))
    = (provider_calls w
       ++ List.map (fun ch => ChannelSend ch (p_notificationId payload)) called)%list
    /\ results (snd (fst (settleAll E cfg now channels payload prefs contactInfo
                                    result w)))
       = (results result ++ rs)%list
    /\ skippedChannels (snd (fst (settleAll E cfg now channels payload prefs contactInfo
                                            result w)))
       = (skippedChannels result ++ sk)%list
    /\ (called ++ List.map fst sk)%list ≡ₚ channels
    /\ List.length rs = List.length called
    /\ Forall (fun ch => missing_contact ch contactInfo = false) called.
Proof.
  pose proof (settleAll_attempts E cfg now payload prefs contactInfo channels result w)
    as [_ Hset]. cbv zeta in Hset.
  apply waiting_settled in Hset as [Hw Hi].
  assert (Hinv :
    let st := settleAll E cfg now channels payload prefs contactInfo result w in
    exists called rs sk,
      provider_calls (snd st)
      = (provider_calls w
         ++ List.map (fun ch => ChannelSend ch (p_notificationId payload)) called)%list
      /\ results (snd (fst st)) = (results result ++ rs)%list
      /\ skippedChannels (snd (fst st)) = (skippedChannels result ++ sk)%list
      /\ (called ++ List.map fst sk ++ waiting (fst (fst st)))%list ≡ₚ channels
      /\ (List.length rs + inFlight (fst (fst st)))%nat = List.length called
      /\ Forall (fun ch => missing_contact ch contactInfo = false) called).
  { apply (settleAll_inv E cfg now payload prefs contactInfo
             (fun ats r w' =>
                exists called rs sk,
                  provider_calls w'
                  = (provider_calls w
                     ++ List.map (fun ch => ChannelSend ch (p_notificationId payload))
                                 called)%list
                  /\ results r = (results result ++ rs)%list
                  /\ skippedChannels r = (skippedChannels result ++ sk)%list
                  /\ (called ++ List.map fst sk ++ waiting ats)%list ≡ₚ channels
                  /\ (List.length rs + inFlight ats)%nat = List.length called
                  /\ Forall (fun ch => missing_contact ch contactInfo = false) called)).
    - intros l1 c p l2 r w1 (called & rs & sk & Hc & Hr & Hs & Hperm & Hlen & Hpres).
      rewrite waiting_app, waiting_cons in Hperm.
      rewrite inFlight_app, inFlight_cons in Hlen.
      rewrite waiting_app, waiting_cons, inFlight_app, inFlight_cons.
      destruct p as [|o|st pm err| |m].
      + destruct (resume_limit E cfg now payload prefs contactInfo c r w1)
          as (rl & s' & _ & [(_ & Heq)|[(reason & _ & Ha & Heq)|(o & _ & Ha & Heq)]]);
          rewrite Heq; simpl fst; simpl snd.
        * exists called, rs, (sk ++ [(c, "Rate limit exceeded. Resets at "
                                         +:+ toISOString E (RateLimiter.resetAt rl))])%list.
          split; [exact Hc|]. split; [exact Hr|].
          split; [simpl; rewrite Hs, <- app_assoc; reflexivity|].
          split; [|split; [exact Hlen|exact Hpres]].
          rewrite <- Hperm, map_app. simpl.
          rewrite <- !app_assoc. do 2 f_equiv. simpl.
          rewrite <- Permutation_middle. reflexivity.
        * exists called, rs, (sk ++ [(c, reason)])%list.
          split; [exact Hc|]. split; [exact Hr|].
          split; [simpl; rewrite Hs, <- app_assoc; reflexivity|].
          split; [|split; [exact Hlen|exact Hpres]].
          rewrite <- Hperm, map_app. simpl.
          rewrite <- !app_assoc. do 2 f_equiv. simpl.
          rewrite <- Permutation_middle. reflexivity.
        * exists (called ++ [c])%list, rs, sk.
          split; [simpl; rewrite Hc, map_app, <- app_assoc; reflexivity|].
          split; [exact Hr|]. split; [exact Hs|].
          split; [|split].
          -- rewrite <- Hperm. simpl.
             rewrite <- !app_assoc. f_equiv. simpl.
             rewrite Permutation_middle. f_equiv.
             rewrite <- Permutation_middle. reflexivity.
          -- rewrite length_app. simpl in *. lia.
          -- apply Forall_app. split; [exact Hpres|]. constructor; [|constructor].
             eapply attempt_called. exact Ha.
      + destruct (resume_handler E cfg now payload prefs contactInfo c o r w1)
          as (d & Heq & _).
        rewrite Heq. simpl fst. simpl snd.
        exists called, (rs ++ [d])%list, sk.
        split; [exact Hc|].
        split; [simpl; rewrite Hr, <- app_assoc; reflexivity|]. split; [exact Hs|].
        split; [exact Hperm|]. split; [|exact Hpres].
        rewrite length_app. simpl in *. lia.
      + simpl fst. simpl snd. exists called, rs, sk.
        match goal with
        | |- context [storeNotification ?a ?b ?c ?d ?e ?f ?g] =>
            destruct (storeNotification_frame a b c d e f g) as (_ & Hp & _)
        end.
        rewrite Hp. repeat split; assumption.
      + simpl fst. simpl snd. exists called, rs, sk. repeat split; assumption.
      + simpl fst. simpl snd. exists called, rs, sk. repeat split; assumption.
    - exists [], [], []. simpl. rewrite !app_nil_r.
      destruct (waiting_started channels) as [-> ->].
      repeat split; try reflexivity. constructor. }
  cbv zeta in Hinv.
  destruct Hinv as (called & rs & sk & Hc & Hr & Hs & Hperm & Hlen & Hpres).
  rewrite Hw, app_nil_r in Hperm. rewrite Hi, Nat.add_0_r in Hlen.
  exists called, rs, sk. repeat split; assumption.
Qed.

End RouterLedger.

Section RouterStoreFailures.
Import Redis NotificationRouter Vocabulary.

Lemma with_redis_same w : with_redis w (redis w) = w.
Proof. destruct w; reflexivity. Qed.

(** The steps after the dedup gate stay within the frame, whether they
    complete or reject. *)
Lemma route_after_dedup_frame E cfg now request result w :
  router_frame w (world_of (route_after_dedup E cfg now request result w)).
Proof.
  destruct (mongo_up w) eqn:Hm.
  - destruct (route_after_dedup_ok E cfg now request result w Hm) as (r & w' & H & F).
    rewrite H. exact F.
  - unfold route_after_dedup, findOrCreateByUserId. rewrite Hm. simpl.
    apply router_frame_refl.
Qed.

(** With the store failing, one channel attempt on its own: the budget
    check lets it through, and it ends as it would with budget left. *)
Lemma sendToChannel_store_down E cfg now channel payload prefs contactInfo result w :
  up (redis w) = false ->
  exists r w',
    sendToChannel E cfg now channel payload prefs contactInfo result w = Ok r w'
    /\ redis w' = redis w
    /\ (missing_contact channel contactInfo = true ->
        r = push_skip result channel (missing_reason channel) /\ w' = w)
    /\ (missing_contact channel contactInfo = false ->
        provider_calls w'
        = (provider_calls w ++ [ChannelSend channel (p_notificationId payload)])%list
        /\ exists d, r = push_result result d).
Proof.
  intros Hup. unfold sendToChannel.
  rewrite consumeLimit_store_down by exact Hup. simpl. rewrite with_redis_same.
  unfold deliver.
  destruct (attempt E now channel payload contactInfo) as [reason|o] eqn:Ha.
  - apply attempt_skip in Ha as [Hm ->].
    do 2 eexists. split; [reflexivity|]. split; [reflexivity|].
    split; [auto | intros Hp; congruence].
  - apply attempt_called in Ha.
    destruct o as [d|msg];
      (do 2 eexists; split; [reflexivity|]);
      match goal with
      | |- context [storeNotification ?a ?b ?c ?d ?e ?f ?g] =>
          destruct (storeNotification_frame a b c d e f g) as (Hr & Hp & _)
      end;
      (split; [exact Hr|]); (split; [intros Hm; congruence|]);
      intros _; (split; [exact Hp | eauto]).
Qed.

(** With the store failing, the attempts of a call leave the store as it
    is, and skip a channel for its missing contact only. *)
Lemma settleAll_store_down E cfg now channels payload prefs contactInfo result w :
  up (redis w) = false ->
  redis (snd (settleAll E cfg now channels payload prefs contactInfo result w)) = redis w
  /\ exists sk,
      skippedChannels (snd (fst (settleAll E cfg now channels payload prefs contactInfo
                                           result w)))
      = (skippedChannels result ++ sk)%list
      /\ Forall (fun e => missing_contact (fst e) contactInfo = true
                          /\ snd e = missing_reason (fst e)) sk.
Proof.
  intros Hup.
  apply (settleAll_keeps E cfg now payload prefs contactInfo
           (fun r w' =>
              redis w' = redis w
              /\ exists sk,
                  skippedChannels r = (skippedChannels result ++ sk)%list
                  /\ Forall (fun e => missing_contact (fst e) contactInfo = true
                                      /\ snd e = missing_reason (fst e)) sk)).
  - intros c p r w1 (Hred & sk & Hs & Hall).
    assert (Hup1 : up (redis w1) = false) by (rewrite Hred; exact Hup).
    destruct p as [|o|st pm err| |m].
    + unfold resume. rewrite consumeLimit_store_down by exact Hup1. simpl.
      rewrite with_redis_same.
      destruct (attempt E now c payload contactInfo) as [reason|o] eqn:Ha; simpl.
      * split; [exact Hred|]. exists (sk ++ [(c, reason)])%list.
        rewrite Hs, <- app_assoc. split; [reflexivity|].
        apply Forall_app. split; [exact Hall|]. constructor; [|constructor].
        simpl. apply attempt_skip in Ha. exact Ha.
      * split; [exact Hred|]. exists sk. split; assumption.
    + destruct o; simpl; (split; [exact Hred|]); exists sk; split; assumption.
    + simpl.
      match goal with
      | |- context [storeNotification ?a ?b ?c ?d ?e ?f ?g] =>
          destruct (storeNotification_frame a b c d e f g) as (Hr & _ & _)
      end.
      rewrite Hr. split; [exact Hred|]. exists sk. split; assumption.
    + simpl. split; [exact Hred|]. exists sk. split; assumption.
    + simpl. split; [exact Hred|]. exists sk. split; assumption.
  - split; [reflexivity|]. exists []. rewrite app_nil_r. split; [reflexivity | constructor].
Qed.

(** With the store failing, the channel loop hands every selected channel
    whose contact is there to its handler and skips the others for their
    missing contact. *)
Lemma sendAll_store_down E cfg now channels payload prefs contactInfo result w :
  up (redis w) = false ->
  exists r w' called rs sk,
    sendAll E cfg now channels payload prefs contactInfo result w = Ok r w'
    /\ redis w' = redis w
    /\ provider_calls w'
       = (provider_calls w
          ++ List.map (fun ch => ChannelSend ch (p_notificationId payload)) called)%list
    /\ called ≡ₚ List.filter (fun ch => negb (missing_contact ch contactInfo)) channels
    /\ results r = (results result ++ rs)%list
    /\ List.length rs = List.length called
    /\ skippedChannels r = (skippedChannels result ++ sk)%list
    /\ sk ≡ₚ List.map (fun ch => (ch, missing_reason ch))
                      (List.filter (fun ch => missing_contact ch contactInfo) channels).
Proof.
  intros Hup. rewrite sendAll_settleAll.
  destruct (settleAll_ledger E cfg now channels payload prefs contactInfo result w)
    as (called & rs & sk & Hc & Hr & Hs & Hperm & Hlen & Hpres).
  destruct (settleAll_store_down E cfg now channels payload prefs contactInfo result w Hup)
    as (Hred & sk' & Hs' & Hmiss).
  rewrite Hs in Hs'. apply app_inv_head in Hs'. subst sk'.
  assert (Hmiss1 : Forall (fun ch => missing_contact ch contactInfo = true)
                          (List.map fst sk)).
  { apply Forall_forall. intros ch Hin. apply list_elem_of_In, in_map_iff in Hin
      as (e & <- & Hin).
    rewrite Forall_forall in Hmiss. apply Hmiss, list_elem_of_In. exact Hin. }
  assert (Hsk : sk = List.map (fun ch => (ch, missing_reason ch)) (List.map fst sk)).
  { clear -Hmiss. induction Hmiss as [|[ch reason] l [_ Hx] _ IH]; [reflexivity|].
    simpl in *. subst reason. rewrite <- IH. reflexivity. }
  do 5 eexists. split; [reflexivity|]. split; [exact Hred|]. split; [exact Hc|].
  split; [|split; [exact Hr|split; [exact Hlen|split; [exact Hs|]]]].
  - rewrite <- (list_filter_Permutation _ _ _ Hperm), List.filter_app.
    rewrite (filter_all_true _ called), (filter_all_false _ (List.map fst sk)).
    + rewrite app_nil_r. reflexivity.
    + eapply Forall_impl; [exact Hmiss1|]. intros ch H. simpl in H. rewrite H. reflexivity.
    + eapply Forall_impl; [exact Hpres|]. intros ch H. simpl in H. rewrite H. reflexivity.
  - rewrite Hsk at 1. apply Permutation_map.
    rewrite <- (list_filter_Permutation _ _ _ Hperm), List.filter_app.
    rewrite (filter_all_false _ called), (filter_all_true _ (List.map fst sk)).
    + reflexivity.
    + exact Hmiss1.
    + exact Hpres.
Qed.

(** C6.  When the Redis store fails, the dedup check answers "not
    duplicate" and the budget check answers "allowed", both leaving the
    store as it is; and [route] (the preferences store answering) completes
    with a result.  Unless the user has opted out or the quiet hours hold
    the notification back, that result comes from attempting every selected
    channel: each selected channel whose contact is there is handed to its
    handler, once, and has an outcome in the result, and each of the others
    is skipped for its missing contact; no channel is skipped as a
    duplicate or for the rate limit.  A single channel attempt likewise
    goes to its handler, or to the skip for a missing contact. *)
Theorem store_failures_fail_open E cfg now request w :
  up (redis w) = false ->
  mongo_up w = true ->
  let prefs := default (UserPreferences.schemaDefault (q_userId request))
                       (preferences w !! q_userId request) in
  let eventConfig := EVENT_TYPE_CONFIGS (q_eventType request) in
  let prio := default (priority eventConfig) (q_priority request) in
  let channels :=
    selectChannels prefs (q_eventType request) (defaultChannels eventConfig) prio in
  let contactInfo := loadUserContactInfo E (q_userId request) prefs in
  DeduplicationService.checkAndMark cfg now (q_userId request) (q_eventType request)
    (q_eventSourceId request) (uuidv4 E (uuid_next w))
    (Some (dedupWindowMs eventConfig)) (redis w)
  = (DeduplicationService.not_duplicate, redis w)
  /\ (forall channel userId userLimits,
        exists rl,
          RateLimiter.consumeLimit cfg now userId channel userLimits (redis w)
          = Some (rl, redis w)
          /\ RateLimiter.allowed rl = true)
  /\ (exists r w',
        route E cfg now request w = Ok r w'
        /\ redis w' = redis w
        /\ (UserPreferences.dnc_enabled (UserPreferences.doNotContact prefs) = false ->
            UserPreferences.isInQuietHours E prefs now
            && negb (bypassQuietHours eventConfig
                     || UserPreferences.shouldBypassQuietHours prefs (q_eventType request)
                     || bool_decide (prio = critical)) = false ->
            exists called,
              provider_calls w'
              = (provider_calls w
                 ++ List.map (fun ch => ChannelSend ch (uuidv4 E (uuid_next w))) called)%list
              /\ called
                 ≡ₚ List.filter (fun ch => negb (missing_contact ch contactInfo)) channels
              /\ List.length (results r) = List.length called
              /\ skippedChannels r
                 ≡ₚ List.map (fun ch => (ch, missing_reason ch))
                             (List.filter (fun ch => missing_contact ch contactInfo)
                                          channels)
              /\ queued r = false /\ digestQueued r = false))
  /\ (forall channel payload preferences contact result w1,
        up (redis w1) = false ->
        exists r1 w1',
          sendToChannel E cfg now channel payload preferences contact result w1
          = Ok r1 w1'
          /\ redis w1' = redis w1
          /\ (missing_contact channel contact = true ->
              r1 = push_skip result channel (missing_reason channel) /\ w1' = w1)
          /\ (missing_contact channel contact = false ->
              provider_calls w1'
              = (provider_calls w1
                 ++ [ChannelSend channel (p_notificationId payload)])%list
              /\ exists d, r1 = push_result result d)).
Proof.
  intros Hup Hm prefs eventConfig prio channels contactInfo.
  split; [apply checkAndMark_store_down; exact Hup|].
  split.
  { intros channel userId userLimits. eexists.
    split; [apply consumeLimit_store_down; exact Hup | reflexivity]. }
  split; [|intros; apply sendToChannel_store_down; assumption].
  assert (Hroute : route E cfg now request w
                   = route_after_dedup E cfg now request (emptyResult E request w)
                                       (draw_uuid w)).
  { unfold route. simpl redis.
    rewrite checkAndMark_store_down by exact Hup. reflexivity. }
  rewrite Hroute.
  assert (Hgo : forall w0,
             redis w0 = redis w -> provider_calls w0 = provider_calls w ->
             exists r w',
               route_with_preferences E cfg now request (emptyResult E request w) prefs w0
               = Ok r w'
               /\ redis w' = redis w
               /\ (UserPreferences.dnc_enabled (UserPreferences.doNotContact prefs) = false ->
                   UserPreferences.isInQuietHours E prefs now
                   && negb (bypassQuietHours eventConfig
                            || UserPreferences.shouldBypassQuietHours prefs
                                 (q_eventType request)
                            || bool_decide (prio = critical)) = false ->
                   exists called,
                     provider_calls w'
                     = (provider_calls w
                        ++ List.map (fun ch => ChannelSend ch (uuidv4 E (uuid_next w)))
                                    called)%list
                     /\ called
                        ≡ₚ List.filter (fun ch => negb (missing_contact ch contactInfo))
                                       channels
                     /\ List.length (results r) = List.length called
                     /\ skippedChannels r
                        ≡ₚ List.map (fun ch => (ch, missing_reason ch))
                                    (List.filter
                                       (fun ch => missing_contact ch contactInfo)
                                       channels)
                     /\ queued r = false /\ digestQueued r = false)).
  { intros w0 Hred Hcalls. unfold route_with_preferences.
    fold eventConfig. fold prio. fold channels.
    destruct (UserPreferences.dnc_enabled (UserPreferences.doNotContact prefs)).
    { do 2 eexists. split; [reflexivity|]. split; [exact Hred|].
      intros Hx; discriminate Hx. }
    destruct (UserPreferences.isInQuietHours E prefs now && negb _).
    { destruct (_ && _); do 2 eexists; (split; [reflexivity|]); (split; [exact Hred|]);
        intros _ Hx; discriminate Hx. }
    fold contactInfo.
    match goal with
    | |- context [sendAll ?a ?b ?c ?d ?e ?f ?g ?h ?i] =>
        destruct (sendAll_store_down a b c d e f g h i)
          as (r & w' & called & rs & sk & Hs & Hr' & Hc & Hp & Hres & Hlen & Hsk & Hskp);
          [rewrite Hred; exact Hup|]
    end.
    exists r, w'. split; [exact Hs|]. split; [congruence|].
    intros _ _. exists called. simpl in Hc, Hres, Hsk.
    split; [rewrite Hc, Hcalls; reflexivity|]. split; [exact Hp|].
    split; [rewrite Hres; exact Hlen|]. split; [rewrite Hsk; exact Hskp|].
    rewrite sendAll_settleAll in Hs. injection Hs as <- _.
    pose proof (settleAll_keeps E cfg now
                  (mkPayload (uuidv4 E (uuid_next w)) (q_userId request)
                     (q_eventType request) (q_eventSourceId request) (q_title request)
                     (q_message request) (q_data request) prio channels
                     (q_correlationId request) now)
                  prefs contactInfo
                  (fun r _ => queued r = false /\ digestQueued r = false)
                  channels (emptyResult E request w) w0) as Hflags.
    apply Hflags; [|split; reflexivity].
    intros c p r1 w1 Hq.
    destruct p as [|o|st pm err| |m]; try exact Hq.
    - match goal with
      | |- context [resume ?a ?b ?c ?d ?e ?f ?g AwaitLimit ?h ?i] =>
          destruct (resume_limit a b c d e f g h i)
            as (rl & s' & _ & [(_ & Heq)|[(reason & _ & _ & Heq)|(o & _ & _ & Heq)]])
      end; rewrite Heq; exact Hq.
    - destruct o; exact Hq. }
  unfold route_after_dedup, findOrCreateByUserId. simpl mongo_up. rewrite Hm.
  simpl preferences. unfold prefs in Hgo.
  destruct (preferences w !! q_userId request) as [p|]; simpl.
  - apply Hgo; reflexivity.
  - apply Hgo; reflexivity.
Qed.

(** Witness for [store_failures_fail_open]: a failed transfer routed with
    the Redis server unreachable reaches the websocket gateway, and the
    mail is skipped for the missing address. *)
Lemma store_failures_fail_open_witness :
  exists r w',
    route Scenario.env Config.default 1000 Scenario.request_transfer_failed
          Scenario.world_redis_down = Ok r w'
    /\ provider_calls w' = [ChannelSend websocket (Scenario.uuid 0)]
    /\ List.length (results r) = 1%nat.
Proof.
  destruct (store_failures_fail_open Scenario.env Config.default 1000
              Scenario.request_transfer_failed Scenario.world_redis_down
              eq_refl eq_refl)
    as (_ & _ & (r & w' & Hr & _ & Hgo) & _).
  destruct (Hgo eq_refl eq_refl) as (called & Hc & Hp & Hlen & _).
  vm_compute in Hp. symmetry in Hp. apply Permutation_length_1_inv in Hp. subst called.
  exists r, w'. split; [exact Hr|]. split; [exact Hc | exact Hlen].
Defined.

End RouterStoreFailures.

Section RouterDedup.
Import Redis NotificationRouter Vocabulary.

Lemma string_length_app (a b : string) :
  String.length (a +:+ b) = (String.length a + String.length b)%nat.
Proof. induction a as [|c a IH]; simpl; [reflexivity | rewrite IH; reflexivity]. Qed.

(** A request whose key is present is answered with the fixed duplicate
    skip; nothing but the uuid counter moves. *)
Lemma route_duplicate E cfg now request w d e :
  up (redis w) = true ->
  visible now (dedup (redis w)) (dedupKey request) = Some (d, e) ->
  route E cfg now request w
  = Ok (push_skip (emptyResult E request w) websocket "Duplicate notification")
       (draw_uuid w).
Proof.
  intros Hup Hv. unfold route. simpl redis.
  unfold dedupKey in Hv.
  rewrite (checkAndMark_present _ _ _ _ _ _ _ _ d e Hup Hv). reflexivity.
Qed.

(** The first call with a key leaves its own id under the key, until the
    end of the window at least. *)
Lemma route_registers E cfg now request w :
  up (redis w) = true ->
  visible now (dedup (redis w)) (dedupKey request) = None ->
  0 < dedupWindowMs (EVENT_TYPE_CONFIGS (q_eventType request)) ->
  dedup (redis (world_of (route E cfg now request w))) !! dedupKey request
  = Some (mkDedupData (uuidv4 E (uuid_next w)) now,
          Some (now + DeduplicationService.ttlSeconds cfg
                        (Some (dedupWindowMs (EVENT_TYPE_CONFIGS (q_eventType request))))
                      * 1000)).
Proof.
  intros Hup Hv Hw. unfold route. simpl redis.
  unfold dedupKey in *.
  rewrite checkAndMark_fresh
    by (try assumption; apply ttlSeconds_pos; assumption).
  simpl DeduplicationService.isDuplicate. cbv iota.
  match goal with
  | |- context [route_after_dedup ?a ?b ?c ?d ?e ?f] =>
      destruct (route_after_dedup_frame a b c d e f) as (_ & Hd & _)
  end.
  rewrite Hd. simpl. apply lookup_insert_eq.
Qed.

(** C3, as amended.  Two [route] calls for the same user, kind and source
    id, the first one not a duplicate itself, the second one inside the
    dedup window of the kind and finding the entry of the first: the dedup
    check of the second call reports the id of the first, and the second
    call returns a result with no channel outcome and the single skip entry
    [(websocket, "Duplicate notification")], which does not carry that id;
    it calls no provider and persists no record. *)
Theorem route_duplicate_within_window E cfg request1 request2 now1 now2 w1 w2 :
  q_userId request1 = q_userId request2 ->
  q_eventType request1 = q_eventType request2 ->
  q_eventSourceId request1 = q_eventSourceId request2 ->
  up (redis w1) = true ->
  up (redis w2) = true ->
  visible now1 (dedup (redis w1)) (dedupKey request1) = None ->
  now1 <= now2 < now1 + dedupWindowMs (EVENT_TYPE_CONFIGS (q_eventType request1)) ->
  dedup (redis w2) !! dedupKey request1
  = dedup (redis (world_of (route E cfg now1 request1 w1))) !! dedupKey request1 ->
  fst (DeduplicationService.checkAndMark cfg now2 (q_userId request2)
         (q_eventType request2) (q_eventSourceId request2) (uuidv4 E (uuid_next w2))
         (Some (dedupWindowMs (EVENT_TYPE_CONFIGS (q_eventType request2)))) (redis w2))
  = DeduplicationService.mkDedupResult true (Some (uuidv4 E (uuid_next w1))) (Some now1)
  /\ exists r2 w2',
      route E cfg now2 request2 w2 = Ok r2 w2'
      /\ results r2 = []
      /\ skippedChannels r2 = [(websocket, "Duplicate notification")]
      /\ queued r2 = false /\ digestQueued r2 = false
      /\ provider_calls w2' = provider_calls w2
      /\ notification_events w2' = notification_events w2
      /\ redis w2' = redis w2.
Proof.
  intros Hu He Hs Hup1 Hup2 Hfresh Hwin Hsame.
  assert (Hkey : dedupKey request2 = dedupKey request1)
    by (unfold dedupKey; rewrite Hu, He, Hs; reflexivity).
  rewrite (route_registers E cfg now1 request1 w1 Hup1 Hfresh ltac:(lia)) in Hsame.
  assert (Hv : visible now2 (dedup (redis w2)) (dedupKey request2)
               = Some (mkDedupData (uuidv4 E (uuid_next w1)) now1,
                       Some (now1 + DeduplicationService.ttlSeconds cfg
                               (Some (dedupWindowMs (EVENT_TYPE_CONFIGS (q_eventType request1))))
                             * 1000))).
  { rewrite Hkey. apply visible_Some. split; [exact Hsame|].
    simpl. apply Z.ltb_lt.
    pose proof (ttlSeconds_covers cfg
                  (dedupWindowMs (EVENT_TYPE_CONFIGS (q_eventType request1)))).
    lia. }
  split.
  - unfold dedupKey in Hv.
    rewrite (checkAndMark_present _ _ _ _ _ _ _ _ _ _ Hup2 Hv). reflexivity.
  - rewrite (route_duplicate E cfg now2 request2 w2 _ _ Hup2 Hv).
    do 2 eexists. split; [reflexivity|]. simpl. tauto.
Qed.

(** Witness for [route_duplicate_within_window]: the same request routed
    at 1 s and again at 2 s. *)
Lemma route_duplicate_within_window_witness :
  exists r2 w2',
    route Scenario.env Config.default 2000 Scenario.request_login_failed
          (world_of (route Scenario.env Config.default 1000
                           Scenario.request_login_failed Scenario.world_empty))
    = Ok r2 w2'
    /\ skippedChannels r2 = [(websocket, "Duplicate notification")].
Proof.
  destruct (route_duplicate_within_window Scenario.env Config.default
              Scenario.request_login_failed Scenario.request_login_failed
              1000 2000 Scenario.world_empty
              (world_of (route Scenario.env Config.default 1000
                               Scenario.request_login_failed Scenario.world_empty)))
    as (_ & r2 & w2' & Hr & _ & Hs & _);
    [reflexivity | reflexivity | reflexivity | reflexivity
    | vm_compute; reflexivity | vm_compute; reflexivity
    | vm_compute; split; [discriminate | reflexivity] | reflexivity |].
  exists r2, w2'. split; [exact Hr | exact Hs].
Defined.

(** C3 as stated fails: the skip entry of the second call does not name the
    id of the first. *)
Lemma duplicate_skip_does_not_name_original :
  ~ (forall E cfg request now1 now2 w1 r2 w2',
        up (redis w1) = true ->
        visible now1 (dedup (redis w1)) (dedupKey request) = None ->
        now1 <= now2 < now1 + dedupWindowMs (EVENT_TYPE_CONFIGS (q_eventType request)) ->
        route E cfg now2 request (world_of (route E cfg now1 request w1)) = Ok r2 w2' ->
        exists channel reason,
          skippedChannels r2 = [(channel, reason)]
          /\ names reason (uuidv4 E (uuid_next w1))).
Proof.
  intros H.
  destruct (route Scenario.env Config.default 2000 Scenario.request_login_failed
              (world_of (route Scenario.env Config.default 1000
                               Scenario.request_login_failed Scenario.world_empty)))
    as [r2 w2'|msg w2'] eqn:Hr; [|vm_compute in Hr; discriminate Hr].
  destruct (H Scenario.env Config.default Scenario.request_login_failed
              1000 2000 Scenario.world_empty r2 w2')
    as (channel & reason & Hs & before & after & Hn);
    [reflexivity | vm_compute; reflexivity
    | vm_compute; split; [discriminate | reflexivity] | exact Hr |].
  vm_compute in Hr. injection Hr as Hr2 _. subst r2. simpl in Hs.
  injection Hs as _ Hreason. subst reason.
  apply (f_equal String.length) in Hn.
  rewrite !string_length_app in Hn. simpl in Hn. lia.
Qed.

End RouterDedup.

Section RouterContact.
Import Redis NotificationRouter Vocabulary.

(** C2, as amended.  For a channel among sms, email and push whose contact
    precondition is missing, with the rate store answering: when the
    budget allows, the channel is recorded as skipped with the reason of
    the channel, no provider is called and no record is written, and the
    hourly and daily counters of the channel are each one higher (the
    budget is consumed before the contact is looked at); when the budget
    refuses, the channel is recorded as skipped for the rate limit, no
    provider is called and the store is unchanged. *)
Theorem sendToChannel_missing_contact
    E cfg now channel payload preferences contactInfo result w k :
  up (redis w) = true ->
  RateLimiter.getChannelKeys (p_userId payload) channel
    (RateLimiter.merge (RateLimiter.defaultLimits cfg) (limitsOf preferences)) = Some k ->
  missing_contact channel contactInfo = true ->
  (default 0 (get_count (redis w) now (RateLimiter.hourKey k)) < RateLimiter.hourLimit k ->
   default 0 (get_count (redis w) now (RateLimiter.dayKey k)) < RateLimiter.dayLimit k ->
   exists w',
     sendToChannel E cfg now channel payload preferences contactInfo result w
     = Ok (push_skip result channel (missing_reason channel)) w'
     /\ get_count (redis w') now (RateLimiter.hourKey k)
        = Some (default 0 (get_count (redis w) now (RateLimiter.hourKey k)) + 1)
     /\ get_count (redis w') now (RateLimiter.dayKey k)
        = Some (default 0 (get_count (redis w) now (RateLimiter.dayKey k)) + 1)
     /\ provider_calls w' = provider_calls w
     /\ notification_events w' = notification_events w)
  /\ (RateLimiter.hourLimit k <= default 0 (get_count (redis w) now (RateLimiter.hourKey k))
      \/ RateLimiter.dayLimit k <= default 0 (get_count (redis w) now (RateLimiter.dayKey k)) ->
      exists resetAt w',
        sendToChannel E cfg now channel payload preferences contactInfo result w
        = Ok (push_skip result channel
                ("Rate limit exceeded. Resets at " +:+ toISOString E resetAt)) w'
        /\ redis w' = redis w
        /\ provider_calls w' = provider_calls w).
Proof.
  intros Hup Hk Hmiss.
  pose proof (keys_distinct _ _ _ _ Hk) as Hne.
  unfold sendToChannel.
  rewrite (consumeLimit_unfold _ _ _ _ _ _ _ Hk Hup).
  split.
  - intros Hh Hd.
    destruct (consumeScript_allowed now k REDIS_TTL_RATE_LIMIT_HOUR
                REDIS_TTL_RATE_LIMIT_DAY (redis w) Hne)
      as (rem & ttl & s' & Hs & Hc & _);
      [reflexivity | reflexivity | exact Hh | exact Hd |].
    rewrite Hs. cbv zeta iota beta. simpl RateLimiter.allowed. simpl negb. cbv iota.
    unfold deliver. rewrite (attempt_missing _ _ _ _ _ Hmiss).
    eexists. split; [reflexivity|]. simpl redis. unfold get_count. rewrite Hc.
    split; [|split; [|split; reflexivity]].
    + rewrite visible_insert_ne by done.
      rewrite visible_insert_eq, live_after by reflexivity. reflexivity.
    + rewrite visible_insert_eq, live_after by reflexivity. reflexivity.
  - intros Hcap.
    assert (Hs : exists a b c, RateLimiter.consumeScript now k REDIS_TTL_RATE_LIMIT_HOUR
                                 REDIS_TTL_RATE_LIMIT_DAY (redis w)
                               = ((0, a, b, c), redis w)).
    { destruct (Z_lt_le_dec (default 0 (get_count (redis w) now (RateLimiter.hourKey k)))
                            (RateLimiter.hourLimit k)) as [Hh|Hh].
      - destruct Hcap as [Hcap|Hcap]; [lia|].
        rewrite consumeScript_day_refused by assumption. eauto.
      - rewrite consumeScript_hour_refused by assumption. eauto. }
    destruct Hs as (a & b & c & Hs). rewrite Hs.
    cbv zeta iota beta. simpl RateLimiter.allowed. simpl negb. cbv iota.
    do 2 eexists. split; [reflexivity|].
    rewrite with_redis_same.
    match goal with
    | |- context [storeNotification ?a ?b ?c ?d ?e ?f ?g] =>
        destruct (storeNotification_frame a b c d e f g) as (Hr & Hp & _)
    end.
    split; assumption.
Qed.

(** Witness for [sendToChannel_missing_contact]: an SMS attempt for a user
    without phone number, on an empty budget. *)
Lemma sendToChannel_missing_contact_witness :
  exists w',
    sendToChannel Scenario.env Config.default 1000 sms Scenario.payload_login_failed
      (UserPreferences.schemaDefault "u1") Scenario.contact_none
      (emptyResult Scenario.env Scenario.request_login_failed Scenario.world_empty)
      Scenario.world_empty
    = Ok (push_skip (emptyResult Scenario.env Scenario.request_login_failed
                                 Scenario.world_empty)
                    sms "Phone number not verified") w'
    /\ get_count (redis w') 1000 (RATE_LIMIT_SMS_HOUR "u1") = Some 1
    /\ get_count (redis w') 1000 (RATE_LIMIT_SMS_DAY "u1") = Some 1.
Proof.
  destruct (sendToChannel_missing_contact Scenario.env Config.default 1000 sms
              Scenario.payload_login_failed (UserPreferences.schemaDefault "u1")
              Scenario.contact_none
              (emptyResult Scenario.env Scenario.request_login_failed Scenario.world_empty)
              Scenario.world_empty
              (RateLimiter.mkKeys (RATE_LIMIT_SMS_HOUR "u1") (RATE_LIMIT_SMS_DAY "u1") 10 50))
    as [Hallowed _]; [reflexivity | reflexivity | reflexivity |].
  destruct Hallowed as (w' & Hs & Hh & Hd & _);
    [vm_compute; reflexivity | vm_compute; reflexivity |].
  exists w'. split; [exact Hs|]. split; [exact Hh | exact Hd].
Defined.

(** C2 as stated fails: a channel skipped for a missing contact has
    consumed budget. *)
Lemma skipped_contact_consumes_budget :
  ~ (forall E cfg now channel payload preferences contactInfo result w k r' w',
        up (redis w) = true ->
        RateLimiter.getChannelKeys (p_userId payload) channel
          (RateLimiter.merge (RateLimiter.defaultLimits cfg) (limitsOf preferences))
        = Some k ->
        missing_contact channel contactInfo = true ->
        sendToChannel E cfg now channel payload preferences contactInfo result w
        = Ok r' w' ->
        In (channel, missing_reason channel) (skippedChannels r')
        /\ get_count (redis w') now (RateLimiter.hourKey k)
           = get_count (redis w) now (RateLimiter.hourKey k)
        /\ get_count (redis w') now (RateLimiter.dayKey k)
           = get_count (redis w) now (RateLimiter.dayKey k)).
Proof.
  intros H.
  destruct (sendToChannel Scenario.env Config.default 1000 sms
              Scenario.payload_login_failed (UserPreferences.schemaDefault "u1")
              Scenario.contact_none
              (emptyResult Scenario.env Scenario.request_login_failed Scenario.world_empty)
              Scenario.world_empty) as [r' w'|msg w'] eqn:Hs;
    [|vm_compute in Hs; discriminate Hs].
  destruct (H Scenario.env Config.default 1000 sms
              Scenario.payload_login_failed (UserPreferences.schemaDefault "u1")
              Scenario.contact_none
              (emptyResult Scenario.env Scenario.request_login_failed Scenario.world_empty)
              Scenario.world_empty
              (RateLimiter.mkKeys (RATE_LIMIT_SMS_HOUR "u1") (RATE_LIMIT_SMS_DAY "u1") 10 50)
              r' w') as (_ & Hh & _);
    [reflexivity | reflexivity | reflexivity | exact Hs |].
  vm_compute in Hs. injection Hs as _ Hw. subst w'.
  vm_compute in Hh. discriminate Hh.
Qed.

(** The same through [route]: a [login_failed] for a user who has neither
    phone number nor mail address skips both channels and leaves both
    hourly counters at 1. *)
Lemma route_skipped_contact_consumes_budget :
  exists r w',
    route Scenario.env Config.default 1000 Scenario.request_login_failed
          Scenario.world_empty = Ok r w'
    /\ results r = []
    /\ skippedChannels r
       = [(sms, "Phone number not verified"); (email, "Email not verified")]
    /\ provider_calls w' = []
    /\ get_count (redis w') 1000 (RATE_LIMIT_SMS_HOUR "u1") = Some 1
    /\ get_count (redis w') 1000 (RATE_LIMIT_EMAIL_HOUR "u1") = Some 1.
Proof.
  do 2 eexists. split; [vm_compute; reflexivity|].
  repeat split; vm_compute; reflexivity.
Qed.

End RouterContact.

Section RouterQuietHours.
Import Redis NotificationRouter Vocabulary.

(** Inside the quiet hours, with no bypass of any kind, [route] returns
    before the channel loop with one of the two flags set, and leaves the
    world as it is. *)
Lemma route_with_preferences_quiet_hours E cfg now request result preferences w :
  UserPreferences.dnc_enabled (UserPreferences.doNotContact preferences) = false ->
  default (priority (EVENT_TYPE_CONFIGS (q_eventType request))) (q_priority request)
  <> critical ->
  UserPreferences.isInQuietHours E preferences now = true ->
  bypassQuietHours (EVENT_TYPE_CONFIGS (q_eventType request)) = false ->
  UserPreferences.shouldBypassQuietHours preferences (q_eventType request) = false ->
  route_with_preferences E cfg now request result preferences w
  = Ok (if allowDigest (EVENT_TYPE_CONFIGS (q_eventType request))
           && UserPreferences.digestEnabled
                (UserPreferences.ch_email (UserPreferences.channels preferences))
        then set_digestQueued result else set_queued result) w.
Proof.
  intros Hdnc Hprio Hin Hkind Huser. unfold route_with_preferences.
  rewrite Hdnc, Hin, Hkind, Huser.
  rewrite bool_decide_eq_false_2 by exact Hprio. simpl.
  destruct (_ && _); reflexivity.
Qed.

(** The per-kind override is not the only user-side bypass: the
    critical-alerts flag of the quiet hours, true by default, bypasses the
    quiet hours for every kind. *)
Lemma shouldBypassQuietHours_default_flag preferences eventType :
  UserPreferences.criticalAlertsBypass (UserPreferences.quietHours preferences) = true ->
  UserPreferences.shouldBypassQuietHours preferences eventType = true.
Proof.
  intros H. unfold UserPreferences.shouldBypassQuietHours. rewrite H.
  destruct (UserPreferences.notificationTypes preferences eventType) as [tp|];
    [destruct (UserPreferences.quietHoursOverride tp)|]; reflexivity.
Qed.

(** C1, at the failing input.  A [login_attempt] (digest-eligible, medium
    priority, no bypass flag) routed at 23:30 for a user with quiet hours
    22:00 to 07:00, no override, the critical-alerts flag off and the daily
    digest on: [route] returns with [digestQueued] set and no channel
    attempt, and the digest queue of the user is still empty. *)
Theorem route_quiet_hours_digest_queue_untouched :
  exists r w',
    route Scenario.env Config.default Scenario.night Scenario.request_login_attempt
          Scenario.world_quiet = Ok r w'
    /\ digestQueued r = true /\ queued r = false
    /\ results r = [] /\ skippedChannels r = []
    /\ provider_calls w' = [] /\ notification_events w' = []
    /\ digests (redis w') = ∅
    /\ DigestService.getPendingCount Scenario.night "u1" daily w' = 0.
Proof.
  do 2 eexists. split; [vm_compute; reflexivity|].
  repeat split; vm_compute; reflexivity.
Qed.

(** With the schema default of the critical-alerts flag the same request
    at the same instant is not held back at all: the mail is sent. *)
Lemma route_quiet_hours_default_flag_sends :
  exists r w',
    route Scenario.env Config.default Scenario.night Scenario.request_login_attempt
          Scenario.world_quiet_default = Ok r w'
    /\ digestQueued r = false /\ queued r = false
    /\ List.map r_channel (results r) = [email]
    /\ provider_calls w' = [ChannelSend email (Scenario.uuid 0)].
Proof.
  do 2 eexists. split; [vm_compute; reflexivity|].
  repeat split; vm_compute; reflexivity.
Qed.

(** C8, at the failing input.  The quiet-hours decision never reads the
    timezone of the user: at 13:30 on the clock of the process (UTC here)
    a user in Tokyo and a user in New York, both with quiet hours 22:00 to
    07:00, get the same answer, "not in quiet hours", although it is 22:30
    in Tokyo. *)
Theorem isInQuietHours_ignores_timezone :
  (forall E p tz now,
      UserPreferences.isInQuietHours E (UserPreferences.with_timezone p tz) now
      = UserPreferences.isInQuietHours E p now)
  /\ UserPreferences.toTimeStringHHMM Scenario.env Scenario.afternoon = "13:30"
  /\ UserPreferences.isInQuietHours Scenario.env
       (Scenario.prefs_quiet "u1" "Asia/Tokyo" true) Scenario.afternoon = false
  /\ UserPreferences.isInQuietHours Scenario.env
       (Scenario.prefs_quiet "u2" "America/New_York" true) Scenario.afternoon = false.
Proof.
  split; [intros; reflexivity|].
  repeat split; vm_compute; reflexivity.
Qed.

End RouterQuietHours.

(** ** The SMS handler *)

Section SmsFacts.
Import SMSHandler.
Local Open Scope nat_scope.

Lemma string_app_assoc (a b c : string) : (a +:+ b) +:+ c = a +:+ (b +:+ c).
Proof.
  induction a as [|x a IH]; [reflexivity|].
  change (String x ((a +:+ b) +:+ c) = String x (a +:+ (b +:+ c))).
  rewrite IH. reflexivity.
Qed.

Lemma substring_0_length n s :
  String.length (substring 0 n s) = Nat.min n (String.length s).
Proof.
  revert s. induction n as [|n IH]; intros [|c s]; simpl; try reflexivity.
  rewrite IH. reflexivity.
Qed.

(** Cutting after a prefix that fits keeps the prefix whole. *)
Lemma substring_0_app n a b :
  String.length a <= n ->
  substring 0 n (a +:+ b) = a +:+ substring 0 (n - String.length a) b.
Proof.
  revert n. induction a as [|c a IH]; intros n Hn.
  - change (substring 0 n b = substring 0 (n - 0) b).
    rewrite Nat.sub_0_r. reflexivity.
  - destruct n as [|n]; [simpl in Hn; lia|].
    change (String c (substring 0 n (a +:+ b))
            = String c (a +:+ substring 0 (n - String.length a) b)).
    rewrite IH by (simpl in Hn; lia). reflexivity.
Qed.

Lemma unsubscribe_length : String.length unsubscribe = 27.
Proof. reflexivity. Qed.

(** C9.  The composed SMS text never exceeds 160 characters.  When title,
    separator and message together exceed the 133 characters left by the
    unsubscribe line, the text is their first 130 characters, three dots
    and the unsubscribe line, 160 characters in all, and with a title that
    fits it is the message that is cut; otherwise nothing is cut and the
    unsubscribe line is appended. *)
Theorem formatMessage_fits (n : NotificationPayload) :
  let combined := p_title n +:+ ": " +:+ p_message n in
  String.length (formatMessage n) <= 160
  /\ (133 < String.length combined ->
      formatMessage n = (substring 0 130 combined +:+ "...") +:+ unsubscribe
      /\ String.length (formatMessage n) = 160)
  /\ (133 < String.length combined ->
      String.length (p_title n) + 2 <= 130 ->
      formatMessage n
      = p_title n +:+ ": "
        +:+ substring 0 (128 - String.length (p_title n)) (p_message n)
        +:+ "..." +:+ unsubscribe)
  /\ (String.length combined <= 133 ->
      formatMessage n = combined +:+ unsubscribe).
Proof.
  intros combined.
  assert (Hcut : 133 < String.length combined ->
                 formatMessage n = (substring 0 130 combined +:+ "...") +:+ unsubscribe).
  { intros H. unfold formatMessage. fold combined. rewrite unsubscribe_length.
    change (160 - 27) with 133. change (133 - 3) with 130.
    destruct (Nat.ltb_spec 133 (String.length combined)); [reflexivity | lia]. }
  assert (Hkeep : String.length combined <= 133 ->
                  formatMessage n = combined +:+ unsubscribe).
  { intros H. unfold formatMessage. fold combined. rewrite unsubscribe_length.
    change (160 - 27) with 133.
    destruct (Nat.ltb_spec 133 (String.length combined)); [lia | reflexivity]. }
  assert (Hlen : 133 < String.length combined ->
                 String.length (formatMessage n) = 160).
  { intros H. rewrite (Hcut H), !string_length_app, substring_0_length,
      unsubscribe_length. change (String.length "...") with 3. lia. }
  split; [|split; [|split]].
  - destruct (Nat.le_gt_cases (String.length combined) 133) as [H|H].
    + rewrite (Hkeep H), string_length_app, unsubscribe_length. lia.
    + rewrite (Hlen H). lia.
  - intros H. split; [exact (Hcut H) | exact (Hlen H)].
  - intros H Ht. rewrite (Hcut H). unfold combined.
    rewrite <- (string_app_assoc (p_title n) ": " (p_message n)).
    rewrite substring_0_app by (rewrite string_length_app; simpl; lia).
    rewrite string_length_app. simpl String.length.
    replace (130 - (String.length (p_title n) + 2))
      with (128 - String.length (p_title n)) by lia.
    rewrite !string_app_assoc. reflexivity.
  - exact Hkeep.
Qed.

(** Witness for [formatMessage_fits]: a text that is cut and one that is
    not. *)
Lemma formatMessage_fits_witness :
  String.length (formatMessage Scenario.payload_long) = 160
  /\ formatMessage Scenario.payload_short
     = ("Transfer complete: Your transfer was successful") +:+ unsubscribe.
Proof.
  split.
  - apply (formatMessage_fits Scenario.payload_long). vm_compute. lia.
  - apply (formatMessage_fits Scenario.payload_short). vm_compute. lia.
Defined.

End SmsFacts.

(** ** The digest service *)

Section DigestFacts.
Import Redis DigestService.

Lemma with_status_id row st :
  NotificationEvent.notificationId (NotificationEvent.with_status row st)
  = NotificationEvent.notificationId row.
Proof. reflexivity. Qed.

Lemma with_status_twice row st :
  NotificationEvent.with_status (NotificationEvent.with_status row st) st
  = NotificationEvent.with_status row st.
Proof. reflexivity. Qed.

(** The marking loop sets [delivered] on exactly the records whose id is
    the id of a queued entry. *)
Lemma markDelivered_spec entries tbl :
  markDelivered entries tbl
  = List.map (fun row =>
                if bool_decide (NotificationEvent.notificationId row
                                ∈ List.map g_notificationId entries)
                then NotificationEvent.with_status row delivered else row) tbl.
Proof.
  unfold markDelivered. revert tbl.
  induction entries as [|n entries IH]; intros tbl; simpl.
  - rewrite <- (List.map_id tbl) at 1. apply List.map_ext. intros row.
    reflexivity.
  - rewrite IH. unfold NotificationEvent.update_status.
    rewrite List.map_map. apply List.map_ext. intros row.
    destruct (bool_decide_reflect
                (NotificationEvent.notificationId row = g_notificationId n)) as [He|Hne].
    + rewrite with_status_id.
      rewrite (bool_decide_eq_true_2
                 (NotificationEvent.notificationId row
                  ∈ g_notificationId n :: List.map g_notificationId entries))
        by (rewrite He; left).
      destruct (bool_decide _); [apply with_status_twice | reflexivity].
    + destruct (bool_decide_reflect
                  (NotificationEvent.notificationId row
                   ∈ List.map g_notificationId entries)) as [Hi|Hni].
      * rewrite bool_decide_eq_true_2 by (right; exact Hi). reflexivity.
      * rewrite bool_decide_eq_false_2; [reflexivity|].
        intros H. apply elem_of_cons in H as [H|H]; contradiction.
Qed.

(** C7.  Whatever its outcome, a digest send for a user and a frequency
    changes the store or the delivery records only when the mail send
    returned [sent].  When the send is reached (stores answering, queue not
    empty, address present): on [sent] the queue of the user is deleted and
    the records referenced by its entries are marked [delivered]; on any
    other status the store, the queue and the records are left as they
    were. *)
Theorem digest_cleared_only_on_sent E now userId frequency w :
  let key := getDigestKey userId frequency in
  let entries := lrange now (redis w) key in
  let status addr :=
    r_status (sendDigest E addr (List.map (payloadOf userId) entries) frequency now) in
  let w' := world_of (sendDigestForUser E now userId frequency w) in
  (redis w' <> redis w \/ notification_events w' <> notification_events w ->
   exists prefs addr,
     preferences w !! userId = Some prefs
     /\ NotificationRouter.truthy (UserPreferences.getDecryptedEmail E prefs)
        = Some addr
     /\ status addr = sent)
  /\ (forall prefs addr,
        up (redis w) = true ->
        mongo_up w = true ->
        entries <> [] ->
        preferences w !! userId = Some prefs ->
        NotificationRouter.truthy (UserPreferences.getDecryptedEmail E prefs) = Some addr ->
        (status addr = sent ->
         digests (redis w') = delete key (digests (redis w))
         /\ lrange now (redis w') key = []
         /\ notification_events w'
            = List.map (fun row =>
                          if bool_decide (NotificationEvent.notificationId row
                                          ∈ List.map g_notificationId entries)
                          then NotificationEvent.with_status row delivered else row)
                       (notification_events w))
        /\ (status addr <> sent ->
            redis w' = redis w
            /\ lrange now (redis w') key = entries
            /\ notification_events w' = notification_events w)).
Proof.
  intros key entries status w'. subst status w'. cbv beta.
  unfold sendDigestForUser. fold key. fold entries.
  assert (Hent : lrange now (redis w) key = entries) by reflexivity.
  clearbody entries.
  destruct (up (redis w)) eqn:Hup; simpl negb; cbv iota.
  2:{ simpl. split; [intros [H|H]; contradiction | intros ? ? H; discriminate H]. }
  destruct entries as [|e0 es].
  { simpl. split; [intros [H|H]; contradiction | intros ? ? _ _ H; contradiction]. }
  set (entries := e0 :: es) in *.
  unfold findByUserId, bind.
  destruct (mongo_up w) eqn:Hm.
  2:{ simpl. split; [intros [H|H]; contradiction | intros ? ? _ H; discriminate H]. }
  destruct (preferences w !! userId) as [p|] eqn:Hp.
  2:{ simpl. split; [intros [H|H]; contradiction|].
      intros ? ? _ _ _ Hq. discriminate Hq. }
  destruct (NotificationRouter.truthy (UserPreferences.getDecryptedEmail E p))
    as [addr|] eqn:Ha.
  2:{ simpl. split; [intros [H|H]; contradiction|].
      intros prefs addr _ _ _ Hq Hb. injection Hq as <-. rewrite Ha in Hb.
      discriminate Hb. }
  destruct (bool_decide_reflect
              (r_status (sendDigest E addr (List.map (payloadOf userId) entries)
                                    frequency now) = sent)) as [Hsent|Hfail].
  - split.
    + intros _. exists p, addr. auto.
    + intros prefs addr' _ _ _ Hq Hb. injection Hq as <-.
      rewrite Ha in Hb. injection Hb as <-. split.
      * intros _. split; [reflexivity|]. split.
        -- unfold lrange, visible. simpl. rewrite lookup_delete_eq. reflexivity.
        -- exact (markDelivered_spec entries (notification_events w)).
      * intros Hn. contradiction.
  - split.
    + intros [H|H]; exfalso; apply H; reflexivity.
    + intros prefs addr' _ _ _ Hq Hb. injection Hq as <-.
      rewrite Ha in Hb. injection Hb as <-. split.
      * intros Hy. contradiction.
      * intros _. split; [reflexivity|]. split; [exact Hent | reflexivity].
Qed.

(** Witness for [digest_cleared_only_on_sent]: with a failing mail provider
    the two queued entries stay queued. *)
Lemma digest_cleared_only_on_sent_witness :
  lrange 1000
    (redis (world_of (sendDigestForUser Scenario.env_mail_down 1000 "u1" daily
                                        Scenario.world_digest)))
    (getDigestKey "u1" daily)
  = [Scenario.entry1; Scenario.entry2].
Proof.
  destruct (digest_cleared_only_on_sent Scenario.env_mail_down 1000 "u1" daily
              Scenario.world_digest) as [_ H].
  destruct (H (Scenario.prefs_quiet "u1" "America/New_York" false) "enc:user@example.com")
    as [_ Hfail];
    [reflexivity | reflexivity | vm_compute; discriminate
    | vm_compute; reflexivity | vm_compute; reflexivity |].
  destruct Hfail as (_ & Hq & _); [vm_compute; discriminate|].
  exact Hq.
Defined.

End DigestFacts.

(** ** The retry service *)

Section RetryFacts.
Import NotificationRouter RetryService Vocabulary.

(** [route] leaves the dead letter queue alone. *)
Lemma route_dlq E cfg now request w :
  dead_letter_queue (world_of (route E cfg now request w)) = dead_letter_queue w.
Proof.
  unfold route.
  destruct (DeduplicationService.checkAndMark _ _ _ _ _ _ _ _) as [d s'].
  destruct (DeduplicationService.isDuplicate d); [reflexivity|].
  match goal with
  | |- context [route_after_dedup ?a ?b ?c ?d ?e ?f] =>
      destruct (route_after_dedup_frame a b c d e f) as (_ & _ & _ & _ & Hq & _)
  end.
  exact Hq.
Qed.

(** What [scheduleNextRetry] does at the cap. *)
Lemma scheduleNextRetry_cap cfg now n error w :
  Config.maxRetryAttempts cfg <= NotificationEvent.retryCount n + 1 ->
  scheduleNextRetry cfg now n error w
  = saved (NotificationEvent.markFailed now "Max retries exceeded" n)
          (moveToDeadLetterQueue now n (default "Max retries exceeded" error) w).
Proof.
  intros H. unfold scheduleNextRetry.
  destruct (Z.leb_spec (Config.maxRetryAttempts cfg) (NotificationEvent.retryCount n + 1));
    [reflexivity | lia].
Qed.

(** What [scheduleNextRetry] does below the cap. *)
Lemma scheduleNextRetry_below cfg now n error w :
  NotificationEvent.retryCount n + 1 < Config.maxRetryAttempts cfg ->
  scheduleNextRetry cfg now n error w
  = saved (NotificationEvent.markRetrying now
             (now + default 3600000
                      (Config.retryDelaySchedule cfg (NotificationEvent.retryCount n + 1)))
             n) w.
Proof.
  intros H. unfold scheduleNextRetry.
  destruct (Z.leb_spec (Config.maxRetryAttempts cfg) (NotificationEvent.retryCount n + 1));
    [lia | reflexivity].
Qed.

Lemma succeeded_app rs d :
  succeeded (rs ++ [d])
  = succeeded rs || (bool_decide (r_status d = sent) || bool_decide (r_status d = delivered)).
Proof.
  unfold succeeded. rewrite existsb_app. simpl. rewrite orb_false_r. reflexivity.
Qed.

(** With providers that always fail, a handler that is called fails. *)
Lemma attempt_fails E now channel payload contactInfo o :
  never_succeeds E ->
  attempt E now channel payload contactInfo = Called o ->
  outcome_fails o.
Proof.
  intros (Hws & Hsms & Hmail & Hpush). unfold attempt. destruct channel.
  - intros H; injection H as <-. apply Hws.
  - destruct (truthy _); [|discriminate].
    destruct (c_phoneVerified contactInfo) as [[|]|]; try discriminate.
    intros H; injection H as <-. apply Hsms.
  - destruct (truthy _); [|discriminate].
    destruct (c_emailVerified contactInfo) as [[|]|]; try discriminate.
    intros H; injection H as <-. apply Hmail.
  - destruct (c_pushTokens contactInfo) as [[|t ts]|]; try discriminate.
    intros H; injection H as <-. apply Hpush.
Qed.

Lemma sendAll_never_succeeds
    E cfg now channels payload preferences contactInfo result w r w' :
  never_succeeds E ->
  succeeded (results result) = false ->
  sendAll E cfg now channels payload preferences contactInfo result w = Ok r w' ->
  succeeded (results r) = false.
Proof.
  intros HE Hres H. rewrite sendAll_settleAll in H. injection H as <- _.
  apply (settleAll_inv E cfg now payload preferences contactInfo
           (fun ats r _ =>
              Forall (fun a => forall o, snd a = AwaitHandler o -> outcome_fails o) ats
              /\ succeeded (results r) = false)).
  - intros l1 c p l2 r1 w1 [Hall Hr].
    apply Forall_app in Hall as [H1 H2]. apply Forall_cons in H2 as [Hp H2].
    rewrite Forall_app, Forall_cons. simpl in Hp.
    destruct p as [|o|st pm err| |m].
    + destruct (resume_limit E cfg now payload preferences contactInfo c r1 w1)
        as (rl & s' & _ & [(_ & Heq)|[(reason & _ & _ & Heq)|(o & _ & Ha & Heq)]]);
        rewrite Heq; simpl; (split; [split; [exact H1|split; [|exact H2]] | exact Hr]);
        try (intros o' Ho; discriminate Ho).
      intros o' Ho. injection Ho as <-. eapply attempt_fails; eassumption.
    + destruct (resume_handler E cfg now payload preferences contactInfo c o r1 w1)
        as (d & Heq & Hd).
      rewrite Heq. simpl.
      split; [split; [exact H1|split; [intros o' Ho; discriminate Ho|exact H2]]|].
      rewrite succeeded_app, Hr. simpl.
      destruct Hd as [->|(msg & -> & ->)]; [|reflexivity].
      destruct (Hp _ eq_refl) as [Hs Hd].
      rewrite !bool_decide_eq_false_2 by assumption. reflexivity.
    + simpl. split; [split; [exact H1|split; [intros o' Ho; discriminate Ho|exact H2]]|].
      exact Hr.
    + simpl. split; [split; [exact H1|split; [exact Hp|exact H2]]|]. exact Hr.
    + simpl. split; [split; [exact H1|split; [exact Hp|exact H2]]|]. exact Hr.
  - split; [|exact Hres].
    apply Forall_forall. intros a Ha. apply list_elem_of_In, in_map_iff in Ha
      as (c & <- & _). intros o Ho. discriminate Ho.
Qed.

(** With providers that always fail, [route] reports no success. *)
Lemma route_never_succeeds E cfg now request w r w' :
  never_succeeds E ->
  route E cfg now request w = Ok r w' ->
  succeeded (results r) = false.
Proof.
  intros HE. unfold route.
  destruct (DeduplicationService.checkAndMark _ _ _ _ _ _ _ _) as [d s'].
  destruct (DeduplicationService.isDuplicate d).
  - intros H. injection H as <- _. reflexivity.
  - unfold route_after_dedup.
    destruct (findOrCreateByUserId _ _) as [p w1|msg w1]; simpl; [|discriminate].
    unfold route_with_preferences.
    destruct (UserPreferences.dnc_enabled _);
      [intros H; injection H as <- _; reflexivity|].
    destruct (_ && negb _).
    + destruct (_ && _); intros H; injection H as <- _; reflexivity.
    + apply sendAll_never_succeeds; [exact HE | reflexivity].
Qed.

End RetryFacts.

Section RetryOutcome.
Import NotificationRouter RetryService Vocabulary.

(** A re-route without success hands the record to [scheduleNextRetry]
    with the error reported by the re-route, in the world it left. *)
Lemma retryNotification_reported E cfg now n w :
  (forall r w1, route E cfg now (requestOf n) w = Ok r w1 -> succeeded (results r) = false) ->
  retryNotification E cfg now n w
  = scheduleNextRetry cfg now n (reportedError (route E cfg now (requestOf n) w))
                      (world_of (route E cfg now (requestOf n) w)).
Proof.
  intros H. unfold retryNotification.
  destruct (route E cfg now (requestOf n) w) as [r w1|msg w1] eqn:Hr.
  - rewrite (H r w1 eq_refl). reflexivity.
  - reflexivity.
Qed.

(** A retry leaves the fields the request is rebuilt from as they are. *)
Lemma retryNotification_requestOf E cfg now n w :
  requestOf (fst (retryNotification E cfg now n w)) = requestOf n.
Proof.
  unfold retryNotification, scheduleNextRetry, saved.
  destruct (route E cfg now (requestOf n) w) as [r w1|msg w1].
  - destruct (succeeded (results r)); [reflexivity|].
    destruct (_ <=? _); reflexivity.
  - destruct (_ <=? _); reflexivity.
Qed.

(** With providers that always fail, driving a record below the cap again
    and again ends, at the cap, with one dead letter, written by the last
    cycle. *)
Lemma retryCycles_to_dead_letter E cfg :
  never_succeeds E ->
  forall times n w,
    0 <= NotificationEvent.retryCount n < Config.maxRetryAttempts cfg ->
    List.length times
    = Z.to_nat (Config.maxRetryAttempts cfg - NotificationEvent.retryCount n) ->
    let before := retryCycles E cfg (List.removelast times) n w in
    let reason :=
      default "Max retries exceeded"
              (reportedError (route E cfg (List.last times 0) (requestOf n) (snd before))) in
    exists d,
      dead_letter_queue (snd (retryCycles E cfg times n w)) = (dead_letter_queue w ++ [d])%list
      /\ DeadLetterQueue.originalNotificationId d = NotificationEvent.notificationId n
      /\ DeadLetterQueue.totalAttempts d = Config.maxRetryAttempts cfg
      /\ DeadLetterQueue.lastAttemptAt d = List.last times 0
      /\ DeadLetterQueue.failureReason d = reason
      /\ DeadLetterQueue.failureHistory d = [(List.last times 0, reason)]
      /\ NotificationEvent.deliveryStatus (fst (retryCycles E cfg times n w)) = failed.
Proof.
  intros HE. induction times as [|t ts IH]; intros n w Hc Hlen.
  - simpl in Hlen. lia.
  - cbv zeta.
    assert (Hstep := retryNotification_reported E cfg t n w
                       ltac:(intros r w1 Hr; eapply route_never_succeeds; eassumption)).
    pose proof (route_dlq E cfg t (requestOf n) w) as Hq.
    pose proof (retryNotification_requestOf E cfg t n w) as Hreq.
    destruct (Z_lt_le_dec (NotificationEvent.retryCount n + 1)
                          (Config.maxRetryAttempts cfg)) as [Hlt|Hge].
    + destruct ts as [|t2 ts]; [simpl in Hlen; lia|].
      change (List.removelast (t :: t2 :: ts)) with (t :: List.removelast (t2 :: ts)).
      change (List.last (t :: t2 :: ts) 0) with (List.last (t2 :: ts) 0).
      simpl retryCycles.
      destruct (retryNotification E cfg t n w) as [n1 w1] eqn:Hrn.
      simpl in Hreq.
      rewrite scheduleNextRetry_below in Hstep by exact Hlt.
      unfold saved in Hstep. injection Hstep as Hn1 Hw1.
      destruct (IH n1 w1) as (d & Hd & Hid & Ht & Hl & Hf & Hh & Hs).
      * subst n1. simpl. lia.
      * subst n1. simpl in *. lia.
      * exists d. rewrite Hreq in Hf, Hh.
        assert (Hdlq : dead_letter_queue w1 = dead_letter_queue w)
          by (subst w1; simpl; exact Hq).
        assert (Hnid : NotificationEvent.notificationId n1
                       = NotificationEvent.notificationId n)
          by (subst n1; reflexivity).
        rewrite Hdlq in Hd. rewrite Hnid in Hid. auto 10.
    + assert (ts = []) as ->.
      { destruct ts; [reflexivity|]. simpl in Hlen. lia. }
      simpl. rewrite Hstep.
      rewrite scheduleNextRetry_cap by exact Hge. unfold saved. simpl.
      rewrite Hq. eexists. split; [reflexivity|]. simpl.
      repeat split; lia.
Qed.

(** C4, as amended.  When the re-route of a record reports no sent or
    delivered channel, the retry engine saves the record changed as
    follows.  If its retry count plus one reaches the maximum, one dead
    letter is written: it copies the record, its total attempts is that
    number, its failure reason is the error of the outcome the re-route
    pushed first (the message of the rejection when the re-route rejected,
    the fixed text "Max retries exceeded" when there is neither), and its
    failure history is the single entry made of the instant of this
    attempt and that reason; the record is marked failed with the fixed
    text as its error, its stored retry count unchanged.  Otherwise its
    retry count is incremented, its next attempt is set to now plus the
    schedule delay of the new count (one hour when the schedule has none)
    and its status is retrying.  With providers that always fail, a record
    starting at count 0 driven max-attempts times ends failed with one
    dead letter, whose total attempts is the maximum and whose failure
    reason and single history entry are those of the last cycle: nothing
    of the earlier failures is kept. *)
Theorem retry_until_dead_letter E cfg :
  (forall now n w,
      (forall r w1, route E cfg now (requestOf n) w = Ok r w1 ->
                    succeeded (results r) = false) ->
      let w1 := world_of (route E cfg now (requestOf n) w) in
      let reason :=
        default "Max retries exceeded"
                (reportedError (route E cfg now (requestOf n) w)) in
      let n' := fst (retryNotification E cfg now n w) in
      let w' := snd (retryNotification E cfg now n w) in
      notification_events w' = NotificationEvent.save n' (notification_events w1)
      /\ (Config.maxRetryAttempts cfg <= NotificationEvent.retryCount n + 1 ->
          dead_letter_queue w'
          = (dead_letter_queue w
             ++ [DeadLetterQueue.mk
                   (NotificationEvent.notificationId n) (NotificationEvent.userId n)
                   (NotificationEvent.eventType n) (NotificationEvent.eventSourceId n)
                   (NotificationEvent.channel n) (NotificationEvent.priority n)
                   (NotificationEvent.title n) (NotificationEvent.message n)
                   (NotificationEvent.metadata n) reason
                   (NotificationEvent.retryCount n + 1) now [(now, reason)]
                   DeadLetterQueue.pending_review])%list
          /\ NotificationEvent.deliveryStatus n' = failed
          /\ NotificationEvent.errorMessage n' = Some "Max retries exceeded"
          /\ NotificationEvent.retryCount n' = NotificationEvent.retryCount n)
      /\ (NotificationEvent.retryCount n + 1 < Config.maxRetryAttempts cfg ->
          dead_letter_queue w' = dead_letter_queue w
          /\ NotificationEvent.deliveryStatus n' = retrying
          /\ NotificationEvent.retryCount n' = NotificationEvent.retryCount n + 1
          /\ NotificationEvent.nextRetryAt n'
             = Some (now + default 3600000
                             (Config.retryDelaySchedule cfg
                                (NotificationEvent.retryCount n + 1)))))
  /\ (never_succeeds E ->
      1 <= Config.maxRetryAttempts cfg ->
      forall times n w,
        NotificationEvent.retryCount n = 0 ->
        List.length times = Z.to_nat (Config.maxRetryAttempts cfg) ->
        let before := retryCycles E cfg (List.removelast times) n w in
        let reason :=
          default "Max retries exceeded"
                  (reportedError (route E cfg (List.last times 0) (requestOf n) (snd before))) in
        exists d,
          dead_letter_queue (snd (retryCycles E cfg times n w))
          = (dead_letter_queue w ++ [d])%list
          /\ DeadLetterQueue.originalNotificationId d = NotificationEvent.notificationId n
          /\ DeadLetterQueue.totalAttempts d = Config.maxRetryAttempts cfg
          /\ DeadLetterQueue.lastAttemptAt d = List.last times 0
          /\ DeadLetterQueue.failureReason d = reason
          /\ DeadLetterQueue.failureHistory d = [(List.last times 0, reason)]
          /\ NotificationEvent.deliveryStatus (fst (retryCycles E cfg times n w)) = failed).
Proof.
  split.
  - intros now n w Hfail w1 reason n' w'. subst n' w'.
    rewrite (retryNotification_reported E cfg now n w Hfail). fold w1. fold reason.
    pose proof (route_dlq E cfg now (requestOf n) w) as Hq. fold w1 in Hq.
    destruct (Z_lt_le_dec (NotificationEvent.retryCount n + 1)
                          (Config.maxRetryAttempts cfg)) as [Hlt|Hge].
    + rewrite scheduleNextRetry_below by exact Hlt. unfold saved. simpl.
      split; [reflexivity|]. split; [intros; lia|]. intros _. auto.
    + rewrite scheduleNextRetry_cap by exact Hge. unfold saved. simpl.
      split; [reflexivity|]. split; [|intros; lia]. intros _.
      rewrite Hq. auto.
  - intros HE Hmax times n w Hc Hlen.
    apply retryCycles_to_dead_letter; [exact HE | lia | rewrite Hc, Z.sub_0_r; exact Hlen].
Qed.

(** Witness for [retry_until_dead_letter]: five failing cycles of one
    record under the default configuration. *)
Lemma retry_until_dead_letter_witness :
  exists d,
    dead_letter_queue
      (snd (retryCycles Scenario.env_all_down Config.default Scenario.ticks
                        Scenario.record_retrying Scenario.world_retry))
    = [d]
    /\ DeadLetterQueue.totalAttempts d = 5
    /\ DeadLetterQueue.failureHistory d = [(420000, DeadLetterQueue.failureReason d)].
Proof.
  destruct (retry_until_dead_letter Scenario.env_all_down Config.default) as [_ H].
  destruct (H ltac:(repeat split; discriminate) ltac:(vm_compute; discriminate)
              Scenario.ticks Scenario.record_retrying Scenario.world_retry
              eq_refl eq_refl)
    as (d & Hd & _ & Ht & _ & Hf & Hh & _).
  exists d. split; [exact Hd|]. split; [exact Ht|].
  rewrite Hh, Hf. reflexivity.
Defined.

(** Which failure the dead letter reports depends on which handler answered
    first in the last re-route: a failed transfer goes to the websocket
    gateway and to the mail provider, and the dead letter carries the error
    of the gateway, or that of the mail provider when it answers first. *)
Lemma dead_letter_reason_follows_completion :
  List.map DeadLetterQueue.failureReason
    (dead_letter_queue
       (snd (retryCycles Scenario.env_all_down Config.default Scenario.ticks
                         Scenario.record_retrying Scenario.world_retry)))
  = ["gateway down"]
  /\ List.map DeadLetterQueue.failureReason
       (dead_letter_queue
          (snd (retryCycles Scenario.env_all_down_mail_first Config.default Scenario.ticks
                            Scenario.record_retrying Scenario.world_retry)))
     = ["timeout"].
Proof. split; vm_compute; reflexivity. Qed.

(** C4 as stated fails: after the five retry cycles of a record whose
    provider always fails, the one dead letter has five total attempts but
    a failure history of one entry, not five. *)
Lemma dead_letter_history_has_one_entry :
  exists d,
    dead_letter_queue
      (scannerTicks Scenario.env_all_down Config.default Scenario.ticks
                    Scenario.world_retry)
    = [d]
    /\ DeadLetterQueue.totalAttempts d = 5
    /\ List.length (DeadLetterQueue.failureHistory d) <> 5%nat.
Proof.
  eexists. split; [vm_compute; reflexivity|]. split; [reflexivity|].
  simpl. discriminate.
Qed.

End RetryOutcome.

Section RetryScanner.
Import NotificationRouter RetryService Vocabulary.

Lemma In_insertByNext n x l : In x (insertByNext n l) <-> x = n \/ In x l.
Proof.
  induction l as [|y ys IH]; simpl.
  - intuition congruence.
  - destruct (nextKey n <=? nextKey y); simpl; [intuition congruence|].
    rewrite IH. intuition congruence.
Qed.

Lemma In_orderByNext x l : In x (orderByNext l) <-> In x l.
Proof.
  unfold orderByNext. induction l as [|y ys IH]; simpl; [tauto|].
  rewrite In_insertByNext, IH. intuition congruence.
Qed.

Lemma In_firstn_In {A} k (x : A) l : In x (firstn k l) -> In x l.
Proof.
  revert l. induction k as [|k IH]; intros [|y ys]; simpl; try tauto.
  intros [H|H]; [left; exact H | right; apply IH; exact H].
Qed.

(** Two rows of a table with unique keys that share a key are the same
    row. *)
Lemma NoDup_map_In_inj {A B} (f : A -> B) l a b :
  NoDup (List.map f l) -> In a l -> In b l -> f a = f b -> a = b.
Proof.
  induction l as [|x xs IH]; simpl; [tauto|].
  intros Hnd Ha Hb Hf. inversion Hnd as [|y ys Hx Hnd']; subst.
  rewrite list_elem_of_In in Hx.
  destruct Ha as [->|Ha], Hb as [->|Hb]; auto.
  - exfalso. apply Hx. rewrite Hf. apply in_map. exact Hb.
  - exfalso. apply Hx. rewrite <- Hf. apply in_map. exact Ha.
Qed.

(** Every record the query returns is in the table, in [retrying], due,
    and below the cap. *)
Lemma findReady_due cfg now tbl n :
  In n (findReady cfg now tbl) -> In n tbl /\ due cfg now n = true.
Proof.
  unfold findReady. intros H. apply In_firstn_In in H.
  apply (proj1 (In_orderByNext _ _)) in H.
  apply (proj1 (List.filter_In _ _ _)) in H. exact H.
Qed.

Lemma due_spec cfg now n :
  due cfg now n = true <->
  NotificationEvent.deliveryStatus n = retrying
  /\ (exists t, NotificationEvent.nextRetryAt n = Some t /\ t <= now)
  /\ NotificationEvent.retryCount n < Config.maxRetryAttempts cfg.
Proof.
  unfold due. rewrite !andb_true_iff, bool_decide_eq_true, Z.ltb_lt.
  destruct (NotificationEvent.nextRetryAt n) as [t|].
  - rewrite Z.leb_le. split.
    + intros [[H1 H2] H3]. eauto.
    + intros (H1 & (t' & Ht & H2) & H3). injection Ht as <-. auto.
  - split.
    + intros [[_ H] _]. discriminate H.
    + intros (_ & (t' & Ht & _) & _). discriminate Ht.
Qed.

(** One retry adds to the dead letter queue at most one letter, and that
    letter is for the record retried. *)
Lemma retryNotification_dlq E cfg now n w d :
  In d (dead_letter_queue (snd (retryNotification E cfg now n w))) ->
  In d (dead_letter_queue w)
  \/ DeadLetterQueue.originalNotificationId d = NotificationEvent.notificationId n.
Proof.
  unfold retryNotification.
  pose proof (route_dlq E cfg now (requestOf n) w) as Hq.
  assert (Hsched : forall error w1,
             dead_letter_queue w1 = dead_letter_queue w ->
             In d (dead_letter_queue (snd (scheduleNextRetry cfg now n error w1))) ->
             In d (dead_letter_queue w)
             \/ DeadLetterQueue.originalNotificationId d = NotificationEvent.notificationId n).
  { intros error w1 Hw1. unfold scheduleNextRetry, saved.
    destruct (_ <=? _); simpl.
    - rewrite Hw1, in_app_iff. simpl. intros [H|[H|[]]]; [left; exact H|].
      right. subst d. reflexivity.
    - rewrite Hw1. auto. }
  destruct (route E cfg now (requestOf n) w) as [r w1|msg w1]; simpl in Hq.
  - destruct (succeeded (results r)).
    + unfold saved. simpl. rewrite Hq. auto.
    + apply Hsched. exact Hq.
  - apply Hsched. exact Hq.
Qed.

Lemma retryEach_dlq E cfg now ns w d :
  In d (dead_letter_queue (retryEach E cfg now ns w)) ->
  In d (dead_letter_queue w)
  \/ exists n, In n ns
               /\ DeadLetterQueue.originalNotificationId d = NotificationEvent.notificationId n.
Proof.
  revert w. induction ns as [|n ns IH]; intros w; simpl; [auto|].
  intros H. apply IH in H as [H|(m & Hm & Hid)].
  - apply retryNotification_dlq in H as [H|H]; [auto|]. right. exists n. auto.
  - right. exists m. auto.
Qed.

(** C10.  A scanner tick re-drives exactly the records its query returns,
    and each of them is in the table with status retrying, a next-attempt
    time that has elapsed and a retry count strictly below the maximum.  A
    record in status retrying with its retry count at or above the maximum
    is returned by no query, whatever the instant and the table; every
    dead letter a tick adds is for a record its query returned, so none is
    for such a record (the ids of the table being unique). *)
Theorem retry_scanner_selection E cfg now w :
  processRetries E cfg now w
  = retryEach E cfg now (findReady cfg now (notification_events w)) w
  /\ (forall n,
        In n (findReady cfg now (notification_events w)) ->
        In n (notification_events w)
        /\ NotificationEvent.deliveryStatus n = retrying
        /\ (exists t, NotificationEvent.nextRetryAt n = Some t /\ t <= now)
        /\ NotificationEvent.retryCount n < Config.maxRetryAttempts cfg)
  /\ (forall n,
        NotificationEvent.deliveryStatus n = retrying ->
        Config.maxRetryAttempts cfg <= NotificationEvent.retryCount n ->
        forall now' tbl, ~ In n (findReady cfg now' tbl))
  /\ (forall d,
        In d (dead_letter_queue (processRetries E cfg now w)) ->
        In d (dead_letter_queue w)
        \/ exists n,
            In n (findReady cfg now (notification_events w))
            /\ DeadLetterQueue.originalNotificationId d = NotificationEvent.notificationId n
            /\ NotificationEvent.retryCount n < Config.maxRetryAttempts cfg)
  /\ (NoDup (List.map NotificationEvent.notificationId (notification_events w)) ->
      forall n d,
        In n (notification_events w) ->
        NotificationEvent.deliveryStatus n = retrying ->
        Config.maxRetryAttempts cfg <= NotificationEvent.retryCount n ->
        In d (dead_letter_queue (processRetries E cfg now w)) ->
        DeadLetterQueue.originalNotificationId d = NotificationEvent.notificationId n ->
        In d (dead_letter_queue w)).
Proof.
  assert (Hsel : forall n,
             In n (findReady cfg now (notification_events w)) ->
             In n (notification_events w)
             /\ NotificationEvent.deliveryStatus n = retrying
             /\ (exists t, NotificationEvent.nextRetryAt n = Some t /\ t <= now)
             /\ NotificationEvent.retryCount n < Config.maxRetryAttempts cfg).
  { intros n H. apply findReady_due in H as [Hin Hdue].
    apply due_spec in Hdue. tauto. }
  assert (Hdlq : forall d,
             In d (dead_letter_queue (processRetries E cfg now w)) ->
             In d (dead_letter_queue w)
             \/ exists n,
                 In n (findReady cfg now (notification_events w))
                 /\ DeadLetterQueue.originalNotificationId d
                    = NotificationEvent.notificationId n
                 /\ NotificationEvent.retryCount n < Config.maxRetryAttempts cfg).
  { intros d H. unfold processRetries in H.
    apply retryEach_dlq in H as [H|(n & Hn & Hid)]; [auto|].
    right. exists n. split; [exact Hn|]. split; [exact Hid|].
    apply Hsel in Hn. tauto. }
  split; [reflexivity|]. split; [exact Hsel|]. split; [|split; [exact Hdlq|]].
  - intros n _ Hcap now' tbl H. apply findReady_due in H as [_ Hdue].
    apply due_spec in Hdue. lia.
  - intros Hpk n d Hn _ Hcap Hd Hid.
    destruct (Hdlq d Hd) as [H|(m & Hm & Hidm & Hlt)]; [exact H|].
    exfalso. apply Hsel in Hm as (Hmin & _).
    assert (m = n); [|subst m; lia].
    eapply NoDup_map_In_inj; try eassumption. congruence.
Qed.

(** Witness for [retry_scanner_selection]: the record left in [retrying]
    at retry count 5 is not returned by the query of any of the five
    ticks, and the record at count 0 is. *)
Lemma retry_scanner_selection_witness :
  ~ In Scenario.record_stuck
      (findReady Config.default 30000 (notification_events Scenario.world_retry))
  /\ NotificationEvent.retryCount Scenario.record_retrying < 5.
Proof.
  destruct (retry_scanner_selection Scenario.env_all_down Config.default 30000
              Scenario.world_retry) as (_ & Hsel & Hstuck & _ & _).
  split.
  - apply (Hstuck Scenario.record_stuck); [reflexivity | vm_compute; discriminate].
  - apply (Hsel Scenario.record_retrying). vm_compute. left. reflexivity.
Defined.

End RetryScanner.

(* ================================================================== *)
(** * Further properties of the code                                  *)
(* ================================================================== *)

(** ** The rate limiter: read side, runs, isolation, reset *)

Section RateLimiterReadSide.
Import Redis RateLimiter Vocabulary.

Lemma checkLimit_unfold cfg now userId channel userLimits s k :
  getChannelKeys userId channel (merge (defaultLimits cfg) userLimits) = Some k ->
  up s = true ->
  checkLimit cfg now userId channel userLimits s
  = let currentHour := default 0 (get_count s now (hourKey k)) in
    let currentDay := default 0 (get_count s now (dayKey k)) in
    if hourLimit k <=? currentHour then
      let wait := waitOf (ttl_of now (counters s) (hourKey k)) REDIS_TTL_RATE_LIMIT_HOUR in
      Some (mkResult false 0 (hourLimit k) (now + wait) (Some wait))
    else if dayLimit k <=? currentDay then
      let wait := waitOf (ttl_of now (counters s) (dayKey k)) REDIS_TTL_RATE_LIMIT_DAY in
      Some (mkResult false 0 (dayLimit k) (now + wait) (Some wait))
    else
      let remaining := Z.min (hourLimit k - currentHour) (dayLimit k - currentDay) in
      let wait := waitOf (ttl_of now (counters s) (hourKey k)) REDIS_TTL_RATE_LIMIT_HOUR in
      Some (mkResult true remaining (hourLimit k) (now + wait) None).
Proof.
  intros Hk Hup. unfold checkLimit.
  destruct channel; [discriminate Hk | ..]; rewrite Hk, Hup; reflexivity.
Qed.

Lemma incrementCounter_unfold cfg now userId channel userLimits s k :
  getChannelKeys userId channel (merge (defaultLimits cfg) userLimits) = Some k ->
  up s = true ->
  incrementCounter cfg now userId channel userLimits s
  = Some (expire_counter now (dayKey k) REDIS_TTL_RATE_LIMIT_DAY
            (incr now (dayKey k)
               (expire_counter now (hourKey k) REDIS_TTL_RATE_LIMIT_HOUR
                  (incr now (hourKey k) s)))).
Proof.
  intros Hk Hup. unfold incrementCounter.
  destruct channel; [discriminate Hk | ..]; rewrite Hk, Hup; reflexivity.
Qed.

(** X1.  For a user and a channel among sms, email and push, with the store
    answering: [checkLimit] and [consumeLimit] agree on the answer and on
    the cap they report; when the answer is "allowed", [consumeLimit] leaves
    the very store that [incrementCounter] leaves and reports one less
    remaining than [checkLimit]; when it is "refused", [consumeLimit]
    leaves the store alone and reports as remaining the count at the cap
    where [checkLimit] reports 0.  [incrementCounter] itself looks at no
    cap: it raises both counters by one whatever they hold. *)
Theorem consumeLimit_is_check_then_increment cfg now userId channel userLimits s k :
  up s = true ->
  getChannelKeys userId channel (merge (defaultLimits cfg) userLimits) = Some k ->
  exists r r' s' s2,
    checkLimit cfg now userId channel userLimits s = Some r
    /\ consumeLimit cfg now userId channel userLimits s = Some (r', s')
    /\ incrementCounter cfg now userId channel userLimits s = Some s2
    /\ allowed r' = allowed r
    /\ limit r' = limit r
    /\ (allowed r = true ->
        s' = s2 /\ remaining r = remaining r' + 1
        /\ waitMs r = None /\ waitMs r' = None)
    /\ (allowed r = false ->
        s' = s /\ remaining r = 0 /\ limit r <= remaining r'
        /\ is_Some (waitMs r) /\ is_Some (waitMs r'))
    /\ get_count s2 now (hourKey k) = Some (default 0 (get_count s now (hourKey k)) + 1)
    /\ get_count s2 now (dayKey k) = Some (default 0 (get_count s now (dayKey k)) + 1).
Proof.
  intros Hup Hk.
  pose proof (keys_distinct _ _ _ _ Hk) as Hne.
  rewrite (checkLimit_unfold _ _ _ _ _ _ _ Hk Hup).
  rewrite (consumeLimit_unfold _ _ _ _ _ _ _ Hk Hup).
  rewrite (incrementCounter_unfold _ _ _ _ _ _ _ Hk Hup).
  set (s2 := expire_counter now (dayKey k) REDIS_TTL_RATE_LIMIT_DAY
               (incr now (dayKey k)
                  (expire_counter now (hourKey k) REDIS_TTL_RATE_LIMIT_HOUR
                     (incr now (hourKey k) s)))).
  assert (Hc : counters s2
               = <[dayKey k := (default 0 (get_count s now (dayKey k)) + 1,
                                Some (now + REDIS_TTL_RATE_LIMIT_DAY * 1000))]>
                   (<[hourKey k := (default 0 (get_count s now (hourKey k)) + 1,
                                    Some (now + REDIS_TTL_RATE_LIMIT_HOUR * 1000))]>
                      (counters s))).
  { unfold s2. rewrite !incr_expire_counters. f_equal. f_equal. f_equal.
    unfold get_count. rewrite incr_expire_counters, visible_insert_ne by done.
    reflexivity. }
  assert (Hcounts :
            get_count s2 now (hourKey k) = Some (default 0 (get_count s now (hourKey k)) + 1)
            /\ get_count s2 now (dayKey k) = Some (default 0 (get_count s now (dayKey k)) + 1)).
  { unfold get_count at 1 3. rewrite Hc. split.
    - rewrite visible_insert_ne by done.
      rewrite visible_insert_eq, live_after by reflexivity. reflexivity.
    - rewrite visible_insert_eq, live_after by reflexivity. reflexivity. }
  unfold consumeScript. cbv zeta. fold s2.
  destruct (Z.leb_spec (hourLimit k) (default 0 (get_count s now (hourKey k)))) as [Hh|Hh].
  - do 4 eexists. do 3 (split; [reflexivity|]). simpl.
    split; [reflexivity|]. split; [reflexivity|]. split; [discriminate|].
    split; [|exact Hcounts]. intros _. repeat split; eauto.
  - destruct (Z.leb_spec (dayLimit k) (default 0 (get_count s now (dayKey k)))) as [Hd|Hd].
    + do 4 eexists. do 3 (split; [reflexivity|]). simpl.
      split; [reflexivity|]. split; [reflexivity|]. split; [discriminate|].
      split; [|exact Hcounts]. intros _. repeat split; eauto.
    + do 4 eexists. do 3 (split; [reflexivity|]). simpl.
      split; [reflexivity|]. split; [reflexivity|].
      split; [|split; [discriminate | exact Hcounts]].
      intros _. repeat split; lia.
Qed.

End RateLimiterReadSide.

Section RateLimiterRuns.
Import Redis RateLimiter Vocabulary.

Lemma consumeLimit_allowed_step cfg now userId channel userLimits s k :
  up s = true ->
  getChannelKeys userId channel (merge (defaultLimits cfg) userLimits) = Some k ->
  default 0 (get_count s now (hourKey k)) < hourLimit k ->
  default 0 (get_count s now (dayKey k)) < dayLimit k ->
  exists r s',
    consumeLimit cfg now userId channel userLimits s = Some (r, s')
    /\ allowed r = true /\ up s' = true
    /\ counters s'
       = <[dayKey k := (default 0 (get_count s now (dayKey k)) + 1,
                        Some (now + REDIS_TTL_RATE_LIMIT_DAY * 1000))]>
           (<[hourKey k := (default 0 (get_count s now (hourKey k)) + 1,
                            Some (now + REDIS_TTL_RATE_LIMIT_HOUR * 1000))]> (counters s)).
Proof.
  intros Hup Hk Hh Hd.
  rewrite (consumeLimit_unfold _ _ _ _ _ _ _ Hk Hup).
  destruct (consumeScript_allowed now k REDIS_TTL_RATE_LIMIT_HOUR REDIS_TTL_RATE_LIMIT_DAY s
              (keys_distinct _ _ _ _ Hk)) as (rem & ttl & s' & Hs & Hc & Hu & _);
    [reflexivity | reflexivity | exact Hh | exact Hd |].
  rewrite Hs. cbv zeta iota beta. do 2 eexists. split; [reflexivity|].
  split; [reflexivity|]. split; [congruence | exact Hc].
Qed.

Lemma consumeLimit_refused_step cfg now userId channel userLimits s k :
  up s = true ->
  getChannelKeys userId channel (merge (defaultLimits cfg) userLimits) = Some k ->
  hourLimit k <= default 0 (get_count s now (hourKey k))
  \/ dayLimit k <= default 0 (get_count s now (dayKey k)) ->
  exists r,
    consumeLimit cfg now userId channel userLimits s = Some (r, s) /\ allowed r = false.
Proof.
  intros Hup Hk Hcap.
  rewrite (consumeLimit_unfold _ _ _ _ _ _ _ Hk Hup).
  destruct (Z_lt_le_dec (default 0 (get_count s now (hourKey k))) (hourLimit k)) as [Hh|Hh].
  - rewrite consumeScript_day_refused by (try assumption; lia).
    cbv zeta iota beta. eexists. split; reflexivity.
  - rewrite consumeScript_hour_refused by assumption.
    cbv zeta iota beta. eexists. split; reflexivity.
Qed.

Lemma consumeAll_run cfg userId channel userLimits k last :
  getChannelKeys userId channel (merge (defaultLimits cfg) userLimits) = Some k ->
  forall times prev s hc dc,
    up s = true ->
    (forall t, prev <= t < prev + REDIS_TTL_RATE_LIMIT_HOUR * 1000 ->
               default 0 (get_count s t (hourKey k)) = hc
               /\ default 0 (get_count s t (dayKey k)) = dc) ->
    spaced (REDIS_TTL_RATE_LIMIT_HOUR * 1000) prev (times ++ [last]) ->
    Z.of_nat (List.length times) = Z.min (hourLimit k - hc) (dayLimit k - dc) ->
    List.map allowed (fst (consumeAll cfg userId channel userLimits (times ++ [last]) s))
    = (repeat true (List.length times) ++ [false])%list.
Proof.
  intros Hk. induction times as [|t times IH]; intros prev s hc dc Hup Hinv Hsp Hlen.
  - simpl in Hsp, Hlen. destruct Hsp as [Ht _]. destruct (Hinv _ Ht) as [Hh Hd].
    destruct (consumeLimit_refused_step cfg last userId channel userLimits s k Hup Hk)
      as (r & Hr & Ha); [lia|].
    simpl. rewrite Hr. simpl. rewrite Ha. reflexivity.
  - simpl in Hsp. destruct Hsp as [Ht Hsp]. destruct (Hinv _ Ht) as [Hh Hd].
    simpl List.length in Hlen. rewrite Nat2Z.inj_succ in Hlen.
    destruct (consumeLimit_allowed_step cfg t userId channel userLimits s k Hup Hk)
      as (r & s' & Hr & Ha & Hup' & Hc); [lia | lia |].
    pose proof (keys_distinct _ _ _ _ Hk) as Hne.
    specialize (IH t s' (hc + 1) (dc + 1) Hup').
    simpl. rewrite Hr.
    destruct (consumeAll cfg userId channel userLimits (times ++ [last]) s')
      as [rs s''] eqn:Hrun.
    simpl. rewrite Ha. f_equal.
    simpl in IH. apply IH; [|exact Hsp|lia].
    intros t' Ht'. unfold get_count. rewrite Hc. split.
    + rewrite visible_insert_ne by done. rewrite visible_insert_eq.
      unfold REDIS_TTL_RATE_LIMIT_HOUR in *. simpl live.
      destruct (Z.ltb_spec t' (t + 3600 * 1000)); [simpl; lia | lia].
    + rewrite visible_insert_eq.
      unfold REDIS_TTL_RATE_LIMIT_HOUR, REDIS_TTL_RATE_LIMIT_DAY in *. simpl live.
      destruct (Z.ltb_spec t' (t + 86400 * 1000)); [simpl; lia | lia].
Qed.

(** X2.  The hour key is given a fresh hour of life by every allowed send.
    Starting without counters, sends of one user on one channel that follow
    each other by less than an hour are allowed until their number reaches
    the smaller of the hourly and daily caps, and the next one is refused,
    however many hours the sends span. *)
Theorem budget_not_replenished_while_sending
    cfg userId channel userLimits k first times last s :
  up s = true ->
  getChannelKeys userId channel (merge (defaultLimits cfg) userLimits) = Some k ->
  counters s !! hourKey k = None ->
  counters s !! dayKey k = None ->
  spaced (REDIS_TTL_RATE_LIMIT_HOUR * 1000) first (times ++ [last]) ->
  Z.of_nat (List.length times) = Z.min (hourLimit k) (dayLimit k) ->
  List.map allowed (fst (consumeAll cfg userId channel userLimits (times ++ [last]) s))
  = (repeat true (List.length times) ++ [false])%list.
Proof.
  intros Hup Hk Hh Hd Hsp Hlen.
  apply (consumeAll_run cfg userId channel userLimits k last Hk times first s 0 0 Hup);
    [|exact Hsp|rewrite !Z.sub_0_r; exact Hlen].
  intros t _. unfold get_count, visible. rewrite Hh, Hd. split; reflexivity.
Qed.

End RateLimiterRuns.

Section RateLimiterIsolation.
Import Redis RateLimiter Vocabulary.

Lemma channel_keys_apart userId channel limits k userId' channel' limits' k' :
  getChannelKeys userId channel limits = Some k ->
  getChannelKeys userId' channel' limits' = Some k' ->
  (userId, channel) <> (userId', channel') ->
  hourKey k <> hourKey k' /\ hourKey k <> dayKey k'
  /\ dayKey k <> hourKey k' /\ dayKey k <> dayKey k'.
Proof.
  intros Hk Hk' Hne.
  destruct channel, channel'; simpl in Hk, Hk'; try discriminate;
    injection Hk as <-; injection Hk' as <-; simpl;
    repeat split; intros HH; try discriminate HH;
    injection HH as HH; apply Hne; f_equal; exact HH.
Qed.

Lemma consumeLimit_counters_elsewhere cfg now userId channel userLimits s r s' k key :
  getChannelKeys userId channel (merge (defaultLimits cfg) userLimits) = Some k ->
  consumeLimit cfg now userId channel userLimits s = Some (r, s') ->
  key <> hourKey k -> key <> dayKey k ->
  counters s' !! key = counters s !! key.
Proof.
  intros Hk Hc Hh Hd.
  destruct (up s) eqn:Hup.
  - destruct (Z_lt_le_dec (default 0 (get_count s now (hourKey k))) (hourLimit k)) as [Hlh|Hlh];
      [destruct (Z_lt_le_dec (default 0 (get_count s now (dayKey k))) (dayLimit k))
        as [Hld|Hld]|].
    + destruct (consumeLimit_allowed_step cfg now userId channel userLimits s k Hup Hk Hlh Hld)
        as (r0 & s0 & Hr & _ & _ & Hcs).
      rewrite Hr in Hc. injection Hc as _ <-.
      rewrite Hcs, !lookup_insert_ne by done. reflexivity.
    + destruct (consumeLimit_refused_step cfg now userId channel userLimits s k Hup Hk)
        as (r0 & Hr & _); [right; exact Hld|].
      rewrite Hr in Hc. injection Hc as _ <-. reflexivity.
    + destruct (consumeLimit_refused_step cfg now userId channel userLimits s k Hup Hk)
        as (r0 & Hr & _); [left; exact Hlh|].
      rewrite Hr in Hc. injection Hc as _ <-. reflexivity.
  - rewrite consumeLimit_store_down in Hc by exact Hup.
    injection Hc as _ <-. reflexivity.
Qed.

Lemma get_count_ext s1 s2 now key :
  counters s1 !! key = counters s2 !! key ->
  get_count s1 now key = get_count s2 now key
  /\ ttl_of now (counters s1) key = ttl_of now (counters s2) key.
Proof. intros H. unfold get_count, ttl_of, visible. rewrite H. split; reflexivity. Qed.

Lemma checkLimit_ext cfg now userId channel userLimits s1 s2 :
  up s1 = up s2 ->
  (forall k, getChannelKeys userId channel (merge (defaultLimits cfg) userLimits) = Some k ->
             counters s1 !! hourKey k = counters s2 !! hourKey k
             /\ counters s1 !! dayKey k = counters s2 !! dayKey k) ->
  checkLimit cfg now userId channel userLimits s1
  = checkLimit cfg now userId channel userLimits s2.
Proof.
  intros Hup Hk. unfold checkLimit.
  destruct (getChannelKeys userId channel (merge (defaultLimits cfg) userLimits))
    as [k|] eqn:Hkeys; [|reflexivity].
  destruct (Hk k eq_refl) as [Hh Hd].
  destruct (get_count_ext s1 s2 now _ Hh) as [Hgh Hth].
  destruct (get_count_ext s1 s2 now _ Hd) as [Hgd Htd].
  rewrite Hup, Hgh, Hgd, Hth, Htd. reflexivity.
Qed.

(** X3.  Budgets are kept apart: a [consumeLimit] call for a user and a channel
    changes the answer of [checkLimit] for no other pair of user and
    channel, at any instant and under any limits. *)
Theorem consumeLimit_isolated
    cfg now userId channel userLimits s r s' now' userId' channel' userLimits' :
  (userId, channel) <> (userId', channel') ->
  consumeLimit cfg now userId channel userLimits s = Some (r, s') ->
  checkLimit cfg now' userId' channel' userLimits' s'
  = checkLimit cfg now' userId' channel' userLimits' s.
Proof.
  intros Hne Hc.
  destruct (consumeLimit_frame _ _ _ _ _ _ _ _ Hc) as (Hup & _ & _).
  apply checkLimit_ext; [exact Hup|].
  intros k' Hk'.
  destruct (getChannelKeys userId channel (merge (defaultLimits cfg) userLimits))
    as [k|] eqn:Hk.
  - assert (Hne' : (userId', channel') <> (userId, channel)) by congruence.
    destruct (channel_keys_apart _ _ _ _ _ _ _ _ Hk' Hk Hne') as (H1 & H2 & H3 & H4).
    split; eapply consumeLimit_counters_elsewhere; eauto.
  - destruct channel; simpl in Hk; try discriminate.
    simpl in Hc. injection Hc as _ <-. split; reflexivity.
Qed.

End RateLimiterIsolation.

Section RateLimiterReset.
Import Redis RateLimiter Vocabulary.

Lemma reset_fold_none (ks : list ChannelKeys) (m : gmap string (Z * option Z)) key :
  m !! key = None ->
  fold_left (fun m k => delete (dayKey k) (delete (hourKey k) m)) ks m !! key = None.
Proof.
  revert m. induction ks as [|k ks IH]; intros m Hm; simpl; [exact Hm|].
  apply IH. apply lookup_delete_None. right. apply lookup_delete_None. right. exact Hm.
Qed.

Lemma reset_fold_deleted (ks : list ChannelKeys) (m : gmap string (Z * option Z)) key :
  (exists k, In k ks /\ (key = hourKey k \/ key = dayKey k)) ->
  fold_left (fun m k => delete (dayKey k) (delete (hourKey k) m)) ks m !! key = None.
Proof.
  revert m. induction ks as [|k ks IH]; intros m (k0 & Hin & Hkey); [destruct Hin|].
  simpl. destruct Hin as [->|Hin].
  - apply reset_fold_none. apply lookup_delete_None.
    destruct Hkey as [->| ->]; [right; apply lookup_delete_None|]; auto.
  - apply IH. eauto.
Qed.

Lemma reset_fold_kept (ks : list ChannelKeys) (m : gmap string (Z * option Z)) key :
  (forall k, In k ks -> key <> hourKey k /\ key <> dayKey k) ->
  fold_left (fun m k => delete (dayKey k) (delete (hourKey k) m)) ks m !! key = m !! key.
Proof.
  revert m. induction ks as [|k ks IH]; intros m Hk; simpl; [reflexivity|].
  rewrite IH by (intros k0 Hin; apply Hk; right; exact Hin).
  destruct (Hk k (or_introl eq_refl)) as [Hh Hd].
  rewrite !lookup_delete_ne by done. reflexivity.
Qed.

Lemma getChannelKeys_keys userId channel limits limits' k k' :
  getChannelKeys userId channel limits = Some k ->
  getChannelKeys userId channel limits' = Some k' ->
  hourKey k' = hourKey k /\ dayKey k' = dayKey k.
Proof.
  destruct channel; simpl; intros H H'; try discriminate;
    injection H as <-; injection H' as <-; split; reflexivity.
Qed.

Lemma mapM_getChannelKeys cfg userId chans ks k :
  mapM (fun ch => getChannelKeys userId ch (defaultLimits cfg)) chans = Some ks ->
  In k ks -> exists ch, In ch chans /\ getChannelKeys userId ch (defaultLimits cfg) = Some k.
Proof.
  revert ks. induction chans as [|c chans IH]; intros ks Hm Hin.
  - injection Hm as <-. destruct Hin.
  - cbn in Hm.
    destruct (getChannelKeys userId c (defaultLimits cfg)) as [k0|] eqn:Hk0;
      [|discriminate Hm].
    cbn in Hm.
    destruct (mapM (fun ch => getChannelKeys userId ch (defaultLimits cfg)) chans)
      as [ks0|] eqn:Hks0; [|discriminate Hm].
    cbn in Hm. injection Hm as <-.
    destruct Hin as [->|Hin].
    + exists c. split; [left; reflexivity | exact Hk0].
    + destruct (IH ks0 eq_refl Hin) as (ch & Hch & Hk). exists ch. split; [right|]; assumption.
Qed.

(** X4.  [resetLimits] rejects for the websocket channel and when the store
    fails.  Otherwise it succeeds; the counters of the channels it names
    (all three when none is named) read as missing, so that a check with
    positive caps is allowed with the full budget remaining and, after a
    reset of all channels, [getUsage] reports zero everywhere; and the
    answers for other users, and for the channels not named, are
    unchanged. *)
Theorem resetLimits_restores_budget cfg userId channel s :
  (up s = false \/ channel = Some websocket -> resetLimits cfg userId channel s = None)
  /\ (up s = true -> channel <> Some websocket ->
      exists s',
        resetLimits cfg userId channel s = Some s'
        /\ (forall now ch userLimits k,
              channel = None \/ channel = Some ch ->
              getChannelKeys userId ch (merge (defaultLimits cfg) userLimits) = Some k ->
              get_count s' now (hourKey k) = None
              /\ get_count s' now (dayKey k) = None
              /\ (0 < hourLimit k -> 0 < dayLimit k ->
                  exists r,
                    checkLimit cfg now userId ch userLimits s' = Some r
                    /\ allowed r = true
                    /\ remaining r = Z.min (hourLimit k) (dayLimit k)))
        /\ (channel = None ->
            forall now,
              getUsage cfg now userId s'
              = Some [(sms, (0, 0)); (email, (0, 0)); (push, (0, 0))])
        /\ (forall now userId' ch userLimits,
              userId' <> userId \/ (channel <> None /\ channel <> Some ch) ->
              checkLimit cfg now userId' ch userLimits s'
              = checkLimit cfg now userId' ch userLimits s)).
Proof.
  split.
  - intros [Hup| ->]; unfold resetLimits.
    + destruct (mapM _ _); [rewrite Hup|]; reflexivity.
    + reflexivity.
  - intros Hup Hws. unfold resetLimits.
    set (chans := match channel with Some c => [c] | None => [sms; email; push] end).
    destruct (mapM (fun ch => getChannelKeys userId ch (defaultLimits cfg)) chans)
      as [ks|] eqn:Hks.
    2:{ exfalso. destruct channel as [[]|]; cbn in Hks; try discriminate Hks.
        apply Hws; reflexivity. }
    rewrite Hup.
    set (s' := with_counters s
                 (fold_left (fun m k => delete (dayKey k) (delete (hourKey k) m)) ks
                            (counters s))).
    assert (Hzero : forall now ch limits k,
               channel = None \/ channel = Some ch ->
               getChannelKeys userId ch limits = Some k ->
               get_count s' now (hourKey k) = None /\ get_count s' now (dayKey k) = None).
    { intros now ch limits k Hch Hk.
      assert (Hin : exists k0, In k0 ks /\ hourKey k = hourKey k0 /\ dayKey k = dayKey k0).
      { destruct (getChannelKeys_total userId ch (defaultLimits cfg)) as [k0 Hk0].
        { intros ->. discriminate Hk. }
        destruct (getChannelKeys_keys _ _ _ _ _ _ Hk0 Hk) as [Hh Hd].
        exists k0. split; [|split; assumption].
        assert (Hchans : In ch chans).
        { unfold chans. destruct Hch as [->| ->]; [|left; reflexivity].
          destruct ch; simpl; auto. discriminate Hk. }
        clear -Hks Hk0 Hchans. revert ks Hks.
        induction chans as [|c cs IH]; intros ks Hks; [destruct Hchans|].
        cbn in Hks.
        destruct (getChannelKeys userId c (defaultLimits cfg)) as [kc|] eqn:Hkc;
          [|discriminate Hks].
        cbn in Hks.
        destruct (mapM (fun ch => getChannelKeys userId ch (defaultLimits cfg)) cs)
          as [ks0|] eqn:Hks0; [|discriminate Hks].
        cbn in Hks. injection Hks as <-.
        destruct Hchans as [->|Hc].
        - left. congruence.
        - right. apply IH; auto. }
      destruct Hin as (k0 & Hin & Hh & Hd).
      unfold get_count, visible, s'. simpl counters.
      rewrite !reset_fold_deleted by (exists k0; auto). split; reflexivity. }
    exists s'. split; [reflexivity|]. split; [|split].
    + intros now ch userLimits k Hch Hk.
      destruct (Hzero now ch _ k Hch Hk) as [Hgh Hgd].
      split; [exact Hgh|]. split; [exact Hgd|].
      intros Hhl Hdl.
      rewrite (checkLimit_unfold cfg now userId ch userLimits s' k Hk Hup).
      cbv zeta. rewrite Hgh, Hgd. simpl default.
      destruct (Z.leb_spec (hourLimit k) 0); [lia|].
      destruct (Z.leb_spec (dayLimit k) 0); [lia|].
      eexists. split; [reflexivity|]. simpl. split; [reflexivity|].
      rewrite !Z.sub_0_r. reflexivity.
    + intros Hnone now. unfold getUsage. change (up s') with (up s). rewrite Hup.
      destruct (Hzero now sms (defaultLimits cfg) _ (or_introl Hnone) eq_refl) as [H1 H2].
      destruct (Hzero now email (defaultLimits cfg) _ (or_introl Hnone) eq_refl) as [H3 H4].
      destruct (Hzero now push (defaultLimits cfg) _ (or_introl Hnone) eq_refl) as [H5 H6].
      simpl in H1, H2, H3, H4, H5, H6. simpl.
      rewrite H1, H2, H3, H4, H5, H6. reflexivity.
    + intros now userId' ch userLimits Hother.
      apply checkLimit_ext; [reflexivity|].
      intros k' Hk'. unfold s'. simpl counters.
      assert (Hapart : forall k, In k ks ->
                hourKey k' <> hourKey k /\ hourKey k' <> dayKey k
                /\ dayKey k' <> hourKey k /\ dayKey k' <> dayKey k).
      { intros k Hin.
        destruct (mapM_getChannelKeys _ _ _ _ _ Hks Hin) as (c & Hc & Hkc).
        apply (channel_keys_apart _ _ _ _ _ _ _ _ Hk' Hkc).
        intros Heq. injection Heq as Hu Hcc.
        destruct Hother as [Hu'|[Hn Hs]]; [contradiction|].
        unfold chans in Hc. destruct channel as [c0|]; [|contradiction].
        destruct Hc as [->|[]]. apply Hs. congruence. }
      split; apply reset_fold_kept; intros k Hin;
        destruct (Hapart k Hin) as (H1 & H2 & H3 & H4); auto.
Qed.

End RateLimiterReset.

Section RateLimiterWitnesses.
Import Redis RateLimiter Vocabulary.

(** Witness for [consumeLimit_is_check_then_increment]: user [u1] at the
    hourly SMS cap of 10; the bare increment takes the counter to 11. *)
Lemma consumeLimit_is_check_then_increment_witness :
  exists r r' s' s2,
    checkLimit Config.default 1000 "u1" sms no_overrides Scenario.store_hour_cap = Some r
    /\ consumeLimit Config.default 1000 "u1" sms no_overrides Scenario.store_hour_cap
       = Some (r', s')
    /\ incrementCounter Config.default 1000 "u1" sms no_overrides Scenario.store_hour_cap
       = Some s2
    /\ allowed r' = allowed r
    /\ get_count s2 1000 (RATE_LIMIT_SMS_HOUR "u1") = Some 11.
Proof.
  destruct (consumeLimit_is_check_then_increment Config.default 1000 "u1" sms no_overrides
              Scenario.store_hour_cap
              (mkKeys (RATE_LIMIT_SMS_HOUR "u1") (RATE_LIMIT_SMS_DAY "u1") 10 50)
              eq_refl eq_refl)
    as (r & r' & s' & s2 & H1 & H2 & H3 & H4 & _ & _ & _ & H5 & _).
  exists r, r', s', s2. repeat split; assumption.
Defined.

(** Witness for [budget_not_replenished_while_sending]: with an hourly cap
    of 2, sends at 0, 50 and 100 minutes; the third is refused. *)
Lemma budget_not_replenished_while_sending_witness :
  List.map allowed
    (fst (consumeAll Config.default "u1" sms Scenario.limits_two_per_hour
            [0; 3000000; 6000000] (Scenario.empty_store true)))
  = [true; true; false].
Proof.
  apply (budget_not_replenished_while_sending Config.default "u1" sms
           Scenario.limits_two_per_hour
           (mkKeys (RATE_LIMIT_SMS_HOUR "u1") (RATE_LIMIT_SMS_DAY "u1") 2 50)
           0 [0; 3000000] 6000000 (Scenario.empty_store true)).
  - reflexivity.
  - reflexivity.
  - reflexivity.
  - reflexivity.
  - simpl. unfold REDIS_TTL_RATE_LIMIT_HOUR. lia.
  - reflexivity.
Defined.

(** Witness for [consumeLimit_isolated]: an SMS send of [u1] and the mail
    budget of [u1]. *)
Lemma consumeLimit_isolated_witness :
  checkLimit Config.default 2000 "u1" email no_overrides
    (snd (default (unlimited 1000, Scenario.empty_store true)
                  (consumeLimit Config.default 1000 "u1" sms no_overrides
                                (Scenario.empty_store true))))
  = checkLimit Config.default 2000 "u1" email no_overrides (Scenario.empty_store true).
Proof.
  apply (consumeLimit_isolated Config.default 1000 "u1" sms no_overrides
           (Scenario.empty_store true)
           (fst (default (unlimited 1000, Scenario.empty_store true)
                         (consumeLimit Config.default 1000 "u1" sms no_overrides
                                       (Scenario.empty_store true))))
           _ 2000 "u1" email no_overrides).
  - intros H. discriminate H.
  - vm_compute. reflexivity.
Defined.

(** Witness for [resetLimits_restores_budget]: a reset of all channels of
    [u1] at the hourly SMS cap. *)
Lemma resetLimits_restores_budget_witness :
  exists s',
    resetLimits Config.default "u1" None Scenario.store_hour_cap = Some s'
    /\ getUsage Config.default 1000 "u1" s'
       = Some [(sms, (0, 0)); (email, (0, 0)); (push, (0, 0))].
Proof.
  destruct (proj2 (resetLimits_restores_budget Config.default "u1" None
                     Scenario.store_hour_cap) eq_refl ltac:(discriminate))
    as (s' & Hs & _ & Hu & _).
  exists s'. split; [exact Hs | exact (Hu eq_refl 1000)].
Defined.

End RateLimiterWitnesses.

(** ** The deduplication service: lifecycle of an entry, keys *)

Section DedupLifecycle.
Import Redis DeduplicationService.

Lemma markSent_dedup cfg now userId eventType sourceId nid windowMs s :
  up s = true -> 0 < ttlSeconds cfg windowMs ->
  markSent cfg now userId eventType sourceId nid windowMs s
  = with_dedup s (<[generateKey userId eventType sourceId :=
                     (mkDedupData nid now, Some (now + ttlSeconds cfg windowMs * 1000))]>
                    (dedup s)).
Proof.
  intros Hup Httl. unfold markSent. rewrite Hup.
  destruct (Z.ltb_spec 0 (ttlSeconds cfg windowMs)); [reflexivity | lia].
Qed.

(** X5.  With the store answering and a positive expiry, [checkDuplicate] after
    [markSent] reports a duplicate, with the id and instant of the mark,
    exactly while the instant of the check lies before the expiry of the
    key (the window rounded up to whole seconds), and in particular during
    the whole window; it reports the mark whatever the key held before. *)
Theorem markSent_checkDuplicate cfg now userId eventType sourceId nid windowMs s now' :
  up s = true ->
  0 < ttlSeconds cfg windowMs ->
  checkDuplicate now' userId eventType sourceId
    (markSent cfg now userId eventType sourceId nid windowMs s)
  = (if now' <? now + ttlSeconds cfg windowMs * 1000
     then mkDedupResult true (Some nid) (Some now)
     else not_duplicate)
  /\ (forall window, windowMs = Some window -> now' < now + window ->
      isDuplicate (checkDuplicate now' userId eventType sourceId
                     (markSent cfg now userId eventType sourceId nid windowMs s)) = true).
Proof.
  intros Hup Httl.
  assert (Heq : checkDuplicate now' userId eventType sourceId
                  (markSent cfg now userId eventType sourceId nid windowMs s)
                = (if now' <? now + ttlSeconds cfg windowMs * 1000
                   then mkDedupResult true (Some nid) (Some now)
                   else not_duplicate)).
  { rewrite markSent_dedup by assumption.
    unfold checkDuplicate. simpl up. rewrite Hup. simpl dedup.
    rewrite visible_insert_eq. simpl live.
    destruct (now' <? now + ttlSeconds cfg windowMs * 1000); reflexivity. }
  split; [exact Heq|].
  intros window -> Hlt. rewrite Heq.
  pose proof (ttlSeconds_covers cfg window).
  destruct (Z.ltb_spec now' (now + ttlSeconds cfg (Some window) * 1000)); [reflexivity | lia].
Qed.

(** X6.  [checkAndMark] keeps the first caller: a second call with the same key
    before the expiry reports the id and instant of the first and leaves
    the store alone; a second call at or after the expiry is not a
    duplicate and registers its own id. *)
Theorem checkAndMark_first_wins_until_expiry
    cfg now1 now2 userId eventType sourceId id1 id2 windowMs s :
  up s = true ->
  0 < ttlSeconds cfg windowMs ->
  visible now1 (dedup s) (generateKey userId eventType sourceId) = None ->
  let s1 := snd (checkAndMark cfg now1 userId eventType sourceId id1 windowMs s) in
  (now2 < now1 + ttlSeconds cfg windowMs * 1000 ->
   checkAndMark cfg now2 userId eventType sourceId id2 windowMs s1
   = (mkDedupResult true (Some id1) (Some now1), s1))
  /\ (now1 + ttlSeconds cfg windowMs * 1000 <= now2 ->
      fst (checkAndMark cfg now2 userId eventType sourceId id2 windowMs s1) = not_duplicate
      /\ checkDuplicate now2 userId eventType sourceId
           (snd (checkAndMark cfg now2 userId eventType sourceId id2 windowMs s1))
         = mkDedupResult true (Some id2) (Some now2)).
Proof.
  intros Hup Httl Hfresh s1. subst s1.
  rewrite (checkAndMark_fresh cfg now1 userId eventType sourceId id1 windowMs s Hup Hfresh Httl).
  simpl snd.
  set (key := generateKey userId eventType sourceId).
  set (s1 := with_dedup s (<[key := (mkDedupData id1 now1,
                                     Some (now1 + ttlSeconds cfg windowMs * 1000))]>
                             (dedup s))).
  assert (Hup1 : up s1 = true) by exact Hup.
  split.
  - intros Hlt.
    apply (checkAndMark_present cfg now2 userId eventType sourceId id2 windowMs s1
             (mkDedupData id1 now1) (Some (now1 + ttlSeconds cfg windowMs * 1000)) Hup1).
    fold key. unfold s1. simpl dedup. rewrite visible_insert_eq. simpl live.
    destruct (Z.ltb_spec now2 (now1 + ttlSeconds cfg windowMs * 1000)); [reflexivity | lia].
  - intros Hge.
    assert (Hgone : visible now2 (dedup s1) key = None).
    { unfold s1. simpl dedup. rewrite visible_insert_eq. simpl live.
      destruct (Z.ltb_spec now2 (now1 + ttlSeconds cfg windowMs * 1000)); [lia | reflexivity]. }
    rewrite (checkAndMark_fresh cfg now2 userId eventType sourceId id2 windowMs s1
               Hup1 Hgone Httl).
    split; [reflexivity|]. simpl snd.
    unfold checkDuplicate. simpl up. rewrite Hup. fold key. simpl dedup.
    rewrite visible_insert_eq, live_after by exact Httl. reflexivity.
Qed.

(** X7.  After [clearEntry] the key is not a duplicate any more, and
    [getEntryTTL] answers -2 for the missing key (-1 when the store
    fails); the next [checkAndMark] with a positive expiry is not a
    duplicate and registers its own id. *)
Theorem clearEntry_forgets now userId eventType sourceId s :
  checkDuplicate now userId eventType sourceId (clearEntry userId eventType sourceId s)
  = not_duplicate
  /\ getEntryTTL now userId eventType sourceId (clearEntry userId eventType sourceId s)
     = (if up s then -2 else -1)
  /\ (forall cfg nid windowMs,
        up s = true -> 0 < ttlSeconds cfg windowMs ->
        let marked :=
          checkAndMark cfg now userId eventType sourceId nid windowMs
            (clearEntry userId eventType sourceId s) in
        fst marked = not_duplicate
        /\ checkDuplicate now userId eventType sourceId (snd marked)
           = mkDedupResult true (Some nid) (Some now)).
Proof.
  set (key := generateKey userId eventType sourceId).
  assert (Hgone : up s = true ->
                  visible now (dedup (clearEntry userId eventType sourceId s)) key = None).
  { intros Hup. unfold clearEntry. rewrite Hup. fold key. simpl dedup.
    unfold visible. rewrite lookup_delete_eq. reflexivity. }
  assert (Hupc : up (clearEntry userId eventType sourceId s) = up s).
  { unfold clearEntry. destruct (up s) eqn:Hup; simpl; congruence. }
  split; [|split].
  - unfold checkDuplicate. rewrite Hupc. fold key.
    destruct (up s) eqn:Hup; [|reflexivity].
    rewrite (Hgone eq_refl). reflexivity.
  - unfold getEntryTTL. rewrite Hupc. fold key.
    destruct (up s) eqn:Hup; [|reflexivity].
    unfold ttl_of. rewrite (Hgone eq_refl). reflexivity.
  - intros cfg nid windowMs Hup Httl marked. subst marked.
    assert (Hupc' : up (clearEntry userId eventType sourceId s) = true) by congruence.
    rewrite (checkAndMark_fresh cfg now userId eventType sourceId nid windowMs
               (clearEntry userId eventType sourceId s) Hupc' (Hgone Hup) Httl).
    split; [reflexivity|]. simpl snd.
    unfold checkDuplicate. simpl up. rewrite Hupc'. fold key. simpl dedup.
    rewrite visible_insert_eq, live_after by exact Httl. reflexivity.
Qed.

End DedupLifecycle.

Section DedupKeys.
Import Redis DeduplicationService NotificationRouter Vocabulary.

Lemma app_colon_inj a a' b b' :
  colonFree a = true -> colonFree a' = true ->
  a +:+ ":" +:+ b = a' +:+ ":" +:+ b' -> a = a' /\ b = b'.
Proof.
  revert a'. induction a as [|c a IH]; intros [|c' a'] Ha Ha' H.
  - injection H as H. split; [reflexivity | exact H].
  - exfalso. injection H as Hc _. subst c'. simpl in Ha'. discriminate Ha'.
  - exfalso. injection H as Hc _. subst c. simpl in Ha. discriminate Ha.
  - injection H as Hc H. subst c'.
    simpl in Ha, Ha'. apply andb_prop in Ha as [_ Ha]. apply andb_prop in Ha' as [_ Ha'].
    destruct (IH a' Ha Ha' H) as [-> ->]. split; reflexivity.
Qed.

Lemma eventTypeName_colonFree e : colonFree (eventTypeName e) = true.
Proof. destruct e; reflexivity. Qed.

Lemma eventTypeName_inj e e' : eventTypeName e = eventTypeName e' -> e = e'.
Proof. destruct e, e'; intros H; try reflexivity; discriminate H. Qed.

(** X8.  For user ids without a colon, two dedup keys are equal exactly when
    the user, the event kind and the source text agree, where a missing
    source id counts as the text [none]: a request without source id and a
    request whose source id is the word "none" share their key. *)
Theorem generateKey_collisions userId eventType sourceId userId' eventType' sourceId' :
  colonFree userId = true ->
  colonFree userId' = true ->
  generateKey userId eventType sourceId = generateKey userId' eventType' sourceId'
  <-> userId = userId' /\ eventType = eventType'
      /\ default "none" sourceId = default "none" sourceId'.
Proof.
  intros Hu Hu'. split.
  - intros H. unfold generateKey, DEDUP in H. injection H as H.
    apply (app_colon_inj userId userId') in H as [-> H]; [|assumption..].
    apply (app_colon_inj (eventTypeName eventType) (eventTypeName eventType')) in H
      as [He Hs]; [|apply eventTypeName_colonFree..].
    apply eventTypeName_inj in He. auto.
  - intros (-> & -> & Hs). unfold generateKey. rewrite Hs. reflexivity.
Qed.

(** X9.  A kind whose dedup window is 0 is never registered: [route] leaves the
    dedup entries as they were, and, unless the key is already present,
    runs its steps after the dedup gate, so that two identical requests of
    such a kind both go through. *)
Theorem zero_window_never_registers E cfg now request w :
  dedupWindowMs (EVENT_TYPE_CONFIGS (q_eventType request)) = 0 ->
  dedup (redis (world_of (route E cfg now request w))) = dedup (redis w)
  /\ (visible now (dedup (redis w)) (dedupKey request) = None ->
      route E cfg now request w
      = route_after_dedup E cfg now request (emptyResult E request w) (draw_uuid w)).
Proof.
  intros Hwin.
  assert (Hmark : visible now (dedup (redis w)) (dedupKey request) = None ->
                  DeduplicationService.checkAndMark cfg now (q_userId request)
                    (q_eventType request) (q_eventSourceId request) (uuidv4 E (uuid_next w))
                    (Some (dedupWindowMs (EVENT_TYPE_CONFIGS (q_eventType request))))
                    (redis w)
                  = (not_duplicate, redis w)).
  { intros Hv. unfold DeduplicationService.checkAndMark, checkAndMarkScript.
    destruct (up (redis w)); [|reflexivity].
    unfold dedupKey in Hv. rewrite Hv, Hwin. reflexivity. }
  assert (Hroute : visible now (dedup (redis w)) (dedupKey request) = None ->
                   route E cfg now request w
                   = route_after_dedup E cfg now request (emptyResult E request w)
                                       (draw_uuid w)).
  { intros Hv. unfold route. simpl redis. rewrite (Hmark Hv). reflexivity. }
  split; [|exact Hroute].
  destruct (visible now (dedup (redis w)) (dedupKey request)) as [[d e]|] eqn:Hv.
  - destruct (up (redis w)) eqn:Hup.
    + rewrite (route_duplicate E cfg now request w d e Hup Hv). reflexivity.
    + assert (Hdown : route E cfg now request w
                      = route_after_dedup E cfg now request (emptyResult E request w)
                                          (draw_uuid w)).
      { unfold route. simpl redis.
        rewrite checkAndMark_store_down by exact Hup. reflexivity. }
      rewrite Hdown.
      destruct (route_after_dedup_frame E cfg now request (emptyResult E request w)
                  (draw_uuid w)) as (_ & Hd & _).
      exact Hd.
  - rewrite (Hroute eq_refl).
    destruct (route_after_dedup_frame E cfg now request (emptyResult E request w)
                (draw_uuid w)) as (_ & Hd & _).
    exact Hd.
Qed.

End DedupKeys.

Section DedupWitnesses.
Import Redis DeduplicationService NotificationRouter Vocabulary.

(** Witness for [markSent_checkDuplicate]: a mark at 1 s read at 30 s with a
    window of 60 s. *)
Lemma markSent_checkDuplicate_witness :
  checkDuplicate 30000 "u1" login_failed (Some "s-1")
    (markSent Config.default 1000 "u1" login_failed (Some "s-1") "n-1" (Some 60000)
              (Scenario.empty_store true))
  = mkDedupResult true (Some "n-1") (Some 1000).
Proof.
  exact (proj1 (markSent_checkDuplicate Config.default 1000 "u1" login_failed (Some "s-1")
                  "n-1" (Some 60000) (Scenario.empty_store true) 30000 eq_refl eq_refl)).
Defined.

(** Witness for [checkAndMark_first_wins_until_expiry]: a second call 29 s
    and 60 s after the first, with a window of 60 s. *)
Lemma checkAndMark_first_wins_until_expiry_witness :
  fst (checkAndMark Config.default 30000 "u1" login_failed (Some "s-1") "n-2" (Some 60000)
         (snd (checkAndMark Config.default 1000 "u1" login_failed (Some "s-1") "n-1"
                            (Some 60000) (Scenario.empty_store true))))
  = mkDedupResult true (Some "n-1") (Some 1000)
  /\ fst (checkAndMark Config.default 61000 "u1" login_failed (Some "s-1") "n-2" (Some 60000)
            (snd (checkAndMark Config.default 1000 "u1" login_failed (Some "s-1") "n-1"
                               (Some 60000) (Scenario.empty_store true))))
     = not_duplicate.
Proof.
  split.
  - rewrite (proj1 (checkAndMark_first_wins_until_expiry Config.default 1000 30000 "u1"
                      login_failed (Some "s-1") "n-1" "n-2" (Some 60000)
                      (Scenario.empty_store true) eq_refl eq_refl eq_refl) eq_refl).
    reflexivity.
  - exact (proj1 (proj2 (checkAndMark_first_wins_until_expiry Config.default 1000 61000 "u1"
                           login_failed (Some "s-1") "n-1" "n-2" (Some 60000)
                           (Scenario.empty_store true) eq_refl eq_refl eq_refl)
                    ltac:(vm_compute; discriminate))).
Defined.

(** Witness for [generateKey_collisions]: the missing source id and the
    source id "none" collide; two users do not. *)
Lemma generateKey_collisions_witness :
  generateKey "u1" login_failed None = generateKey "u1" login_failed (Some "none")
  /\ generateKey "u1" login_failed (Some "s-1") <> generateKey "u2" login_failed (Some "s-1").
Proof.
  split.
  - apply (proj2 (generateKey_collisions "u1" login_failed None "u1" login_failed
                    (Some "none") eq_refl eq_refl)).
    repeat split.
  - intros H.
    apply (proj1 (generateKey_collisions "u1" login_failed (Some "s-1") "u2" login_failed
                    (Some "s-1") eq_refl eq_refl)) in H.
    destruct H as [H _]. discriminate H.
Defined.

(** Witness for [zero_window_never_registers]: a fraud alert routed in an
    empty world. *)
Lemma zero_window_never_registers_witness :
  dedup (redis (world_of (route Scenario.env Config.default 1000 Scenario.request_fraud
                                Scenario.world_empty)))
  = ∅.
Proof.
  exact (proj1 (zero_window_never_registers Scenario.env Config.default 1000
                  Scenario.request_fraud Scenario.world_empty eq_refl)).
Defined.

End DedupWitnesses.

(** ** Quiet hours *)

Section QuietHoursWindow.
Import UserPreferences Vocabulary.

Lemma pad2_compare_table :
  forallb (fun a =>
             forallb (fun c =>
                        bool_decide (String.compare (pad2 (Z.of_nat a)) (pad2 (Z.of_nat c))
                                     = Z.compare (Z.of_nat a) (Z.of_nat c)))
                     (seq 0 100))
          (seq 0 100) = true.
Proof. vm_compute. reflexivity. Qed.

Lemma pad2_compare a c :
  0 <= a < 100 -> 0 <= c < 100 ->
  String.compare (pad2 a) (pad2 c) = Z.compare a c.
Proof.
  intros Ha Hc. pose proof pad2_compare_table as H.
  rewrite forallb_forall in H.
  specialize (H (Z.to_nat a)). rewrite in_seq in H.
  specialize (H ltac:(lia)). rewrite forallb_forall in H.
  specialize (H (Z.to_nat c)). rewrite in_seq in H.
  specialize (H ltac:(lia)). apply bool_decide_eq_true in H.
  rewrite !Z2Nat.id in H by lia. exact H.
Qed.

Lemma compare_app_same_length (x x' y y' : string) :
  String.length x = String.length x' ->
  String.compare (x +:+ y) (x' +:+ y')
  = match String.compare x x' with
    | Eq => String.compare y y'
    | r => r
    end.
Proof.
  revert x'. induction x as [|c x IH]; intros [|c' x'] Hlen; try discriminate Hlen.
  - reflexivity.
  - change (match Ascii.compare c c' with
            | Eq => String.compare (x +:+ y) (x' +:+ y')
            | r => r
            end
            = match (match Ascii.compare c c' with
                     | Eq => String.compare x x'
                     | r => r
                     end) with
              | Eq => String.compare y y'
              | r => r
              end).
    rewrite IH by (simpl in Hlen; lia).
    destruct (Ascii.compare c c'); reflexivity.
Qed.

Lemma hhmm_ltb h m h' m' :
  0 <= h < 100 -> 0 <= m < 60 -> 0 <= h' < 100 -> 0 <= m' < 60 ->
  String.ltb (hhmm h m) (hhmm h' m') = (h * 60 + m <? h' * 60 + m').
Proof.
  intros Hh Hm Hh' Hm'. unfold String.ltb, hhmm.
  rewrite (compare_app_same_length (pad2 h) (pad2 h')) by reflexivity.
  rewrite pad2_compare by lia.
  rewrite (compare_app_same_length ":" ":") by reflexivity.
  change (String.compare ":" ":") with Eq. cbv iota.
  rewrite (pad2_compare m m') by lia.
  destruct (Z.compare_spec h h'); destruct (Z.compare_spec m m');
    destruct (Z.ltb_spec (h * 60 + m) (h' * 60 + m')); try reflexivity; lia.
Qed.

(** X10.  With quiet hours switched on and start and end written as two-digit
    [HH:MM] texts, the string comparisons of [isInQuietHours] decide the
    window on minutes of the day of the process clock: from start
    (included) to end (excluded), wrapping over midnight when the end is
    before the start; a window whose start and end coincide is never
    quiet. *)
Theorem isInQuietHours_window E p now sh sm eh em :
  0 <= sh < 100 -> 0 <= sm < 60 -> 0 <= eh < 100 -> 0 <= em < 60 ->
  qh_enabled (quietHours p) = true ->
  qh_start (quietHours p) = hhmm sh sm ->
  qh_end (quietHours p) = hhmm eh em ->
  let minutes := now / 60000 + localOffsetMinutes E now in
  let current := (minutes / 60) mod 24 * 60 + minutes mod 60 in
  let start := sh * 60 + sm in
  let end_ := eh * 60 + em in
  isInQuietHours E p now
  = (if end_ <? start
     then (start <=? current) || (current <? end_)
     else (start <=? current) && (current <? end_))
  /\ (start = end_ -> isInQuietHours E p now = false).
Proof.
  intros Hsh Hsm Heh Hem Hen Hs He minutes current start end_.
  assert (Hcur : toTimeStringHHMM E now = hhmm ((minutes / 60) mod 24) (minutes mod 60))
    by reflexivity.
  assert (Hh : 0 <= (minutes / 60) mod 24 < 24) by (apply Z.mod_pos_bound; lia).
  assert (Hm : 0 <= minutes mod 60 < 60) by (apply Z.mod_pos_bound; lia).
  assert (Heq : isInQuietHours E p now
                = (if end_ <? start
                   then (start <=? current) || (current <? end_)
                   else (start <=? current) && (current <? end_))).
  { unfold isInQuietHours. rewrite Hen, Hs, He, Hcur.
    change (negb true) with false. cbv beta iota zeta.
    rewrite (hhmm_ltb eh em sh sm) by lia.
    rewrite (hhmm_ltb ((minutes / 60) mod 24) (minutes mod 60) sh sm) by lia.
    rewrite (hhmm_ltb ((minutes / 60) mod 24) (minutes mod 60) eh em) by lia.
    fold start end_ current.
    rewrite <- (Z.leb_antisym current start). reflexivity. }
  split; [exact Heq|].
  intros Hse. rewrite Heq, Hse.
  destruct (Z.ltb_spec end_ end_); [lia|].
  destruct (Z.leb_spec end_ current); destruct (Z.ltb_spec current end_);
    try reflexivity; lia.
Qed.

End QuietHoursWindow.

Section QuietHoursWitness.
Import UserPreferences Vocabulary.

(** Witness for [isInQuietHours_window]: quiet hours from 22:00 to 07:00
    read at 23:30 and at 13:30. *)
Lemma isInQuietHours_window_witness :
  isInQuietHours Scenario.env (Scenario.prefs_quiet "u1" "America/New_York" false)
                 Scenario.night = true
  /\ isInQuietHours Scenario.env (Scenario.prefs_quiet "u1" "America/New_York" false)
                    Scenario.afternoon = false.
Proof.
  split.
  - rewrite (proj1 (isInQuietHours_window Scenario.env
                      (Scenario.prefs_quiet "u1" "America/New_York" false) Scenario.night
                      22 0 7 0 ltac:(lia) ltac:(lia) ltac:(lia) ltac:(lia)
                      eq_refl eq_refl eq_refl)).
    reflexivity.
  - rewrite (proj1 (isInQuietHours_window Scenario.env
                      (Scenario.prefs_quiet "u1" "America/New_York" false) Scenario.afternoon
                      22 0 7 0 ltac:(lia) ltac:(lia) ltac:(lia) ltac:(lia)
                      eq_refl eq_refl eq_refl)).
    reflexivity.
Defined.

End QuietHoursWitness.

(** ** The router: selection, provider calls, suppression, records *)

Section RouterShape.
Import Redis NotificationRouter Vocabulary.

(** The three ways a channel attempt ends: refused by the budget, skipped
    for a missing contact, or handed to the provider. *)
Lemma sendToChannel_shape E cfg now channel payload preferences contactInfo result w :
  exists rl s',
    RateLimiter.consumeLimit cfg now (p_userId payload) channel (limitsOf preferences)
                             (redis w) = Some (rl, s')
    /\ ((exists reason,
            sendToChannel E cfg now channel payload preferences contactInfo result w
            = Ok (push_skip result channel reason)
                 (storeNotification now payload channel rate_limited None None
                                    (with_redis w s')))
        \/ (exists reason,
               sendToChannel E cfg now channel payload preferences contactInfo result w
               = Ok (push_skip result channel reason) (with_redis w s'))
        \/ (exists d,
               sendToChannel E cfg now channel payload preferences contactInfo result w
               = Ok (push_result result d)
                    (storeNotification now payload channel (r_status d)
                       (r_providerMessageId d) (r_error d)
                       (with_call (with_redis w s')
                                  (ChannelSend channel (p_notificationId payload)))))).
Proof.
  destruct (consumeLimit_total cfg now (p_userId payload) channel (limitsOf preferences)
              (redis w)) as [[rl s'] Hc].
  exists rl, s'. split; [exact Hc|].
  unfold sendToChannel. rewrite Hc.
  destruct (RateLimiter.allowed rl); simpl.
  - unfold deliver.
    destruct (attempt E now channel payload contactInfo) as [reason|[d|msg]].
    + right. left. eauto.
    + right. right. exists d. reflexivity.
    + right. right. exists (mkDeliveryResult channel failed None None (Some msg)).
      reflexivity.
  - left. eauto.
Qed.

Lemma route_cases E cfg now request w :
  let w1 :=
    with_redis (draw_uuid w)
      (snd (DeduplicationService.checkAndMark cfg now (q_userId request)
              (q_eventType request) (q_eventSourceId request) (uuidv4 E (uuid_next w))
              (Some (dedupWindowMs (EVENT_TYPE_CONFIGS (q_eventType request))))
              (redis w))) in
  route E cfg now request w
  = Ok (push_skip (emptyResult E request w) websocket "Duplicate notification") w1
  \/ route E cfg now request w
     = route_after_dedup E cfg now request (emptyResult E request w) w1.
Proof.
  unfold route. simpl redis.
  destruct (DeduplicationService.checkAndMark _ _ _ _ _ _ _ _) as [dr s'].
  simpl. destruct (DeduplicationService.isDuplicate dr); [left | right]; reflexivity.
Qed.

Lemma route_after_dedup_cases E cfg now request result w :
  route_after_dedup E cfg now request result w = Throw "preferences store unavailable" w
  \/ exists w',
      route_after_dedup E cfg now request result w
      = route_with_preferences E cfg now request result
          (default (UserPreferences.schemaDefault (q_userId request))
                   (preferences w !! q_userId request)) w'
      /\ mongo_up w = true
      /\ redis w' = redis w /\ provider_calls w' = provider_calls w
      /\ notification_events w' = notification_events w
      /\ dead_letter_queue w' = dead_letter_queue w
      /\ uuid_next w' = uuid_next w.
Proof.
  unfold route_after_dedup, findOrCreateByUserId.
  destruct (mongo_up w) eqn:Hm; [right | left; reflexivity].
  destruct (preferences w !! q_userId request) as [p|]; simpl.
  - exists w. repeat split; reflexivity.
  - eexists. split; [reflexivity|]. repeat split; reflexivity.
Qed.

End RouterShape.

Section RouterSelection.
Import Redis NotificationRouter Vocabulary.

Lemma getEnabledChannelsForEvent_enabled p e d c :
  In c (UserPreferences.getEnabledChannelsForEvent p e d) ->
  UserPreferences.isChannelEnabled p c = true.
Proof.
  unfold UserPreferences.getEnabledChannelsForEvent.
  destruct (UserPreferences.dnc_enabled (UserPreferences.doNotContact p)); [intros []|].
  destruct (UserPreferences.notificationTypes p e) as [tp|].
  - destruct (UserPreferences.nt_enabled tp); simpl; [|intros []].
    intros H. apply filter_In in H. tauto.
  - intros H. apply filter_In in H. tauto.
Qed.

Lemma selectChannels_enabled p e d prio c :
  In c (selectChannels p e d prio) -> UserPreferences.isChannelEnabled p c = true.
Proof.
  unfold selectChannels.
  destruct (bool_decide (prio = critical) && bool_decide (_ = [])).
  - destruct (UserPreferences.isChannelEnabled p websocket) eqn:Hws.
    + intros [<-|[]]. exact Hws.
    + apply getEnabledChannelsForEvent_enabled.
  - apply getEnabledChannelsForEvent_enabled.
Qed.

(** X11.  [selectChannels] returns enabled channels only; nothing under
    do-not-contact; at critical priority at least one channel whenever the
    websocket channel is enabled (also for a kind the user switched off);
    and, below critical priority, the channels of
    [getEnabledChannelsForEvent]. *)
Theorem selectChannels_only_enabled p e d prio :
  (forall c, In c (selectChannels p e d prio) ->
             UserPreferences.isChannelEnabled p c = true)
  /\ (UserPreferences.dnc_enabled (UserPreferences.doNotContact p) = true ->
      selectChannels p e d prio = [])
  /\ (prio = critical ->
      UserPreferences.isChannelEnabled p websocket = true ->
      selectChannels p e d prio <> [])
  /\ (prio <> critical ->
      selectChannels p e d prio = UserPreferences.getEnabledChannelsForEvent p e d).
Proof.
  unfold selectChannels.
  set (chs := UserPreferences.getEnabledChannelsForEvent p e d).
  split; [|split; [|split]].
  - intros c. apply (selectChannels_enabled p e d prio c).
  - intros Hdnc.
    assert (Hchs : chs = []).
    { unfold chs, UserPreferences.getEnabledChannelsForEvent. rewrite Hdnc. reflexivity. }
    assert (Hws : UserPreferences.isChannelEnabled p websocket = false).
    { unfold UserPreferences.isChannelEnabled. rewrite Hdnc. reflexivity. }
    rewrite Hws, Hchs. destruct (_ && _); reflexivity.
  - intros -> Hws. rewrite Hws.
    destruct (bool_decide (chs = [])) eqn:Hb; simpl.
    + discriminate.
    + apply bool_decide_eq_false in Hb. exact Hb.
  - intros Hp. rewrite (bool_decide_eq_false_2 _ Hp). reflexivity.
Qed.

End RouterSelection.

Section RouterProviderCalls.
Import Redis NotificationRouter Vocabulary.

(** The handlers called by the channel loop: selected channels, each at
    most once, in the order the attempts reach their handlers. *)
Lemma sendAll_calls E cfg now channels payload preferences contactInfo :
  forall result w,
  exists chs,
    provider_calls (world_of (sendAll E cfg now channels payload preferences contactInfo
                                      result w))
    = (provider_calls w
       ++ List.map (fun ch => ChannelSend ch (p_notificationId payload)) chs)%list
    /\ chs ⊆+ channels.
Proof.
  intros result w. rewrite sendAll_settleAll. simpl.
  destruct (settleAll_ledger E cfg now channels payload preferences contactInfo result w)
    as (called & rs & sk & Hc & _ & _ & Hperm & _).
  exists called. split; [exact Hc|].
  rewrite <- Hperm. apply submseteq_inserts_r. reflexivity.
Qed.

Lemma route_with_preferences_calls E cfg now request result prefs w :
  exists chs,
    provider_calls (world_of (route_with_preferences E cfg now request result prefs w))
    = (provider_calls w
       ++ List.map (fun ch => ChannelSend ch (notificationId result)) chs)%list
    /\ chs ⊆+ selectChannels prefs (q_eventType request)
                (defaultChannels (EVENT_TYPE_CONFIGS (q_eventType request)))
                (default (priority (EVENT_TYPE_CONFIGS (q_eventType request)))
                         (q_priority request)).
Proof.
  unfold route_with_preferences.
  destruct (UserPreferences.dnc_enabled (UserPreferences.doNotContact prefs)).
  { exists []. simpl. rewrite app_nil_r. split; [reflexivity | apply submseteq_nil_l]. }
  destruct (UserPreferences.isInQuietHours E prefs now && negb _).
  { exists []. destruct (_ && _); simpl; rewrite app_nil_r;
      (split; [reflexivity | apply submseteq_nil_l]). }
  match goal with
  | |- context [sendAll ?a ?b ?c ?d ?e ?f ?g ?h ?i] =>
      destruct (sendAll_calls a b c d e f g h i) as (chs & Hc & Hsub)
  end.
  exists chs. split; [exact Hc | exact Hsub].
Qed.

(** X12.  The provider calls of a [route] call, whether it completes or
    rejects, are calls for the id of this notification, on channels of the
    selection made from the preferences of the user (the schema defaults
    for a user without document), each selected channel called at most
    once and each channel called enabled by the user.  This holds for
    every order in which the operations awaited by the attempts complete;
    the order of the calls is the order in which the attempts reach their
    handlers, which need not be the order of the selection. *)
Theorem route_calls_only_enabled_channels E cfg now request w :
  exists chs,
    provider_calls (world_of (route E cfg now request w))
    = (provider_calls w
       ++ List.map (fun ch => ChannelSend ch (uuidv4 E (uuid_next w))) chs)%list
    /\ chs ⊆+ selectChannels
                (default (UserPreferences.schemaDefault (q_userId request))
                         (preferences w !! q_userId request))
                (q_eventType request)
                (defaultChannels (EVENT_TYPE_CONFIGS (q_eventType request)))
                (default (priority (EVENT_TYPE_CONFIGS (q_eventType request)))
                         (q_priority request))
    /\ Forall (fun ch =>
                 UserPreferences.isChannelEnabled
                   (default (UserPreferences.schemaDefault (q_userId request))
                            (preferences w !! q_userId request)) ch = true) chs.
Proof.
  set (prefs := default (UserPreferences.schemaDefault (q_userId request))
                        (preferences w !! q_userId request)).
  assert (Hgoal : exists chs,
             provider_calls (world_of (route E cfg now request w))
             = (provider_calls w
                ++ List.map (fun ch => ChannelSend ch (uuidv4 E (uuid_next w))) chs)%list
             /\ chs ⊆+ selectChannels prefs (q_eventType request)
                         (defaultChannels (EVENT_TYPE_CONFIGS (q_eventType request)))
                         (default (priority (EVENT_TYPE_CONFIGS (q_eventType request)))
                                  (q_priority request))).
  { destruct (route_cases E cfg now request w) as [H|H]; rewrite H.
    - exists []. simpl. rewrite app_nil_r. split; [reflexivity | apply submseteq_nil_l].
    - match goal with
      | |- context [route_after_dedup ?a ?b ?c ?d ?e ?f] =>
          destruct (route_after_dedup_cases a b c d e f)
            as [Ht|(w2 & Hr & _ & _ & Hp & _)]
      end.
      + rewrite Ht. exists []. simpl. rewrite app_nil_r.
        split; [reflexivity | apply submseteq_nil_l].
      + rewrite Hr.
        match goal with
        | |- context [route_with_preferences ?a ?b ?c ?d ?e ?f ?g] =>
            destruct (route_with_preferences_calls a b c d e f g) as (chs & Hc & Hsub)
        end.
        exists chs. rewrite Hc, Hp. split; [reflexivity | exact Hsub]. }
  destruct Hgoal as (chs & Hc & Hsub).
  exists chs. split; [exact Hc|]. split; [exact Hsub|].
  apply Forall_forall. intros ch Hin.
  eapply (selectChannels_enabled prefs).
  apply (proj1 (list_elem_of_In _ _)).
  eapply elem_of_submseteq; eassumption.
Qed.

(** The order of the calls is not the order of the selection: a fraud alert
    selects sms, websocket and push in this order, and the websocket
    gateway is called first, its attempt having no budget to wait for. *)
Lemma route_calls_websocket_first :
  selectChannels Scenario.prefs_reachable fraud_detected
    (defaultChannels (EVENT_TYPE_CONFIGS fraud_detected)) critical
  = [sms; websocket; push]
  /\ provider_calls
       (world_of (route Scenario.env Config.default 1000 Scenario.request_fraud
                        Scenario.world_reachable))
     = [ChannelSend websocket (Scenario.uuid 0); ChannelSend sms (Scenario.uuid 0);
        ChannelSend push (Scenario.uuid 0)].
Proof. split; vm_compute; reflexivity. Qed.

End RouterProviderCalls.

Section RouterSuppression.
Import Redis NotificationRouter Vocabulary.

(** X13.  Under do-not-contact a [route] call, at any priority, returns the
    single websocket skip entry (for a duplicate or for the opt-out) and no
    channel outcome; it calls no provider, writes no record, consumes no
    budget and leaves digest queues and preferences as they were. *)
Theorem route_do_not_contact E cfg now request w prefs :
  mongo_up w = true ->
  preferences w !! q_userId request = Some prefs ->
  UserPreferences.dnc_enabled (UserPreferences.doNotContact prefs) = true ->
  exists reason w',
    route E cfg now request w
    = Ok (push_skip (emptyResult E request w) websocket reason) w'
    /\ (reason = "Duplicate notification"
        \/ reason = "User has opted out of notifications")
    /\ provider_calls w' = provider_calls w
    /\ notification_events w' = notification_events w
    /\ counters (redis w') = counters (redis w)
    /\ digests (redis w') = digests (redis w)
    /\ preferences w' = preferences w.
Proof.
  intros Hm Hp Hdnc.
  pose proof (checkAndMark_frame cfg now (q_userId request) (q_eventType request)
                (q_eventSourceId request) (uuidv4 E (uuid_next w))
                (Some (dedupWindowMs (EVENT_TYPE_CONFIGS (q_eventType request))))
                (redis w)) as (_ & Hcnt & Hdig).
  destruct (route_cases E cfg now request w) as [H|H]; rewrite H.
  - do 2 eexists. split; [reflexivity|]. split; [left; reflexivity|].
    repeat split; assumption.
  - unfold route_after_dedup, findOrCreateByUserId. simpl mongo_up. rewrite Hm.
    simpl preferences. rewrite Hp. simpl.
    unfold route_with_preferences. rewrite Hdnc.
    do 2 eexists. split; [reflexivity|]. split; [right; reflexivity|].
    repeat split; assumption.
Qed.

(** A resumption touches neither flag nor the id of the result. *)
Lemma resume_flags E cfg now payload prefs contactInfo channel p result w :
  let r := snd (fst (resume E cfg now payload prefs contactInfo channel p result w)) in
  queued r = queued result /\ digestQueued r = digestQueued result
  /\ notificationId r = notificationId result.
Proof.
  destruct p as [|o|st pm err| |m];
    [| destruct o; simpl; auto | simpl; auto ..].
  destruct (resume_limit E cfg now payload prefs contactInfo channel result w)
    as (rl & s' & _ & [(_ & H)|[(reason & _ & _ & H)|(o & _ & _ & H)]]);
    cbv zeta; rewrite H; simpl; auto.
Qed.

Lemma sendAll_flags E cfg now channels payload prefs contactInfo :
  forall result w r w',
    sendAll E cfg now channels payload prefs contactInfo result w = Ok r w' ->
    queued r = queued result /\ digestQueued r = digestQueued result
    /\ notificationId r = notificationId result.
Proof.
  intros result w r w' H. rewrite sendAll_settleAll in H. injection H as <- _.
  apply (settleAll_keeps E cfg now payload prefs contactInfo
           (fun r _ => queued r = queued result /\ digestQueued r = digestQueued result
                       /\ notificationId r = notificationId result)).
  - intros c p r1 w1 (Hq & Hd & Hn).
    destruct (resume_flags E cfg now payload prefs contactInfo c p r1 w1)
      as (Hq' & Hd' & Hn').
    repeat split; congruence.
  - repeat split; reflexivity.
Qed.

(** X14.  A result never carries both flags [queued] and [digestQueued].  When
    it carries one, nothing was attempted: no channel outcome, no skip
    entry, no provider call, no record, no budget consumed, and no digest
    queue written; and the priority in force was not critical and the kind
    does not bypass quiet hours. *)
Theorem route_queued_sends_nothing E cfg now request w r w' :
  route E cfg now request w = Ok r w' ->
  queued r && digestQueued r = false
  /\ (queued r = true \/ digestQueued r = true ->
      results r = [] /\ skippedChannels r = []
      /\ provider_calls w' = provider_calls w
      /\ notification_events w' = notification_events w
      /\ counters (redis w') = counters (redis w)
      /\ digests (redis w') = digests (redis w)
      /\ default (priority (EVENT_TYPE_CONFIGS (q_eventType request))) (q_priority request)
         <> critical
      /\ bypassQuietHours (EVENT_TYPE_CONFIGS (q_eventType request)) = false).
Proof.
  intros Hr.
  pose proof (checkAndMark_frame cfg now (q_userId request) (q_eventType request)
                (q_eventSourceId request) (uuidv4 E (uuid_next w))
                (Some (dedupWindowMs (EVENT_TYPE_CONFIGS (q_eventType request))))
                (redis w)) as (_ & Hcnt & Hdig).
  destruct (route_cases E cfg now request w) as [H|H]; rewrite H in Hr.
  { injection Hr as <- _. split; [reflexivity|]. intros [Hq|Hq]; discriminate Hq. }
  match type of Hr with
  | route_after_dedup ?a ?b ?c ?d ?e ?f = _ =>
      destruct (route_after_dedup_cases a b c d e f)
        as [Ht|(w2 & Hrw & _ & Hred & Hp & Hev & _)]
  end.
  { rewrite Ht in Hr. discriminate Hr. }
  rewrite Hrw in Hr. unfold route_with_preferences in Hr.
  destruct (UserPreferences.dnc_enabled _).
  { injection Hr as <- _. split; [reflexivity|]. intros [Hq|Hq]; discriminate Hq. }
  destruct (UserPreferences.isInQuietHours E _ now && negb _) eqn:Hquiet.
  - apply andb_prop in Hquiet as [_ Hby]. apply negb_true_iff in Hby.
    apply orb_false_elim in Hby as [Hby Hcrit]. apply orb_false_elim in Hby as [Hflag _].
    apply bool_decide_eq_false in Hcrit.
    assert (Hw : provider_calls w' = provider_calls w
                 /\ notification_events w' = notification_events w
                 /\ counters (redis w') = counters (redis w)
                 /\ digests (redis w') = digests (redis w)).
    { destruct (_ && _); injection Hr as _ <-; rewrite Hred; repeat split; assumption. }
    destruct (_ && _); injection Hr as <- _; (split; [reflexivity|]);
      intros _; simpl; tauto.
  - apply sendAll_flags in Hr as (Hq & Hd & _). simpl in Hq, Hd.
    rewrite Hq, Hd. split; [reflexivity|]. intros [Hx|Hx]; discriminate Hx.
Qed.

End RouterSuppression.

Section RouterOutcomes.
Import Redis NotificationRouter Vocabulary.
Local Open Scope nat_scope.

(** X15.  The channel loop completes and adds one entry per selected channel,
    either a channel outcome or a skip entry for that channel, to what the
    result held. *)
Theorem sendAll_one_outcome_per_channel E cfg now channels payload prefs contactInfo :
  forall result w,
  exists r w' rs sk,
    sendAll E cfg now channels payload prefs contactInfo result w = Ok r w'
    /\ results r = (results result ++ rs)%list
    /\ skippedChannels r = (skippedChannels result ++ sk)%list
    /\ List.length rs + List.length sk = List.length channels
    /\ Forall (fun entry => In (fst entry) channels) sk.
Proof.
  intros result w. rewrite sendAll_settleAll.
  destruct (settleAll_ledger E cfg now channels payload prefs contactInfo result w)
    as (called & rs & sk & _ & Hr & Hs & Hperm & Hlen & _).
  do 2 eexists. exists rs, sk. split; [reflexivity|].
  split; [exact Hr|]. split; [exact Hs|]. split.
  - rewrite <- (Permutation_length Hperm), length_app, length_map. lia.
  - apply Forall_forall. intros entry Hin.
    apply (Permutation_in (l := (called ++ List.map fst sk)%list)); [exact Hperm|].
    apply in_or_app. right. apply in_map. apply list_elem_of_In. exact Hin.
Qed.

End RouterOutcomes.

Section RouterRecords.
Import Redis NotificationRouter Vocabulary.

Lemma create_present row tbl :
  In (NotificationEvent.notificationId row)
     (List.map NotificationEvent.notificationId tbl) ->
  NotificationEvent.create row tbl = None.
Proof.
  intros Hin. unfold NotificationEvent.create.
  assert (Hex : existsb (NotificationEvent.conflicts row) tbl = true).
  { apply existsb_exists. apply in_map_iff in Hin as (x & Hx & Hin).
    exists x. split; [exact Hin|]. unfold NotificationEvent.conflicts.
    rewrite (bool_decide_eq_true_2 _ Hx). reflexivity. }
  rewrite Hex. reflexivity.
Qed.

Lemma create_fresh row tbl tbl' :
  NotificationEvent.create row tbl = Some tbl' ->
  tbl' = (tbl ++ [row])%list
  /\ ~ In (NotificationEvent.notificationId row)
          (List.map NotificationEvent.notificationId tbl).
Proof.
  intros H. split.
  - unfold NotificationEvent.create in H. destruct (existsb _ _); [discriminate H|].
    injection H as <-. reflexivity.
  - intros Hin. rewrite (create_present _ _ Hin) in H. discriminate H.
Qed.

(** What an insert attempt leaves: the table as it was, or one more row
    carrying the id of the notification, which no row had before. *)
Lemma storeNotification_events now payload channel status pm err w :
  let w' := storeNotification now payload channel status pm err w in
  notification_events w' = notification_events w
  \/ exists row,
      notification_events w' = (notification_events w ++ [row])%list
      /\ NotificationEvent.notificationId row = p_notificationId payload
      /\ ~ In (p_notificationId payload)
              (List.map NotificationEvent.notificationId (notification_events w)).
Proof.
  unfold storeNotification.
  match goal with
  | |- context [NotificationEvent.create ?row ?tbl] =>
      destruct (NotificationEvent.create row tbl) as [tbl'|] eqn:Hc
  end; simpl; [right | left; reflexivity].
  apply create_fresh in Hc as [-> Hfresh]. eexists. split; [reflexivity|].
  split; [reflexivity | exact Hfresh].
Qed.

Lemma storeNotification_events_present now payload channel status pm err w :
  In (p_notificationId payload)
     (List.map NotificationEvent.notificationId (notification_events w)) ->
  notification_events (storeNotification now payload channel status pm err w)
  = notification_events w.
Proof.
  intros Hin. unfold storeNotification. rewrite create_present; [reflexivity|exact Hin].
Qed.

(** A resumption leaves the table as it is, or is an insert attempt. *)
Lemma resume_events E cfg now payload prefs contactInfo channel p result w :
  let w' := snd (resume E cfg now payload prefs contactInfo channel p result w) in
  notification_events w' = notification_events w
  \/ exists st pm err,
      notification_events w'
      = notification_events (storeNotification now payload channel st pm err w).
Proof.
  destruct p as [|o|st pm err| |m];
    [| destruct o; left; reflexivity | right; simpl; eauto | left; reflexivity ..].
  destruct (resume_limit E cfg now payload prefs contactInfo channel result w)
    as (rl & s' & _ & [(_ & H)|[(reason & _ & _ & H)|(o & _ & _ & H)]]);
    cbv zeta; rewrite H; left; reflexivity.
Qed.

Lemma sendAll_events_present E cfg now channels payload prefs contactInfo :
  forall result w,
    In (p_notificationId payload)
       (List.map NotificationEvent.notificationId (notification_events w)) ->
    notification_events (world_of (sendAll E cfg now channels payload prefs contactInfo
                                           result w))
    = notification_events w.
Proof.
  intros result w Hin. rewrite sendAll_settleAll. simpl.
  apply (settleAll_keeps E cfg now payload prefs contactInfo
           (fun _ w' => notification_events w' = notification_events w)).
  - intros c p r1 w1 Hsame.
    destruct (resume_events E cfg now payload prefs contactInfo c p r1 w1)
      as [H|(st & pm & err & H)]; cbv zeta in H; rewrite H; [exact Hsame|].
    rewrite storeNotification_events_present; [exact Hsame|].
    rewrite Hsame. exact Hin.
  - reflexivity.
Qed.

Lemma sendAll_events E cfg now channels payload prefs contactInfo :
  forall result w,
    let w' := world_of (sendAll E cfg now channels payload prefs contactInfo result w) in
    notification_events w' = notification_events w
    \/ exists row,
        notification_events w' = (notification_events w ++ [row])%list
        /\ NotificationEvent.notificationId row = p_notificationId payload
        /\ ~ In (p_notificationId payload)
                (List.map NotificationEvent.notificationId (notification_events w)).
Proof.
  intros result w. cbv zeta. rewrite sendAll_settleAll. simpl.
  apply (settleAll_keeps E cfg now payload prefs contactInfo
           (fun _ w' =>
              notification_events w' = notification_events w
              \/ exists row,
                  notification_events w' = (notification_events w ++ [row])%list
                  /\ NotificationEvent.notificationId row = p_notificationId payload
                  /\ ~ In (p_notificationId payload)
                          (List.map NotificationEvent.notificationId
                                    (notification_events w)))).
  - intros c p r1 w1 Hinv.
    destruct (resume_events E cfg now payload prefs contactInfo c p r1 w1)
      as [H|(st & pm & err & H)]; cbv zeta in H; rewrite H; [exact Hinv|].
    destruct Hinv as [Hsame|(row & Hadd & Hid & Hfresh)].
    + destruct (storeNotification_events now payload c st pm err w1)
        as [Hs|(row & Hadd & Hid & Hfresh)]; cbv zeta in *.
      * left. congruence.
      * right. exists row. rewrite Hadd, Hsame. rewrite Hsame in Hfresh. auto.
    + right. exists row. split; [|split; assumption].
      rewrite storeNotification_events_present; [exact Hadd|].
      rewrite Hadd, map_app, in_app_iff. right. left. exact Hid.
  - left. reflexivity.
Qed.

Lemma route_events E cfg now request w :
  let w' := world_of (route E cfg now request w) in
  notification_events w' = notification_events w
  \/ exists row,
      notification_events w' = (notification_events w ++ [row])%list
      /\ NotificationEvent.notificationId row = uuidv4 E (uuid_next w)
      /\ ~ In (uuidv4 E (uuid_next w))
              (List.map NotificationEvent.notificationId (notification_events w)).
Proof.
  destruct (route_cases E cfg now request w) as [H|H]; rewrite H;
    [left; reflexivity|].
  match goal with
  | |- context [route_after_dedup ?a ?b ?c ?d ?e ?f] =>
      destruct (route_after_dedup_cases a b c d e f)
        as [Ht|(w2 & Hrw & _ & _ & _ & Hev & _)]
  end.
  { rewrite Ht. left. reflexivity. }
  rewrite Hrw. unfold route_with_preferences.
  destruct (UserPreferences.dnc_enabled _); [left; exact Hev|].
  destruct (UserPreferences.isInQuietHours E _ now && negb _).
  { destruct (_ && _); left; exact Hev. }
  match goal with
  | |- context [sendAll ?a ?b ?c ?d ?e ?f ?g ?h ?i] =>
      destruct (sendAll_events a b c d e f g h i) as [Hs|(row & Hadd & Hid & Hfresh)]
  end.
  - left. cbv zeta in Hs. rewrite Hs. exact Hev.
  - right. exists row. cbv zeta in Hadd. rewrite Hadd, Hev.
    simpl in Hid, Hfresh. rewrite Hev in Hfresh. auto.
Qed.

(** X16.  A [route] call adds at most one row to the table of delivery records,
    however many channels it attempts: every insert of the call carries the
    id of the notification, which is the primary key, and a failed insert is
    swallowed.  The row added has the id drawn for the call, which no row
    had before. *)
Theorem route_stores_at_most_one_record E cfg now request w :
  exists rows,
    notification_events (world_of (route E cfg now request w))
    = (notification_events w ++ rows)%list
    /\ (List.length rows <= 1)%nat
    /\ Forall (fun row =>
                 NotificationEvent.notificationId row = uuidv4 E (uuid_next w)
                 /\ ~ In (uuidv4 E (uuid_next w))
                         (List.map NotificationEvent.notificationId
                                   (notification_events w))) rows.
Proof.
  destruct (route_events E cfg now request w) as [Hs|(row & Hadd & Hid & Hfresh)].
  - exists []. cbv zeta in Hs. rewrite Hs, app_nil_r.
    split; [reflexivity|]. split; [simpl; lia | constructor].
  - exists [row]. split; [exact Hadd|]. split; [simpl; lia|].
    constructor; [split; assumption | constructor].
Qed.

End RouterRecords.

Section RecordIds.
Import Redis NotificationRouter RetryService DigestService Vocabulary.

Lemma save_ids n tbl :
  List.map NotificationEvent.notificationId (NotificationEvent.save n tbl)
  = List.map NotificationEvent.notificationId tbl.
Proof.
  unfold NotificationEvent.save. induction tbl as [|row tbl IH]; [reflexivity|].
  simpl. rewrite IH. f_equal. case_bool_decide; congruence.
Qed.

Lemma update_status_ids id st tbl :
  List.map NotificationEvent.notificationId (NotificationEvent.update_status id st tbl)
  = List.map NotificationEvent.notificationId tbl.
Proof.
  unfold NotificationEvent.update_status. induction tbl as [|row tbl IH]; [reflexivity|].
  simpl. rewrite IH. f_equal. case_bool_decide; reflexivity.
Qed.

Lemma markDelivered_ids entries :
  forall tbl,
    List.map NotificationEvent.notificationId (markDelivered entries tbl)
    = List.map NotificationEvent.notificationId tbl.
Proof.
  unfold markDelivered. induction entries as [|n entries IH]; intros tbl; [reflexivity|].
  simpl. rewrite IH. apply update_status_ids.
Qed.

Lemma route_ids_unique E cfg now request w :
  NoDup (List.map NotificationEvent.notificationId (notification_events w)) ->
  NoDup (List.map NotificationEvent.notificationId
                  (notification_events (world_of (route E cfg now request w)))).
Proof.
  intros Hnd.
  destruct (route_events E cfg now request w) as [Hs|(row & Hadd & Hid & Hfresh)];
    cbv zeta in *.
  - rewrite Hs. exact Hnd.
  - rewrite Hadd, map_app. simpl. apply NoDup_app. split; [exact Hnd|].
    split; [|apply NoDup_singleton].
    intros x Hx Hx'. apply list_elem_of_In in Hx.
    apply list_elem_of_singleton in Hx'. subst x. rewrite Hid in Hx. contradiction.
Qed.

Lemma scheduleNextRetry_ids cfg now n error w :
  List.map NotificationEvent.notificationId
           (notification_events (snd (scheduleNextRetry cfg now n error w)))
  = List.map NotificationEvent.notificationId (notification_events w).
Proof.
  unfold scheduleNextRetry, saved, moveToDeadLetterQueue.
  destruct (_ <=? _); simpl; apply save_ids.
Qed.

Lemma retryNotification_ids E cfg now n w :
  List.map NotificationEvent.notificationId
           (notification_events (snd (retryNotification E cfg now n w)))
  = List.map NotificationEvent.notificationId
             (notification_events (world_of (route E cfg now (requestOf n) w))).
Proof.
  unfold retryNotification.
  destruct (route E cfg now (requestOf n) w) as [r w1|msg w1]; simpl.
  - destruct (succeeded (results r)).
    + unfold saved. simpl. apply save_ids.
    + apply scheduleNextRetry_ids.
  - apply scheduleNextRetry_ids.
Qed.

Lemma retryEach_ids_unique E cfg now ns :
  forall w,
    NoDup (List.map NotificationEvent.notificationId (notification_events w)) ->
    NoDup (List.map NotificationEvent.notificationId
                    (notification_events (retryEach E cfg now ns w))).
Proof.
  induction ns as [|n ns IH]; intros w Hnd; [exact Hnd|].
  simpl. apply IH. rewrite retryNotification_ids. apply route_ids_unique. exact Hnd.
Qed.

(** X17.  Record ids, once unique in the table, stay unique through [route],
    a tick of the retry scanner, [manualRetry] and [sendDigestForUser]. *)
Theorem record_ids_stay_unique E cfg now w :
  NoDup (List.map NotificationEvent.notificationId (notification_events w)) ->
  (forall request,
      NoDup (List.map NotificationEvent.notificationId
                      (notification_events (world_of (route E cfg now request w)))))
  /\ NoDup (List.map NotificationEvent.notificationId
                     (notification_events (processRetries E cfg now w)))
  /\ (forall id,
        NoDup (List.map NotificationEvent.notificationId
                        (notification_events (snd (manualRetry E cfg now id w)))))
  /\ (forall userId frequency,
        NoDup (List.map NotificationEvent.notificationId
                        (notification_events
                           (world_of (sendDigestForUser E now userId frequency w))))).
Proof.
  intros Hnd. split; [|split; [|split]].
  - intros request. apply route_ids_unique. exact Hnd.
  - apply retryEach_ids_unique. exact Hnd.
  - intros id. unfold manualRetry.
    destruct (List.find _ _) as [n|]; [|exact Hnd].
    destruct (negb _ && negb _); [exact Hnd|].
    unfold saved. simpl. rewrite retryNotification_ids.
    apply route_ids_unique. simpl. rewrite save_ids. exact Hnd.
  - intros userId frequency. unfold sendDigestForUser.
    destruct (negb (up (redis w))); [exact Hnd|].
    destruct (lrange now (redis w) (getDigestKey userId frequency)) as [|n0 entries];
      [exact Hnd|].
    unfold findByUserId. destruct (mongo_up w); [|exact Hnd]. simpl.
    destruct (preferences w !! userId) as [p|]; [|exact Hnd].
    destruct (truthy (UserPreferences.getDecryptedEmail E p)) as [addr|]; [|exact Hnd].
    destruct (bool_decide (r_status _ = sent)); simpl; [|exact Hnd].
    rewrite markDelivered_ids, update_status_ids. exact Hnd.
Qed.

End RecordIds.

Section RouterWitnesses.
Import Redis NotificationRouter RetryService DigestService Vocabulary.

(** Witness for [route_do_not_contact]: a fraud alert for a user who opted
    out. *)
Lemma route_do_not_contact_witness :
  exists reason w',
    route Scenario.env Config.default 1000 Scenario.request_fraud Scenario.world_opted_out
    = Ok (push_skip (emptyResult Scenario.env Scenario.request_fraud Scenario.world_opted_out)
                    websocket reason) w'
    /\ provider_calls w' = []
    /\ notification_events w' = [].
Proof.
  destruct (route_do_not_contact Scenario.env Config.default 1000 Scenario.request_fraud
              Scenario.world_opted_out Scenario.prefs_opted_out eq_refl eq_refl eq_refl)
    as (reason & w' & Hr & _ & Hc & He & _).
  exists reason, w'. split; [exact Hr|]. split; [exact Hc | exact He].
Defined.

(** Witness for [route_queued_sends_nothing]: a sign-in notice routed at
    night for a user with quiet hours and the digest switched on. *)
Lemma route_queued_sends_nothing_witness :
  digestQueued
    (result_of (emptyResult Scenario.env Scenario.request_login_attempt Scenario.world_quiet)
       (route Scenario.env Config.default Scenario.night Scenario.request_login_attempt
              Scenario.world_quiet)) = true
  /\ results
       (result_of (emptyResult Scenario.env Scenario.request_login_attempt
                               Scenario.world_quiet)
          (route Scenario.env Config.default Scenario.night Scenario.request_login_attempt
                 Scenario.world_quiet)) = []
  /\ provider_calls
       (world_of (route Scenario.env Config.default Scenario.night
                        Scenario.request_login_attempt Scenario.world_quiet)) = [].
Proof.
  assert (Hq : digestQueued
                 (result_of (emptyResult Scenario.env Scenario.request_login_attempt
                                         Scenario.world_quiet)
                    (route Scenario.env Config.default Scenario.night
                           Scenario.request_login_attempt Scenario.world_quiet)) = true)
    by (vm_compute; reflexivity).
  destruct (route_queued_sends_nothing Scenario.env Config.default Scenario.night
              Scenario.request_login_attempt Scenario.world_quiet
              (result_of (emptyResult Scenario.env Scenario.request_login_attempt
                                      Scenario.world_quiet)
                 (route Scenario.env Config.default Scenario.night
                        Scenario.request_login_attempt Scenario.world_quiet))
              (world_of (route Scenario.env Config.default Scenario.night
                               Scenario.request_login_attempt Scenario.world_quiet))
              ltac:(vm_compute; reflexivity)) as [_ H].
  destruct (H (or_intror Hq)) as (Hres & _ & Hcalls & _).
  split; [exact Hq|]. split; [exact Hres | exact Hcalls].
Defined.

(** Witness for [route_stores_at_most_one_record]: a failed transfer sent on
    the websocket and by mail makes two provider calls and at most one
    record. *)
Lemma route_stores_at_most_one_record_witness :
  List.length (provider_calls
                 (world_of (route Scenario.env Config.default Scenario.afternoon
                                  Scenario.request_transfer_failed Scenario.world_quiet)))
  = 2%nat
  /\ (List.length (notification_events
                     (world_of (route Scenario.env Config.default Scenario.afternoon
                                      Scenario.request_transfer_failed
                                      Scenario.world_quiet))) <= 1)%nat.
Proof.
  split; [vm_compute; reflexivity|].
  destruct (route_stores_at_most_one_record Scenario.env Config.default Scenario.afternoon
              Scenario.request_transfer_failed Scenario.world_quiet)
    as (rows & Hrows & Hlen & _).
  rewrite Hrows. exact Hlen.
Defined.

(** Witness for [record_ids_stay_unique]: a scanner tick over two
    records. *)
Lemma record_ids_stay_unique_witness :
  NoDup (List.map NotificationEvent.notificationId
                  (notification_events
                     (processRetries Scenario.env_all_down Config.default 30000
                                     Scenario.world_retry))).
Proof.
  apply (record_ids_stay_unique Scenario.env_all_down Config.default 30000
           Scenario.world_retry).
  simpl. constructor.
  - intros H. apply list_elem_of_In in H. destruct H as [H|[]]. discriminate H.
  - constructor; [|constructor]. intros H. apply list_elem_of_In in H. destruct H.
Defined.

End RouterWitnesses.

(** ** The retry service: retries and the dedup window, manual retry, batches *)

Section RetryInsideWindow.
Import Redis NotificationRouter RetryService Vocabulary.

Lemma retryNotification_duplicate E cfg now n w d e :
  up (redis w) = true ->
  visible now (dedup (redis w)) (dedupKey (requestOf n)) = Some (d, e) ->
  retryNotification E cfg now n w = scheduleNextRetry cfg now n None (draw_uuid w).
Proof.
  intros Hup Hv. unfold retryNotification.
  rewrite (route_duplicate E cfg now (requestOf n) w d e Hup Hv). reflexivity.
Qed.

Lemma scheduleNextRetry_keeps cfg now n error w :
  redis (snd (scheduleNextRetry cfg now n error w)) = redis w
  /\ provider_calls (snd (scheduleNextRetry cfg now n error w)) = provider_calls w
  /\ dedupKey (requestOf (fst (scheduleNextRetry cfg now n error w)))
     = dedupKey (requestOf n)
  /\ NotificationEvent.notificationId (fst (scheduleNextRetry cfg now n error w))
     = NotificationEvent.notificationId n.
Proof.
  unfold scheduleNextRetry. destruct (_ <=? _); simpl; repeat split; reflexivity.
Qed.

(** X18.  While the dedup entry of a record is alive, retries of the record
    reach no provider: each re-route is answered "duplicate", counts as a
    failed attempt, and leaves the store alone.  Retries that all fall
    before the expiry of the entry and use up the attempts left end with
    the record failed and one dead letter whose reason is the fixed text
    [Max retries exceeded]. *)
Theorem retries_inside_dedup_window_never_send E cfg times :
  forall n w d e,
    up (redis w) = true ->
    dedup (redis w) !! dedupKey (requestOf n) = Some (d, Some e) ->
    Forall (fun t => t < e) times ->
    provider_calls (snd (retryCycles E cfg times n w)) = provider_calls w
    /\ redis (snd (retryCycles E cfg times n w)) = redis w
    /\ (0 <= NotificationEvent.retryCount n < Config.maxRetryAttempts cfg ->
        List.length times
        = Z.to_nat (Config.maxRetryAttempts cfg - NotificationEvent.retryCount n) ->
        NotificationEvent.deliveryStatus (fst (retryCycles E cfg times n w)) = failed
        /\ exists dl,
            dead_letter_queue (snd (retryCycles E cfg times n w))
            = (dead_letter_queue w ++ [dl])%list
            /\ DeadLetterQueue.originalNotificationId dl = NotificationEvent.notificationId n
            /\ DeadLetterQueue.failureReason dl = "Max retries exceeded").
Proof.
  induction times as [|t times IH]; intros n w d e Hup Hd Hall.
  - simpl. split; [reflexivity|]. split; [reflexivity|].
    intros Hrc Hlen. simpl in Hlen. lia.
  - apply Forall_cons in Hall as [Ht Hall].
    assert (Hv : visible t (dedup (redis w)) (dedupKey (requestOf n)) = Some (d, Some e)).
    { apply visible_Some. split; [exact Hd|]. simpl. apply Z.ltb_lt. exact Ht. }
    simpl. rewrite (retryNotification_duplicate E cfg t n w d (Some e) Hup Hv).
    destruct (scheduleNextRetry_keeps cfg t n None (draw_uuid w)) as (Hr & Hp & Hk & Hid).
    destruct (scheduleNextRetry cfg t n None (draw_uuid w)) as [n1 w1] eqn:Hs.
    simpl in Hr, Hp, Hk, Hid.
    assert (Hup1 : up (redis w1) = true) by (rewrite Hr; exact Hup).
    assert (Hd1 : dedup (redis w1) !! dedupKey (requestOf n1) = Some (d, Some e))
      by (rewrite Hr, Hk; exact Hd).
    destruct (IH n1 w1 d e Hup1 Hd1 Hall) as (Hcalls & Hredis & Hdlq).
    split; [congruence|]. split; [congruence|].
    intros Hrc Hlen. simpl List.length in Hlen.
    destruct (Z_lt_le_dec (NotificationEvent.retryCount n + 1) (Config.maxRetryAttempts cfg))
      as [Hbelow|Hcap].
    + rewrite scheduleNextRetry_below in Hs by exact Hbelow.
      unfold saved in Hs. injection Hs as <- <-.
      destruct Hdlq as (Hst & dl & Hq & Ho & Hf).
      * simpl. lia.
      * simpl. lia.
      * split; [exact Hst|]. exists dl. simpl in Hq, Ho. auto.
    + rewrite scheduleNextRetry_cap in Hs by exact Hcap.
      unfold saved in Hs. injection Hs as <- <-.
      assert (times = []) as -> by (destruct times; [reflexivity | simpl in Hlen; lia]).
      simpl. split; [reflexivity|]. eexists. split; [reflexivity|].
      split; reflexivity.
Qed.

End RetryInsideWindow.

Section ManualRetry.
Import Redis NotificationRouter RetryService Vocabulary.

(** X19.  [manualRetry] answers true exactly when a record with the id exists
    and is failed or retrying; when it answers false it has changed
    nothing. *)
Theorem manualRetry_accepts E cfg now id w :
  (fst (manualRetry E cfg now id w) = true <->
   exists n,
     List.find (fun n => bool_decide (NotificationEvent.notificationId n = id))
               (notification_events w) = Some n
     /\ (NotificationEvent.deliveryStatus n = failed
         \/ NotificationEvent.deliveryStatus n = retrying))
  /\ (fst (manualRetry E cfg now id w) = false -> snd (manualRetry E cfg now id w) = w).
Proof.
  unfold manualRetry.
  destruct (List.find _ _) as [n|] eqn:Hfind.
  - destruct (negb (bool_decide (NotificationEvent.deliveryStatus n = failed))
              && negb (bool_decide (NotificationEvent.deliveryStatus n = retrying)))
      eqn:Hst.
    + apply andb_prop in Hst as [Hf Hr].
      apply negb_true_iff, bool_decide_eq_false in Hf.
      apply negb_true_iff, bool_decide_eq_false in Hr.
      simpl. split; [|reflexivity]. split; [discriminate|].
      intros (n' & Hn' & Hs). injection Hn' as <-. tauto.
    + simpl. split; [|discriminate]. split; [|reflexivity].
      intros _. exists n. split; [reflexivity|].
      apply andb_false_iff in Hst as [Hf|Hr].
      * left. apply negb_false_iff, bool_decide_eq_true in Hf. exact Hf.
      * right. apply negb_false_iff, bool_decide_eq_true in Hr. exact Hr.
  - simpl. split; [|reflexivity]. split; [discriminate|].
    intros (n' & Hn' & _). discriminate Hn'.
Qed.

End ManualRetry.

Section RetryBatch.
Import Redis NotificationRouter RetryService Vocabulary.

Lemma insertByNext_perm n l : Permutation (insertByNext n l) (n :: l).
Proof.
  induction l as [|x xs IH]; simpl; [reflexivity|].
  destruct (nextKey n <=? nextKey x); [reflexivity|].
  rewrite IH. apply perm_swap.
Qed.

Lemma orderByNext_perm l : Permutation (orderByNext l) l.
Proof.
  induction l as [|x xs IH]; simpl; [reflexivity|].
  rewrite insertByNext_perm. constructor. exact IH.
Qed.

Lemma insertByNext_sorted n l :
  StronglySorted (fun a b => nextKey a <= nextKey b) l ->
  StronglySorted (fun a b => nextKey a <= nextKey b) (insertByNext n l).
Proof.
  induction l as [|x xs IH]; intros Hs; simpl.
  - constructor; constructor.
  - apply StronglySorted_inv in Hs as [Hxs Hx].
    destruct (Z.leb_spec (nextKey n) (nextKey x)) as [Hle|Hgt].
    + constructor; [constructor; assumption|].
      constructor; [exact Hle|].
      eapply Forall_impl; [exact Hx|]. intros a Ha. simpl in Ha. lia.
    + constructor; [apply IH; exact Hxs|].
      rewrite insertByNext_perm. constructor; [lia | exact Hx].
Qed.

Lemma orderByNext_sorted l :
  StronglySorted (fun a b => nextKey a <= nextKey b) (orderByNext l).
Proof.
  induction l as [|x xs IH]; simpl; [constructor|].
  apply insertByNext_sorted. exact IH.
Qed.

Lemma sorted_split {A} (R : A -> A -> Prop) (l1 l2 : list A) :
  StronglySorted R (l1 ++ l2) ->
  StronglySorted R l1 /\ forall a b, In a l1 -> In b l2 -> R a b.
Proof.
  induction l1 as [|x l1 IH]; simpl; intros Hs.
  - split; [constructor | intros a b []].
  - apply StronglySorted_inv in Hs as [Hs Hx]. destruct (IH Hs) as [Hs1 Hcross].
    split.
    + constructor; [exact Hs1|]. apply Forall_app in Hx as [Hx _]. exact Hx.
    + intros a b [<-|Ha] Hb.
      * apply Forall_app in Hx as [_ Hx]. rewrite Forall_forall in Hx.
        apply Hx. apply list_elem_of_In. exact Hb.
      * apply Hcross; assumption.
Qed.

(** X20.  The batch of a scanner tick has at most 100 records, in ascending
    order of their retry instant; it holds every due record when there are
    at most 100 of them; and a due record left out is not due before any
    record of the batch. *)
Theorem findReady_batch cfg now tbl :
  (List.length (findReady cfg now tbl) <= 100)%nat
  /\ StronglySorted (fun a b => nextKey a <= nextKey b) (findReady cfg now tbl)
  /\ ((List.length (List.filter (due cfg now) tbl) <= 100)%nat ->
      Permutation (findReady cfg now tbl) (List.filter (due cfg now) tbl))
  /\ (forall n m,
        In n (findReady cfg now tbl) ->
        In m tbl -> due cfg now m = true -> ~ In m (findReady cfg now tbl) ->
        nextKey n <= nextKey m).
Proof.
  unfold findReady.
  set (sorted := orderByNext (List.filter (due cfg now) tbl)).
  pose proof (orderByNext_sorted (List.filter (due cfg now) tbl)) as Hs. fold sorted in Hs.
  rewrite <- (firstn_skipn 100 sorted) in Hs.
  apply sorted_split in Hs as [Hs1 Hcross].
  split; [apply firstn_le_length|]. split; [exact Hs1|]. split.
  - intros Hlen.
    rewrite firstn_all2; [apply orderByNext_perm|].
    unfold sorted. rewrite (Permutation_length (orderByNext_perm _)). exact Hlen.
  - intros n m Hn Hm Hdue Hout.
    apply Hcross; [exact Hn|].
    assert (Hin : In m sorted).
    { apply list_elem_of_In. unfold sorted. rewrite orderByNext_perm.
      apply list_elem_of_In. apply filter_In. auto. }
    rewrite <- (firstn_skipn 100 sorted) in Hin.
    apply in_app_or in Hin as [Hin|Hin]; [contradiction | exact Hin].
Qed.

End RetryBatch.

Section RetryWitnesses.
Import Redis NotificationRouter RetryService Vocabulary.

(** Witness for [retries_inside_dedup_window_never_send]: a record of a
    kind with a dedup window of one day, retried at five scanner ticks with
    providers that accept every message; no provider is called and the
    record ends as a dead letter. *)
Lemma retries_inside_dedup_window_never_send_witness :
  provider_calls (snd (retryCycles Scenario.env Config.default Scenario.ticks
                                   Scenario.record_kyc Scenario.world_kyc)) = []
  /\ NotificationEvent.deliveryStatus
       (fst (retryCycles Scenario.env Config.default Scenario.ticks
                         Scenario.record_kyc Scenario.world_kyc)) = failed
  /\ exists dl,
      dead_letter_queue (snd (retryCycles Scenario.env Config.default Scenario.ticks
                                          Scenario.record_kyc Scenario.world_kyc))
      = [dl]
      /\ DeadLetterQueue.failureReason dl = "Max retries exceeded".
Proof.
  destruct (retries_inside_dedup_window_never_send Scenario.env Config.default
              Scenario.ticks Scenario.record_kyc Scenario.world_kyc
              (mkDedupData "n-9" 0) 86400000 eq_refl eq_refl)
    as (Hcalls & _ & Hdlq).
  - repeat constructor.
  - destruct Hdlq as (Hst & dl & Hq & _ & Hreason).
    + simpl. lia.
    + reflexivity.
    + split; [exact Hcalls|]. split; [exact Hst|]. exists dl. split; assumption.
Defined.

End RetryWitnesses.

(** ** The digest service: queues and administration *)

Section DigestQueue.
Import Redis DigestService.

Lemma digest_keys_apart userId frequency userId' frequency' :
  getDigestKey userId frequency = getDigestKey userId' frequency' ->
  userId = userId'
  /\ (frequency = frequency'
      \/ (frequency = immediate /\ frequency' = daily)
      \/ (frequency = daily /\ frequency' = immediate)).
Proof.
  destruct frequency, frequency'; simpl; intros H; try discriminate H;
    injection H as H; (split; [exact H | tauto]).
Qed.

Lemma lrange_insert_eq now key (l : list DigestEntry) e s :
  lrange now (with_digests s (<[key := (l, e)]> (digests s))) key
  = if live now e then l else [].
Proof.
  unfold lrange. simpl digests. rewrite visible_insert_eq.
  destruct (live now e); reflexivity.
Qed.

(** X21.  With the store answering and a frequency other than immediate,
    [queueForDigest] appends the entry at the end of the queue and gives
    the whole queue 7 days to live from the call: until then the queue is
    the old one followed by the entry and the pending count is one higher;
    from then on the pending count is 0.  Queues under other keys are
    unchanged. *)
Theorem queueForDigest_appends now now' userId notification frequency w :
  up (redis w) = true ->
  frequency <> immediate ->
  let key := getDigestKey userId frequency in
  let entry :=
    mkDigestEntry (p_notificationId notification) (p_eventType notification)
                  (p_title notification) (p_message notification)
                  (p_createdAt notification) (p_data notification) in
  let w' := queueForDigest now userId notification frequency w in
  (now' < now + REDIS_TTL_DIGEST_QUEUE * 1000 ->
   lrange now' (redis w') key = (lrange now (redis w) key ++ [entry])%list
   /\ getPendingCount now' userId frequency w'
      = getPendingCount now userId frequency w + 1)
  /\ (now + REDIS_TTL_DIGEST_QUEUE * 1000 <= now' ->
      getPendingCount now' userId frequency w' = 0)
  /\ (forall userId' frequency',
        getDigestKey userId' frequency' <> key ->
        lrange now' (redis w') (getDigestKey userId' frequency')
        = lrange now' (redis w) (getDigestKey userId' frequency')).
Proof.
  intros Hup Hf key entry w'.
  assert (Hw : w' = with_redis w (rpush_expire now key entry REDIS_TTL_DIGEST_QUEUE (redis w))).
  { unfold w', queueForDigest. rewrite (bool_decide_eq_false_2 _ Hf), Hup. reflexivity. }
  assert (Hl : lrange now' (redis w') key
               = if now' <? now + REDIS_TTL_DIGEST_QUEUE * 1000
                 then (lrange now (redis w) key ++ [entry])%list else []).
  { rewrite Hw. simpl redis. unfold rpush_expire. rewrite lrange_insert_eq. reflexivity. }
  assert (Hup' : up (redis w') = true) by (rewrite Hw; exact Hup).
  split; [|split].
  - intros Hlt. unfold getPendingCount. fold key. rewrite Hup, Hup', Hl.
    destruct (Z.ltb_spec now' (now + REDIS_TTL_DIGEST_QUEUE * 1000)); [|lia].
    split; [reflexivity|]. rewrite length_app. simpl. lia.
  - intros Hge. unfold getPendingCount. fold key. rewrite Hup', Hl.
    destruct (Z.ltb_spec now' (now + REDIS_TTL_DIGEST_QUEUE * 1000)); [lia | reflexivity].
  - intros userId' frequency' Hne. rewrite Hw. simpl redis.
    unfold rpush_expire, lrange. simpl digests.
    rewrite visible_insert_ne by (intros HH; apply Hne; symmetry; exact HH).
    reflexivity.
Qed.

(** X22.  A notification queued for a user with a mail address is part of the
    next digest: [sendDigestForUser], run before the queue expires, makes
    one digest call to that address with the ids of the queue in order, the
    new one last; a sent digest leaves the pending count at 0, a digest not
    sent leaves the queue as it was. *)
Theorem queued_notification_is_mailed E now now' userId notification frequency w prefs addr :
  up (redis w) = true ->
  mongo_up w = true ->
  frequency <> immediate ->
  preferences w !! userId = Some prefs ->
  NotificationRouter.truthy (UserPreferences.getDecryptedEmail E prefs) = Some addr ->
  now' < now + REDIS_TTL_DIGEST_QUEUE * 1000 ->
  let key := getDigestKey userId frequency in
  let queue :=
    (lrange now (redis w) key
     ++ [mkDigestEntry (p_notificationId notification) (p_eventType notification)
                       (p_title notification) (p_message notification)
                       (p_createdAt notification) (p_data notification)])%list in
  let w' :=
    world_of (sendDigestForUser E now' userId frequency
                (queueForDigest now userId notification frequency w)) in
  provider_calls w'
  = (provider_calls w ++ [DigestSend addr (List.map g_notificationId queue)])%list
  /\ (r_status (sendDigest E addr (List.map (payloadOf userId) queue) frequency now') = sent ->
      getPendingCount now' userId frequency w' = 0)
  /\ (r_status (sendDigest E addr (List.map (payloadOf userId) queue) frequency now') <> sent ->
      lrange now' (redis w') key = queue).
Proof.
  intros Hup Hm Hf Hp Haddr Hlt key queue w'.
  set (w1 := queueForDigest now userId notification frequency w) in *.
  assert (Hw1 : w1 = with_redis w
                       (rpush_expire now key
                          (mkDigestEntry (p_notificationId notification)
                             (p_eventType notification) (p_title notification)
                             (p_message notification) (p_createdAt notification)
                             (p_data notification))
                          REDIS_TTL_DIGEST_QUEUE (redis w))).
  { unfold w1, queueForDigest. rewrite (bool_decide_eq_false_2 _ Hf), Hup. reflexivity. }
  assert (Hl : lrange now' (redis w1) key = queue).
  { rewrite Hw1. simpl redis. unfold rpush_expire. rewrite lrange_insert_eq. simpl live.
    destruct (Z.ltb_spec now' (now + REDIS_TTL_DIGEST_QUEUE * 1000)); [reflexivity | lia]. }
  assert (Hq : queue <> []) by (unfold queue; intros HH; destruct (lrange now (redis w) key); discriminate HH).
  assert (Hup1 : up (redis w1) = true) by (rewrite Hw1; exact Hup).
  assert (Hm1 : mongo_up w1 = true) by (rewrite Hw1; exact Hm).
  assert (Hp1 : preferences w1 !! userId = Some prefs) by (rewrite Hw1; exact Hp).
  assert (Hc1 : provider_calls w1 = provider_calls w) by (rewrite Hw1; reflexivity).
  unfold w', sendDigestForUser. fold key. rewrite Hup1, Hl. simpl negb. cbv iota.
  destruct queue as [|q0 qs] eqn:Hqueue; [contradiction|].
  unfold findByUserId. rewrite Hm1, Hp1. unfold bind. rewrite Haddr.
  destruct (bool_decide (r_status (sendDigest E addr (List.map (payloadOf userId) (q0 :: qs))
                                              frequency now') = sent)) eqn:Hsent.
  - apply bool_decide_eq_true in Hsent.
    split; [simpl; rewrite Hc1; reflexivity|]. split; [|intros HH; contradiction].
    intros _. unfold getPendingCount. simpl up. rewrite Hup1. fold key.
    unfold lrange, visible. simpl digests. rewrite lookup_delete_eq. reflexivity.
  - apply bool_decide_eq_false in Hsent.
    split; [simpl; rewrite Hc1; reflexivity|]. split; [intros HH; contradiction|].
    intros _. simpl redis. exact Hl.
Qed.

End DigestQueue.

Section DigestAdmin.
Import Redis DigestService.

Lemma sendDigestForUser_completes E now userId frequency w :
  up (redis w) = true -> mongo_up w = true ->
  sendDigestForUser E now userId frequency w
  = Ok tt (world_of (sendDigestForUser E now userId frequency w)).
Proof.
  intros Hup Hm. unfold sendDigestForUser. rewrite Hup. simpl negb. cbv iota.
  destruct (lrange now (redis w) (getDigestKey userId frequency)) as [|n0 entries];
    [reflexivity|].
  unfold findByUserId. rewrite Hm. unfold bind.
  destruct (preferences w !! userId) as [p|]; [|reflexivity].
  destruct (NotificationRouter.truthy (UserPreferences.getDecryptedEmail E p));
    [|reflexivity].
  destruct (bool_decide _); reflexivity.
Qed.

(** X23.  [forceSendDigest] rejects when the preferences store fails, answers
    false for a user without preferences, rejects when the queue store
    fails, and otherwise answers true whatever became of the digest, with
    the world left by [sendDigestForUser] at the frequency of the user. *)
Theorem forceSendDigest_reports E now userId w :
  (mongo_up w = false -> exists msg, forceSendDigest E now userId w = Throw msg w)
  /\ (mongo_up w = true -> preferences w !! userId = None ->
      forceSendDigest E now userId w = Ok false w)
  /\ (forall prefs,
        mongo_up w = true -> preferences w !! userId = Some prefs ->
        let frequency :=
          UserPreferences.digestFrequency
            (UserPreferences.ch_email (UserPreferences.channels prefs)) in
        (up (redis w) = false -> exists msg, forceSendDigest E now userId w = Throw msg w)
        /\ (up (redis w) = true ->
            forceSendDigest E now userId w
            = Ok true (world_of (sendDigestForUser E now userId frequency w)))).
Proof.
  split; [|split].
  - intros Hm. unfold forceSendDigest, findByUserId. rewrite Hm. simpl. eauto.
  - intros Hm Hp. unfold forceSendDigest, findByUserId. rewrite Hm, Hp. reflexivity.
  - intros prefs Hm Hp frequency. split.
    + intros Hup. unfold forceSendDigest, findByUserId. rewrite Hm, Hp. unfold bind.
      unfold sendDigestForUser. rewrite Hup. simpl. eauto.
    + intros Hup. unfold forceSendDigest, findByUserId. rewrite Hm, Hp. unfold bind at 1.
      fold frequency.
      rewrite (sendDigestForUser_completes E now userId frequency w Hup Hm) at 1.
      reflexivity.
Qed.

Lemma digest_fold_none (fs : list DigestFrequency) userId
    (m : gmap string (list DigestEntry * option Z)) key :
  m !! key = None ->
  fold_left (fun m f => delete (getDigestKey userId f) m) fs m !! key = None.
Proof.
  revert m. induction fs as [|f fs IH]; intros m Hm; simpl; [exact Hm|].
  apply IH. apply lookup_delete_None. right. exact Hm.
Qed.

Lemma digest_fold_deleted (fs : list DigestFrequency) userId
    (m : gmap string (list DigestEntry * option Z)) f :
  In f fs ->
  fold_left (fun m f => delete (getDigestKey userId f) m) fs m !! getDigestKey userId f
  = None.
Proof.
  revert m. induction fs as [|f0 fs IH]; intros m Hin; [destruct Hin|].
  simpl. destruct Hin as [->|Hin].
  - apply digest_fold_none. apply lookup_delete_eq.
  - apply IH. exact Hin.
Qed.

Lemma digest_fold_kept (fs : list DigestFrequency) userId
    (m : gmap string (list DigestEntry * option Z)) key :
  (forall f, In f fs -> key <> getDigestKey userId f) ->
  fold_left (fun m f => delete (getDigestKey userId f) m) fs m !! key = m !! key.
Proof.
  revert m. induction fs as [|f fs IH]; intros m Hk; simpl; [reflexivity|].
  rewrite IH by (intros f0 Hin; apply Hk; right; exact Hin).
  apply lookup_delete_ne. intros HH. apply (Hk f (or_introl eq_refl)). symmetry. exact HH.
Qed.

(** X24.  [clearDigest] rejects when the store fails.  Asked for the frequency
    immediate it clears the daily queue.  When it succeeds the queues it
    names (all three when none is named) are empty, the queues of other
    users are unchanged, and counters, dedup entries and records are
    untouched. *)
Theorem clearDigest_empties userId frequency w :
  (up (redis w) = false -> clearDigest userId frequency w = None)
  /\ clearDigest userId (Some immediate) w = clearDigest userId (Some daily) w
  /\ (up (redis w) = true ->
      exists w',
        clearDigest userId frequency w = Some w'
        /\ (forall now f,
              frequency = None \/ frequency = Some f ->
              getPendingCount now userId f w' = 0)
        /\ (forall now userId' f,
              userId' <> userId ->
              lrange now (redis w') (getDigestKey userId' f)
              = lrange now (redis w) (getDigestKey userId' f))
        /\ counters (redis w') = counters (redis w)
        /\ dedup (redis w') = dedup (redis w)
        /\ notification_events w' = notification_events w).
Proof.
  split; [|split].
  - intros Hup. unfold clearDigest. rewrite Hup. reflexivity.
  - reflexivity.
  - intros Hup. unfold clearDigest. rewrite Hup.
    set (fs := match frequency with Some f => [f] | None => [hourly; daily; weekly] end).
    eexists. split; [reflexivity|]. split; [|split; [|repeat split]].
    + intros now f Hf. unfold getPendingCount. simpl up. rewrite Hup.
      unfold lrange, visible. simpl digests.
      assert (Hin : exists f0, In f0 fs /\ getDigestKey userId f = getDigestKey userId f0).
      { destruct Hf as [->| ->]; unfold fs.
        - destruct f; simpl; eauto 6.
        - exists f. split; [left|]; reflexivity. }
      destruct Hin as (f0 & Hin & ->).
      rewrite digest_fold_deleted by exact Hin. reflexivity.
    + intros now userId' f Hne. unfold lrange, visible. simpl digests.
      rewrite digest_fold_kept; [reflexivity|].
      intros f0 _ HH. apply digest_keys_apart in HH as [HH _]. contradiction.
Qed.

End DigestAdmin.

Section DigestWitnesses.
Import Redis DigestService.

(** Witness for [queueForDigest_appends]: a third entry for the daily queue
    of [u1]. *)
Lemma queueForDigest_appends_witness :
  getPendingCount 2000 "u1" daily
    (queueForDigest 1000 "u1" Scenario.payload_short daily Scenario.world_digest) = 3.
Proof.
  destruct (queueForDigest_appends 1000 2000 "u1" Scenario.payload_short daily
              Scenario.world_digest eq_refl ltac:(discriminate)) as [H _].
  destruct (H eq_refl) as [_ Hc]. rewrite Hc. reflexivity.
Defined.

(** Witness for [queued_notification_is_mailed]: the digest of [u1] after one
    more entry. *)
Lemma queued_notification_is_mailed_witness :
  provider_calls
    (world_of (sendDigestForUser Scenario.env 2000 "u1" daily
                 (queueForDigest 1000 "u1" Scenario.payload_short daily
                                 Scenario.world_digest)))
  = [DigestSend "enc:user@example.com" ["n-1"; "n-2"; Scenario.uuid 0]].
Proof.
  exact (proj1 (queued_notification_is_mailed Scenario.env 1000 2000 "u1"
                  Scenario.payload_short daily Scenario.world_digest
                  (Scenario.prefs_quiet "u1" "America/New_York" false)
                  "enc:user@example.com" eq_refl eq_refl ltac:(discriminate)
                  eq_refl eq_refl eq_refl)).
Defined.

End DigestWitnesses.

(** ** The SMS handler and the device routes *)

Section SmsSend.
Import SMSHandler.
Local Open Scope nat_scope.

Lemma formatMessage_length (n : NotificationPayload) :
  String.length (formatMessage n) <= 160.
Proof.
  unfold formatMessage. rewrite unsubscribe_length.
  change (160 - 27) with 133. change (133 - 3) with 130.
  rewrite string_length_app, unsubscribe_length.
  destruct (Nat.ltb_spec 133 (String.length (p_title n +:+ ": " +:+ p_message n))).
  - rewrite string_length_app, substring_0_length.
    change (String.length "...") with 3. lia.
  - lia.
Qed.

Lemma validatePhoneNumber_length phone :
  validatePhoneNumber phone = true -> 3 <= String.length phone <= 16.
Proof.
  unfold validatePhoneNumber.
  destruct phone as [|plus [|first rest]]; try discriminate.
  intros H. apply andb_prop in H as [_ H]. apply andb_prop in H as [H1 H2].
  apply Nat.leb_le in H1. apply Nat.leb_le in H2.
  change (String.length (String plus (String first rest)))
    with (S (S (String.length rest))). lia.
Qed.

(** X25.  [send] of the SMS handler returns an sms result that is sent or
    failed.  Disabled, without client or with a number that is not E.164,
    it fails without a request to Twilio; otherwise it makes exactly one
    request, the formatted text to the given number, and the result is sent
    exactly when Twilio accepts it.  Every request made has a body of at
    most 160 characters and a number of 3 to 16 characters. *)
Theorem send_requests h twilio now toPhoneNumber notification :
  let result := fst (send h twilio now toPhoneNumber notification) in
  let requests := snd (send h twilio now toPhoneNumber notification) in
  r_channel result = sms
  /\ (r_status result = sent \/ r_status result = failed)
  /\ (enabled h && hasClient h && validatePhoneNumber toPhoneNumber = false ->
      requests = [] /\ r_status result = failed)
  /\ (enabled h && hasClient h && validatePhoneNumber toPhoneNumber = true ->
      requests = [mkTwilioRequest (formatMessage notification) (fromNumber h)
                                  toPhoneNumber (statusCallbackUrl h)]
      /\ (r_status result = sent <->
          exists sid,
            twilio (mkTwilioRequest (formatMessage notification) (fromNumber h)
                                    toPhoneNumber (statusCallbackUrl h)) = Created sid))
  /\ (forall request,
        In request requests ->
        String.length (tw_body request) <= 160
        /\ 3 <= String.length (tw_to request) <= 16).
Proof.
  assert (Hoff : forall error,
            let result := mkDeliveryResult sms failed None None (Some error) in
            r_channel result = sms
            /\ (r_status result = sent \/ r_status result = failed)
            /\ (false = false -> @nil TwilioRequest = [] /\ r_status result = failed)
            /\ (false = true ->
                @nil TwilioRequest
                = [mkTwilioRequest (formatMessage notification) (fromNumber h)
                                   toPhoneNumber (statusCallbackUrl h)]
                /\ (r_status result = sent <->
                    exists sid,
                      twilio (mkTwilioRequest (formatMessage notification) (fromNumber h)
                                              toPhoneNumber (statusCallbackUrl h))
                      = Created sid))
            /\ (forall request,
                  In request [] ->
                  String.length (tw_body request) <= 160
                  /\ 3 <= String.length (tw_to request) <= 16)).
  { intros error result. split; [reflexivity|]. split; [right; reflexivity|].
    split; [intros _; split; reflexivity|]. split; [discriminate|]. intros ? []. }
  unfold send.
  destruct (enabled h); simpl; [|exact (Hoff "SMS channel not enabled")].
  destruct (hasClient h); simpl; [|exact (Hoff "SMS channel not enabled")].
  destruct (validatePhoneNumber toPhoneNumber) eqn:Hv; simpl;
    [|exact (Hoff "Invalid phone number format")].
  destruct (twilio _) as [sid|error] eqn:Ht; simpl.
  - split; [reflexivity|]. split; [left; reflexivity|]. split; [discriminate|].
    split.
    + intros _. split; [reflexivity|]. split; [eauto | reflexivity].
    + intros request [<-|[]]. simpl. split; [apply formatMessage_length|].
      apply validatePhoneNumber_length. exact Hv.
  - split; [reflexivity|]. split; [right; reflexivity|]. split; [discriminate|].
    split.
    + intros _. split; [reflexivity|]. split; [discriminate|].
      intros (sid & Hs). discriminate Hs.
    + intros request [<-|[]]. simpl. split; [apply formatMessage_length|].
      apply validatePhoneNumber_length. exact Hv.
Qed.

End SmsSend.

Section Devices.
Import PreferencesRoutes NotificationRouter Vocabulary.

Lemma findIndex_Some deviceId devices i :
  findIndex deviceId devices = Some i ->
  exists d, devices !! i = Some d /\ UserPreferences.deviceId d = deviceId.
Proof.
  revert i. induction devices as [|d devices IH]; intros i H; [discriminate H|].
  simpl in H. case_bool_decide as Hd.
  - injection H as <-. exists d. split; [reflexivity | exact Hd].
  - destruct (findIndex deviceId devices) as [j|]; [|discriminate H].
    injection H as <-. destruct (IH j eq_refl) as (d0 & Hl & Hid). exists d0. auto.
Qed.

Lemma findIndex_None deviceId devices :
  findIndex deviceId devices = None ->
  ~ In deviceId (List.map UserPreferences.deviceId devices).
Proof.
  induction devices as [|d devices IH]; intros H; [intros []|].
  simpl in H. case_bool_decide as Hd; [discriminate H|].
  destruct (findIndex deviceId devices) as [j|]; [discriminate H|].
  intros [Hin|Hin]; [contradiction | exact (IH eq_refl Hin)].
Qed.

Lemma In_tl {A} (x : A) l : In x (List.tl l) -> In x l.
Proof. destruct l; simpl; auto. Qed.

Lemma registerDevice_In deviceData devices :
  In deviceData (registerDevice deviceData devices).
Proof.
  unfold registerDevice.
  destruct (findIndex (UserPreferences.deviceId deviceData) devices) as [i|] eqn:Hfind.
  - destruct (findIndex_Some _ _ _ Hfind) as (d0 & Hl & _).
    apply list_elem_of_In. apply list_elem_of_lookup. exists i.
    apply list_lookup_insert_eq. eapply lookup_lt_Some. exact Hl.
  - apply in_or_app. right. left. reflexivity.
Qed.

(** X26.  Registering a device: the device is in the list afterwards; a list of
    at most 10 devices stays so; device ids that were unique stay unique;
    no device appears that was not there or just registered; and a device
    that was there is kept unless it had the id just registered or was the
    first of a list of 10 or more. *)
Theorem registerDevice_invariants deviceData devices :
  In deviceData (registerDevice deviceData devices)
  /\ ((List.length devices <= 10)%nat ->
      (List.length (registerDevice deviceData devices) <= 10)%nat)
  /\ (NoDup (List.map UserPreferences.deviceId devices) ->
      NoDup (List.map UserPreferences.deviceId (registerDevice deviceData devices)))
  /\ (forall d, In d (registerDevice deviceData devices) -> d = deviceData \/ In d devices)
  /\ (forall d,
        In d devices ->
        In d (registerDevice deviceData devices)
        \/ UserPreferences.deviceId d = UserPreferences.deviceId deviceData
        \/ ((10 <= List.length devices)%nat /\ List.head devices = Some d)).
Proof.
  split; [apply registerDevice_In|].
  unfold registerDevice.
  destruct (findIndex (UserPreferences.deviceId deviceData) devices) as [i|] eqn:Hfind.
  - destruct (findIndex_Some _ _ _ Hfind) as (d0 & Hl & Hid).
    assert (Hi : (i < List.length devices)%nat) by (eapply lookup_lt_Some; exact Hl).
    split; [|split; [|split]].
    + rewrite length_insert. auto.
    + intros Hnd.
      assert (Hids : List.map UserPreferences.deviceId (<[i := deviceData]> devices)
                     = List.map UserPreferences.deviceId devices).
      { change (UserPreferences.deviceId <$> <[i := deviceData]> devices
                = UserPreferences.deviceId <$> devices).
        rewrite list_fmap_insert. apply list_insert_id.
        rewrite list_lookup_fmap, Hl. simpl. congruence. }
      rewrite Hids. exact Hnd.
    + intros d Hin. apply list_elem_of_In, list_elem_of_lookup in Hin as (j & Hj).
      destruct (decide (i = j)) as [->|Hne].
      * rewrite list_lookup_insert_eq in Hj by exact Hi. left. congruence.
      * rewrite list_lookup_insert_ne in Hj by exact Hne.
        right. apply list_elem_of_In. eapply list_elem_of_lookup_2. exact Hj.
    + intros d Hin. apply list_elem_of_In, list_elem_of_lookup in Hin as (j & Hj).
      destruct (decide (i = j)) as [->|Hne].
      * right. left. congruence.
      * left. apply list_elem_of_In. apply list_elem_of_lookup. exists j.
        rewrite list_lookup_insert_ne by exact Hne. exact Hj.
  - apply findIndex_None in Hfind.
    set (kept := if (10 <=? List.length devices)%nat then List.tl devices else devices).
    assert (Hin : forall x, In x kept -> In x devices).
    { intros x. unfold kept. destruct (10 <=? List.length devices)%nat; [apply In_tl | auto]. }
    assert (Hnd : NoDup (List.map UserPreferences.deviceId devices) ->
                  NoDup (List.map UserPreferences.deviceId kept)).
    { unfold kept. destruct (10 <=? List.length devices)%nat; [|auto].
      destruct devices as [|d0 rest]; [auto|]. intros H.
      apply (NoDup_cons_1_2 _ _ H). }
    assert (Hlen : (List.length devices <= 10)%nat -> (List.length kept + 1 <= 10)%nat).
    { unfold kept. destruct (Nat.leb_spec 10 (List.length devices)); [|lia].
      destruct devices as [|d0 rest]; [simpl in *; lia|].
      change (List.length (d0 :: rest)) with (S (List.length rest)).
      change (List.tl (d0 :: rest)) with rest. lia. }
    assert (Hlost : forall d, In d devices ->
                      In d kept
                      \/ ((10 <= List.length devices)%nat /\ List.head devices = Some d)).
    { intros d Hd. unfold kept.
      destruct (Nat.leb_spec 10 (List.length devices)) as [Hfull|Hroom]; [|auto].
      destruct devices as [|d0 rest]; [destruct Hd|].
      destruct Hd as [<-|Hd]; [right; split; [exact Hfull | reflexivity] | left; exact Hd]. }
    clearbody kept.
    split; [|split; [|split]].
    + intros Hl. rewrite length_app. exact (Hlen Hl).
    + intros Hn. rewrite map_app.
      apply NoDup_app. split; [exact (Hnd Hn)|]. split; [|apply NoDup_singleton].
      intros x Hx Hx'. apply list_elem_of_singleton in Hx'. subst x.
      apply list_elem_of_In in Hx. apply Hfind.
      apply in_map_iff in Hx as (d & Hid & Hd). apply in_map_iff. exists d. auto.
    + intros d Hd. apply in_app_or in Hd as [Hd|[<-|[]]]; [right; auto | left; reflexivity].
    + intros d Hd. destruct (Hlost d Hd) as [Hk|Hh]; [left | right; right; exact Hh].
      apply in_or_app. left. exact Hk.
Qed.

Lemma filter_all {A} (f : A -> bool) l :
  (forall x, In x l -> f x = true) -> List.filter f l = l.
Proof.
  induction l as [|x l IH]; intros H; [reflexivity|].
  simpl. rewrite (H x (or_introl eq_refl)), IH; [reflexivity|].
  intros y Hy. apply H. right. exact Hy.
Qed.

(** X27.  Unregistering after registering leaves no device with the id; for an
    id that was new, what is left is the list as it was, without its first
    device when it held 10 or more. *)
Theorem unregisterDevice_after_register deviceData devices :
  ~ In (UserPreferences.deviceId deviceData)
       (List.map UserPreferences.deviceId
                 (unregisterDevice (UserPreferences.deviceId deviceData)
                                   (registerDevice deviceData devices)))
  /\ (findIndex (UserPreferences.deviceId deviceData) devices = None ->
      unregisterDevice (UserPreferences.deviceId deviceData)
                       (registerDevice deviceData devices)
      = if (10 <=? List.length devices)%nat then List.tl devices else devices).
Proof.
  split.
  - unfold unregisterDevice. intros Hin.
    apply in_map_iff in Hin as (d & Hid & Hin).
    apply filter_In in Hin as [_ Hf].
    apply negb_true_iff, bool_decide_eq_false in Hf. contradiction.
  - intros Hfind. unfold registerDevice. rewrite Hfind.
    apply findIndex_None in Hfind.
    set (kept := if (10 <=? List.length devices)%nat then List.tl devices else devices).
    assert (Hkept : forall x, In x kept -> In x devices).
    { intros x. unfold kept. destruct (10 <=? List.length devices)%nat; [apply In_tl | auto]. }
    clearbody kept.
    unfold unregisterDevice. rewrite List.filter_app. simpl.
    rewrite (bool_decide_eq_true_2 _ eq_refl). simpl. rewrite app_nil_r.
    apply filter_all. intros d Hin.
    apply negb_true_iff, bool_decide_eq_false. intros Hid. apply Hfind.
    apply in_map_iff. exists d. split; [exact Hid | exact (Hkept d Hin)].
Qed.

(** X28.  With the preferences store answering, the device route completes, the
    saved document holds the device and the count returned is the length of
    its list; push delivery for the user is no longer skipped for missing
    tokens, and the provider is given a token list that has the token and
    platform of the device.  The route touches neither the Redis store, nor
    the records, nor the documents of other users. *)
Theorem postDevice_enables_push E userId deviceData w :
  mongo_up w = true ->
  exists count w' prefs',
    postDevice userId deviceData w = Ok count w'
    /\ preferences w' !! userId = Some prefs'
    /\ count = List.length (UserPreferences.devices
                              (UserPreferences.ch_push (UserPreferences.channels prefs')))
    /\ In deviceData (UserPreferences.devices
                        (UserPreferences.ch_push (UserPreferences.channels prefs')))
    /\ missing_contact push (loadUserContactInfo E userId prefs') = false
    /\ (forall now payload,
          exists tokens,
            attempt E now push payload (loadUserContactInfo E userId prefs')
            = Called (pushSend E tokens payload now)
            /\ In (UserPreferences.token deviceData, UserPreferences.platform deviceData)
                  tokens)
    /\ redis w' = redis w
    /\ notification_events w' = notification_events w
    /\ (forall other, other <> userId -> preferences w' !! other = preferences w !! other).
Proof.
  intros Hm. unfold postDevice, findOrCreateByUserId. rewrite Hm.
  set (prefs := default (UserPreferences.schemaDefault userId) (preferences w !! userId)).
  set (devices' := registerDevice deviceData
                     (UserPreferences.devices
                        (UserPreferences.ch_push (UserPreferences.channels prefs)))).
  assert (Hin : In deviceData devices') by apply registerDevice_In.
  assert (Hshape : exists w1,
             (match preferences w !! userId with
              | Some p => Ok p w
              | None => Ok (UserPreferences.schemaDefault userId)
                           (with_preferences w (<[userId := UserPreferences.schemaDefault userId]>
                                                  (preferences w)))
              end) = Ok prefs w1
             /\ redis w1 = redis w /\ notification_events w1 = notification_events w
             /\ (forall other, other <> userId ->
                               preferences w1 !! other = preferences w !! other)).
  { unfold prefs. destruct (preferences w !! userId) as [p|]; simpl.
    - exists w. auto.
    - eexists. split; [reflexivity|]. simpl. repeat split.
      intros other Hne. apply lookup_insert_ne. congruence. }
  destruct Hshape as (w1 & -> & Hr & He & Hother).
  unfold bind. fold devices'.
  exists (List.length devices'), (with_preferences w1 (<[userId := with_devices prefs devices']>
                                                    (preferences w1))),
    (with_devices prefs devices').
  split; [reflexivity|]. split; [apply lookup_insert_eq|].
  split; [reflexivity|]. split; [exact Hin|].
  assert (Htokens : c_pushTokens (loadUserContactInfo E userId (with_devices prefs devices'))
                    = Some (List.map (fun d => mkPushToken (UserPreferences.token d)
                                                            (UserPreferences.deviceId d)
                                                            (UserPreferences.platform d))
                                     devices')).
  { unfold loadUserContactInfo. simpl c_pushTokens.
    destruct devices' as [|d0 ds]; [destruct Hin | reflexivity]. }
  split; [|split; [|split; [|split]]].
  - unfold missing_contact. rewrite Htokens.
    destruct devices' as [|d0 ds]; [destruct Hin | reflexivity].
  - intros now payload. unfold attempt. rewrite Htokens.
    destruct devices' as [|d0 ds]; [destruct Hin|].
    eexists. split; [reflexivity|].
    change (In (UserPreferences.token deviceData, UserPreferences.platform deviceData)
               (List.map (fun t => (t_token t, t_platform t))
                  (List.map (fun d => mkPushToken (UserPreferences.token d)
                                                  (UserPreferences.deviceId d)
                                                  (UserPreferences.platform d))
                            (d0 :: ds)))).
    apply in_map_iff.
    exists (mkPushToken (UserPreferences.token deviceData)
                        (UserPreferences.deviceId deviceData)
                        (UserPreferences.platform deviceData)).
    split; [reflexivity|]. apply in_map_iff. exists deviceData.
    split; [reflexivity | exact Hin].
  - exact Hr.
  - exact He.
  - intros other Hne. simpl preferences. rewrite lookup_insert_ne by congruence.
    apply Hother. exact Hne.
Qed.

End Devices.

Section DeviceWitnesses.
Import PreferencesRoutes NotificationRouter Vocabulary.

(** Witness for [postDevice_enables_push]: the first device of a user
    without document. *)
Lemma postDevice_enables_push_witness :
  exists count w' prefs',
    postDevice "u1" Scenario.device1 Scenario.world_empty = Ok count w'
    /\ preferences w' !! "u1" = Some prefs'
    /\ missing_contact push (loadUserContactInfo Scenario.env "u1" prefs') = false.
Proof.
  destruct (postDevice_enables_push Scenario.env "u1" Scenario.device1 Scenario.world_empty
              eq_refl)
    as (count & w' & prefs' & Hp & Hl & _ & _ & Hm & _).
  exists count, w', prefs'. split; [exact Hp|]. split; [exact Hl | exact Hm].
Defined.

End DeviceWitnesses.

(** ** The event mapping of the ingestor *)

Section EventMapping.
Import Redis NotificationRouter KafkaEventConsumer Vocabulary.

Ltac map_cases H :=
  repeat match type of H with
         | context [bool_decide ?P] => destruct (bool_decide P)
         end;
  simpl in H.

Lemma mapSecurityEvent_request eventType payload userId correlationId r :
  mapSecurityEvent eventType payload userId correlationId = Request r ->
  q_userId r = userId /\ q_correlationId r = correlationId
  /\ q_data r = Some (json payload)
  /\ q_eventSourceId r = None
  /\ q_priority r = Some (priority (EVENT_TYPE_CONFIGS (q_eventType r)))
  /\ In (q_eventType r)
        [login_attempt; login_failed; account_locked; password_changed;
         new_device_added; suspicious_activity].
Proof.
  unfold mapSecurityEvent, request. intros H. map_cases H;
    try discriminate H; injection H as <-; simpl; tauto.
Qed.

Lemma mapTransactionEvent_request eventType payload userId correlationId r :
  mapTransactionEvent eventType payload userId correlationId = Request r ->
  q_userId r = userId /\ q_correlationId r = correlationId
  /\ q_data r = Some (json payload)
  /\ q_eventSourceId r = transactionId payload
  /\ q_priority r = Some (priority (EVENT_TYPE_CONFIGS (q_eventType r)))
  /\ In (q_eventType r)
        [transfer_initiated; transfer_approved; transfer_completed; transfer_rejected;
         transfer_failed; large_transaction].
Proof.
  unfold mapTransactionEvent, withAmount, request. intros H. map_cases H;
    try discriminate H; destruct (amount payload); try discriminate H;
    injection H as <-; simpl; tauto.
Qed.

Lemma mapFraudEvent_request eventType payload userId correlationId r :
  mapFraudEvent eventType payload userId correlationId = Request r ->
  q_userId r = userId /\ q_correlationId r = correlationId
  /\ q_data r = Some (json payload)
  /\ q_eventSourceId r = caseId payload
  /\ ((q_eventType r = fraud_detected /\ q_priority r = Some critical)
      \/ (q_eventType r = general_notification /\ q_priority r = Some medium)).
Proof.
  unfold mapFraudEvent, request. intros H. map_cases H;
    try discriminate H; injection H as <-; simpl; tauto.
Qed.

Lemma mapUserEvent_request eventType payload userId correlationId r :
  mapUserEvent eventType payload userId correlationId = Request r ->
  q_userId r = userId /\ q_correlationId r = correlationId
  /\ q_data r = Some (json payload)
  /\ q_eventSourceId r = None
  /\ ((q_eventType r = kyc_verification_needed /\ q_priority r = Some critical)
      \/ (q_eventType r = general_notification /\ q_priority r = Some medium)).
Proof.
  unfold mapUserEvent, request. intros H. map_cases H;
    try discriminate H; injection H as <-; simpl; tauto.
Qed.

(** The event types the mappers know. *)
Lemma mapEventToNotification_names topics topic event r :
  mapEventToNotification topics topic event = Request r ->
  In (eventType event)
     ["user.login.success"; "user.login.failed"; "user.locked"; "user.password.changed";
      "user.device.registered"; "security.anomaly_detected"; "security.token_theft";
      "transfer.initiated"; "transfer.approved"; "transfer.completed";
      "transfer.rejected"; "transfer.failed"; "large_transaction";
      "fraud.detected"; "fraud.alert"; "fraud.alert.resolved";
      "user.registered"; "user.kyc.required"; "user.kyc.expired"].
Proof.
  unfold mapEventToNotification, mapSecurityEvent, mapTransactionEvent, mapFraudEvent,
    mapUserEvent.
  destruct (userId (payload event)); [|intros H; discriminate H].
  generalize (eventType event). intros name.
  destruct (bool_decide (topic = security topics));
    [|destruct (bool_decide (topic = transaction topics));
      [|destruct (bool_decide (topic = fraud topics));
        [|destruct (bool_decide (topic = user topics)); [|intros H; discriminate H]]]];
    repeat (case_bool_decide;
            [intros _; subst name; simpl; repeat (first [left; reflexivity | right])|]);
    simpl; intros Hmap; discriminate Hmap.
Qed.

(** X29.  A request mapped from a bus event is for the user of the payload,
    keeps the correlation id and carries the payload as data; the topic is
    one of the four configured; its priority is the one of the catalog for
    its kind, except for general notifications, which are sent at medium;
    eight kinds of the catalog are never produced; and requests of the
    sign-in, lock, password, device, suspicious-activity and
    identity-verification kinds carry no source id.  The event types
    mapped are the dotted names of the bus: an event whose type is the name
    of a catalog kind is mapped only for [large_transaction]. *)
Theorem mapEventToNotification_request topics topic event r :
  mapEventToNotification topics topic event = Request r ->
  userId (payload event) = Some (q_userId r)
  /\ q_correlationId r = correlationId event
  /\ q_data r = Some (json (payload event))
  /\ In topic [security topics; transaction topics; fraud topics; user topics]
  /\ (exists prio,
        q_priority r = Some prio
        /\ prio = (if bool_decide (q_eventType r = general_notification) then medium
                   else priority (EVENT_TYPE_CONFIGS (q_eventType r))))
  /\ ~ In (q_eventType r)
          [transfer_processing; low_balance_alert; recurring_payment_due;
           account_statement_ready; promotional_offer; regulatory_alert;
           data_access_logged; session_expired]
  /\ (In (q_eventType r)
         [login_attempt; login_failed; account_locked; password_changed;
          new_device_added; suspicious_activity; kyc_verification_needed] ->
      q_eventSourceId r = None)
  /\ (forall kind, eventType event = eventTypeName kind -> kind = large_transaction).
Proof.
  intros H.
  assert (Hnames : forall kind, eventType event = eventTypeName kind ->
                                kind = large_transaction).
  { intros kind Hk. pose proof (mapEventToNotification_names _ _ _ _ H) as Hin.
    rewrite Hk in Hin. destruct kind; simpl in Hin; intuition discriminate. }
  cut (userId (payload event) = Some (q_userId r)
       /\ q_correlationId r = correlationId event
       /\ q_data r = Some (json (payload event))
       /\ In topic [security topics; transaction topics; fraud topics; user topics]
       /\ (exists prio,
             q_priority r = Some prio
             /\ prio = (if bool_decide (q_eventType r = general_notification) then medium
                        else priority (EVENT_TYPE_CONFIGS (q_eventType r))))
       /\ ~ In (q_eventType r)
               [transfer_processing; low_balance_alert; recurring_payment_due;
                account_statement_ready; promotional_offer; regulatory_alert;
                data_access_logged; session_expired]
       /\ (In (q_eventType r)
              [login_attempt; login_failed; account_locked; password_changed;
               new_device_added; suspicious_activity; kyc_verification_needed] ->
           q_eventSourceId r = None)).
  { intros (H1 & H2 & H3 & H4 & H5 & H6 & H7). repeat split; assumption. }
  clear Hnames. revert H.
  unfold mapEventToNotification. intros H.
  destruct (userId (payload event)) as [u|]; [|discriminate H].
  destruct (bool_decide (topic = security topics)) eqn:Hs.
  { apply bool_decide_eq_true in Hs.
    apply mapSecurityEvent_request in H as (-> & Hc & Hd & Hsrc & Hp & Hk).
    split; [reflexivity|]. split; [exact Hc|]. split; [exact Hd|].
    split; [left; auto|]. split.
    - eexists. split; [exact Hp|].
      simpl in Hk. destruct Hk as [<-|[<-|[<-|[<-|[<-|[<-|[]]]]]]]; reflexivity.
    - split; [|intros _; exact Hsrc].
      simpl in Hk. destruct Hk as [<-|[<-|[<-|[<-|[<-|[<-|[]]]]]]];
        simpl; intuition discriminate. }
  destruct (bool_decide (topic = transaction topics)) eqn:Ht.
  { apply bool_decide_eq_true in Ht.
    apply mapTransactionEvent_request in H as (-> & Hc & Hd & Hsrc & Hp & Hk).
    split; [reflexivity|]. split; [exact Hc|]. split; [exact Hd|].
    split; [right; left; auto|]. split.
    - eexists. split; [exact Hp|].
      simpl in Hk. destruct Hk as [<-|[<-|[<-|[<-|[<-|[<-|[]]]]]]]; reflexivity.
    - simpl in Hk. destruct Hk as [<-|[<-|[<-|[<-|[<-|[<-|[]]]]]]];
        simpl; intuition discriminate. }
  destruct (bool_decide (topic = fraud topics)) eqn:Hf.
  { apply bool_decide_eq_true in Hf.
    apply mapFraudEvent_request in H as (-> & Hc & Hd & Hsrc & Hk).
    split; [reflexivity|]. split; [exact Hc|]. split; [exact Hd|].
    split; [right; right; left; auto|].
    destruct Hk as [[Hk Hp]|[Hk Hp]]; rewrite Hk; (split; [eexists; split; [exact Hp | reflexivity]|]);
      simpl; intuition discriminate. }
  destruct (bool_decide (topic = user topics)) eqn:Hu; [|discriminate H].
  apply bool_decide_eq_true in Hu.
  apply mapUserEvent_request in H as (-> & Hc & Hd & Hsrc & Hk).
  split; [reflexivity|]. split; [exact Hc|]. split; [exact Hd|].
  split; [right; right; right; left; auto|].
  destruct Hk as [[Hk Hp]|[Hk Hp]]; rewrite Hk; (split; [eexists; split; [exact Hp | reflexivity]|]);
    simpl; intuition discriminate.
Qed.

(** X30.  Two events of the security topic mapped to the same kind for the same
    user have the same dedup key, whatever their payloads and correlation
    ids.  Hence, when the first is routed as a new key, a second one
    routed inside the dedup window of the kind, in a world that holds the
    entry of the first, is answered with the single skip entry "Duplicate
    notification". *)
Theorem security_events_collapse E cfg topics event1 event2 r1 r2 now1 now2 w1 w2 :
  mapEventToNotification topics (security topics) event1 = Request r1 ->
  mapEventToNotification topics (security topics) event2 = Request r2 ->
  userId (payload event1) = userId (payload event2) ->
  q_eventType r1 = q_eventType r2 ->
  dedupKey r1 = dedupKey r2
  /\ (up (redis w1) = true ->
      up (redis w2) = true ->
      visible now1 (dedup (redis w1)) (dedupKey r1) = None ->
      now1 <= now2 < now1 + dedupWindowMs (EVENT_TYPE_CONFIGS (q_eventType r1)) ->
      dedup (redis w2) !! dedupKey r1
      = dedup (redis (world_of (route E cfg now1 r1 w1))) !! dedupKey r1 ->
      route E cfg now2 r2 w2
      = Ok (push_skip (emptyResult E r2 w2) websocket "Duplicate notification")
           (draw_uuid w2)).
Proof.
  unfold mapEventToNotification. intros H1 H2 Hu Hk.
  destruct (userId (payload event1)) as [u1|]; [|discriminate H1].
  destruct (userId (payload event2)) as [u2|]; [|discriminate H2].
  injection Hu as <-.
  rewrite (bool_decide_eq_true_2 _ eq_refl) in H1, H2.
  apply mapSecurityEvent_request in H1 as (Hu1 & _ & _ & Hs1 & _).
  apply mapSecurityEvent_request in H2 as (Hu2 & _ & _ & Hs2 & _).
  assert (Hkey : dedupKey r1 = dedupKey r2).
  { unfold dedupKey. rewrite Hu1, Hu2, Hs1, Hs2, Hk. reflexivity. }
  split; [exact Hkey|].
  intros Hup1 Hup2 Hfresh Hwin Hsame.
  assert (Hpos : 0 < dedupWindowMs (EVENT_TYPE_CONFIGS (q_eventType r1))) by lia.
  rewrite (route_registers E cfg now1 r1 w1 Hup1 Hfresh Hpos) in Hsame.
  eapply route_duplicate; [exact Hup2|].
  rewrite <- Hkey. apply visible_Some. split; [exact Hsame|].
  simpl. apply Z.ltb_lt.
  pose proof (ttlSeconds_covers cfg (dedupWindowMs (EVENT_TYPE_CONFIGS (q_eventType r1)))).
  lia.
Qed.

End EventMapping.

Section EventMappingWitnesses.
Import Redis NotificationRouter Vocabulary.

(** Witness for [mapEventToNotification_request]: a failed sign-in. *)
Lemma mapEventToNotification_request_witness :
  exists r,
    KafkaEventConsumer.mapEventToNotification Scenario.topics "security-events"
      (Scenario.event_login_failed "phone" "c-1") = KafkaEventConsumer.Request r
    /\ q_eventSourceId r = None
    /\ q_correlationId r = Some "c-1".
Proof.
  eexists. split; [reflexivity|].
  destruct (mapEventToNotification_request Scenario.topics "security-events"
              (Scenario.event_login_failed "phone" "c-1") _ eq_refl)
    as (_ & Hc & _ & _ & _ & _ & Hs & _).
  split; [apply Hs; simpl; auto | exact Hc].
Defined.

(** Witness for [security_events_collapse]: two failed sign-ins from two
    devices, 29 s apart. *)
Lemma security_events_collapse_witness :
  exists r1 r2,
    KafkaEventConsumer.mapEventToNotification Scenario.topics "security-events"
      (Scenario.event_login_failed "phone" "c-1") = KafkaEventConsumer.Request r1
    /\ KafkaEventConsumer.mapEventToNotification Scenario.topics "security-events"
         (Scenario.event_login_failed "laptop" "c-2") = KafkaEventConsumer.Request r2
    /\ route Scenario.env Config.default 30000 r2
             (world_of (route Scenario.env Config.default 1000 r1 Scenario.world_empty))
       = Ok (push_skip
               (emptyResult Scenario.env r2
                  (world_of (route Scenario.env Config.default 1000 r1
                                   Scenario.world_empty)))
               websocket "Duplicate notification")
            (draw_uuid (world_of (route Scenario.env Config.default 1000 r1
                                        Scenario.world_empty))).
Proof.
  do 2 eexists. split; [reflexivity|]. split; [reflexivity|].
  apply (proj2 (security_events_collapse Scenario.env Config.default Scenario.topics
                  (Scenario.event_login_failed "phone" "c-1")
                  (Scenario.event_login_failed "laptop" "c-2") _ _ 1000 30000
                  Scenario.world_empty _ eq_refl eq_refl eq_refl eq_refl)).
  - reflexivity.
  - vm_compute. reflexivity.
  - reflexivity.
  - simpl. lia.
  - reflexivity.
Defined.

End EventMappingWitnesses.
